(** * edna2: batching, Dozor log decoding and plot-file decoding

    A shallow embedding of the algorithmic parts of
    [edna2/tasks/ControlDozor.py] and [edna2/tasks/ControlIndexing.py],
    with the properties the design document states about them.

    Conventions.  Python [int] is [Z]; Python [str] is [string] (the
    development only looks at ASCII text); a Python [dict] with string
    keys is a [gmap string _]; a raised exception is an explicit result
    constructor. *)

From Stdlib Require Import ZArith QArith Lia Ascii.
From Stdlib Require String DecimalString DecimalN.
From stdpp Require Import base option list sorting strings gmap relations.

Local Open Scope Z_scope.

(** ** ControlDozor.createListOfBatches *)

Module Batches.

(** The local variables of the [for imageNo in listImageSorted] loop. *)
Record loop_state : Type := LoopState {
  listAllBatches : list (list Z);
  listImagesInBatch : list Z;
  indexBatch : Z;
  indexNextImageInBatch : option Z
}.

Definition loop_entry : loop_state :=
  {| listAllBatches := []; listImagesInBatch := [];
     indexBatch := 0; indexNextImageInBatch := None |}.

(** One iteration of the loop body. *)
Definition body (batchSize : Z) (st : loop_state) (imageNo : Z) : loop_state :=
  match indexNextImageInBatch st with
  | None =>
      (* This image can be appended to this batch *)
      let appended := listImagesInBatch st ++ [imageNo] in
      if decide (batchSize = 1) then
        {| listAllBatches := listAllBatches st ++ [appended];
           listImagesInBatch := [];
           indexBatch := 1;
           indexNextImageInBatch := None |}
      else
        {| listAllBatches := listAllBatches st;
           listImagesInBatch := appended;
           indexBatch := 1;
           indexNextImageInBatch := Some (imageNo + 1) |}
  | Some next =>
      if bool_decide (imageNo ≠ next) || bool_decide (indexBatch st = batchSize) then
        (* A new batch must be started *)
        {| listAllBatches := listAllBatches st ++ [listImagesInBatch st];
           listImagesInBatch := [imageNo];
           indexBatch := 1;
           indexNextImageInBatch := Some (imageNo + 1) |}
      else
        (* This image can be appended to this batch *)
        {| listAllBatches := listAllBatches st;
           listImagesInBatch := listImagesInBatch st ++ [imageNo];
           indexBatch := indexBatch st + 1;
           indexNextImageInBatch := Some (next + 1) |}
  end.

(** [sorted(listImage)] on integers. *)
Definition sorted (listImage : list Z) : list Z := merge_sort Z.le listImage.

(** [if listImagesInBatch: listAllBatches.append(listImagesInBatch)] *)
Definition flush (st : loop_state) : list (list Z) :=
  match listImagesInBatch st with
  | [] => listAllBatches st
  | _ :: _ => listAllBatches st ++ [listImagesInBatch st]
  end.

(** The [if overlap:] block: every image number becomes its own batch. *)
Definition split_up (listAllBatches : list (list Z)) : list (list Z) :=
  foldl (fun newListAllBatches listBatch =>
           foldl (fun acc batch => acc ++ [[batch]]) newListAllBatches listBatch)
        [] listAllBatches.

Definition run_loop (batchSize : Z) (st : loop_state) (l : list Z) : loop_state :=
  foldl (body batchSize) st l.

Definition createListOfBatches
    (listImage : list Z) (batchSize : Z) (overlap : bool) : list (list Z) :=
  let st := run_loop batchSize loop_entry (sorted listImage) in
  let listAllBatches := flush st in
  if overlap then split_up listAllBatches else listAllBatches.

(** Consecutive elements of a batch differ by exactly 1. *)
Fixpoint contiguous (l : list Z) : Prop :=
  match l with
  | a :: (b :: _) as tl => b = a + 1 ∧ contiguous tl
  | _ => True
  end.

(** *** Invariants of the loop *)

(** What the loop has emitted so far, as one list. *)
Definition pending (st : loop_state) : list Z :=
  concat (listAllBatches st) ++ listImagesInBatch st.

(** A batch is a run of consecutive numbers of at most [batchSize] images. *)
Definition well_formed (batchSize : Z) (b : list Z) : Prop :=
  contiguous b ∧ Z.of_nat (length b) ≤ batchSize.

Definition loop_inv (batchSize : Z) (st : loop_state) : Prop :=
  Forall (well_formed batchSize) (listAllBatches st) ∧
  match indexNextImageInBatch st with
  | None => listImagesInBatch st = []
  | Some next =>
      last (listImagesInBatch st) = Some (next - 1) ∧
      well_formed batchSize (listImagesInBatch st) ∧
      indexBatch st = Z.of_nat (length (listImagesInBatch st))
  end.

Definition nonempty_inv (st : loop_state) : Prop :=
  Forall (fun b => b <> []) (listAllBatches st) /\
  (is_Some (indexNextImageInBatch st) -> listImagesInBatch st <> []).

End Batches.

(** ** Python builtins used by the decoders (ASCII text) *)

Module Py.

Inductive exn : Type :=
  IndexError | ValueError | KeyError | AttributeError | TypeError | RuntimeError.

(** The outcome of a Python expression or statement: a value, or a raised
    exception. *)
Inductive result (A : Type) : Type :=
  | Ok (a : A)
  | Raise (e : exn).
Arguments Ok {A} a.
Arguments Raise {A} e.

#[global] Instance result_ret : MRet result := fun A a => Ok a.
#[global] Instance result_bind : MBind result := fun A B f m =>
  match m with Ok a => f a | Raise e => Raise e end.
#[global] Instance result_fmap : FMap result := fun A B f m =>
  match m with Ok a => Ok (f a) | Raise e => Raise e end.

(** [d[key]] *)
Definition dict_getitem {K V} `{Countable K} (d : gmap K V) (key : K) : result V :=
  match d !! key with Some v => Ok v | None => Raise KeyError end.

(** [l[i]] for a non-negative index. *)
Definition getitem {A} (l : list A) (i : nat) : result A :=
  match l !! i with Some a => Ok a | None => Raise IndexError end.

(** [str.isspace] on one ASCII character: the whitespace of [str.split()]
    and [str.strip()]. *)
Definition isspace (c : ascii) : bool :=
  match c with
  | "009" | "010" | "011" | "012" | "013"
  | "028" | "029" | "030" | "031" | " " => true
  | _ => false
  end%char.

Definition is_digit (c : ascii) : bool :=
  match c with
  | "0" | "1" | "2" | "3" | "4" | "5" | "6" | "7" | "8" | "9" => true
  | _ => false
  end%char.

Definition digit_value (c : ascii) : Z :=
  match c with
  | "1" => 1 | "2" => 2 | "3" => 3 | "4" => 4 | "5" => 5
  | "6" => 6 | "7" => 7 | "8" => 8 | "9" => 9 | _ => 0
  end%char.

Fixpoint all_digits (s : string) : bool :=
  match s with
  | "" => true
  | String c r => is_digit c && all_digits r
  end.

(** [s.isdigit()] *)
Definition isdigit (s : string) : bool :=
  match s with "" => false | _ => all_digits s end.

(** [s.startswith(prefix)] *)
Definition startswith (s prefix : string) : bool := String.prefix prefix s.

(** [s.endswith(suffix)] *)
Definition endswith (s suffix : string) : bool :=
  String.prefix (String.rev suffix) (String.rev s).

(** [c in s] for a one-character [c]. *)
Fixpoint contains (c : ascii) (s : string) : bool :=
  match s with
  | "" => false
  | String a r => if decide (a = c) then true else contains c r
  end.

(** [s.replace(old, new)] for one-character [old]. *)
Fixpoint replace (old : ascii) (new : string) (s : string) : string :=
  match s with
  | "" => ""
  | String a r =>
      if decide (a = old) then new +:+ replace old new r
      else String a (replace old new r)
  end.

(** [s.split(sep)] for a one-character separator: never empty. *)
Fixpoint split_go (sep : ascii) (cur : string) (s : string) : list string :=
  match s with
  | "" => [String.rev cur]
  | String a r =>
      if decide (a = sep) then String.rev cur :: split_go sep "" r
      else split_go sep (String a cur) r
  end.
Definition split_on (sep : ascii) (s : string) : list string := split_go sep "" s.

(** [s.split()]: maximal runs of non-whitespace characters. *)
Fixpoint split_ws_go (cur : option string) (s : string) : list string :=
  match s with
  | "" => option_list (String.rev <$> cur)
  | String a r =>
      if isspace a then option_list (String.rev <$> cur) ++ split_ws_go None r
      else split_ws_go (Some (String a (default "" cur))) r
  end.
Definition split_ws (s : string) : list string := split_ws_go None s.

Fixpoint lstrip_with (sp : ascii -> bool) (s : string) : string :=
  match s with
  | "" => ""
  | String a r => if sp a then lstrip_with sp r else s
  end.
Definition strip_with (sp : ascii -> bool) (s : string) : string :=
  String.rev (lstrip_with sp (String.rev (lstrip_with sp s))).

(** [s.strip()] *)
Definition strip (s : string) : string := strip_with isspace s.

(** [s[1:]] *)
Definition tail (s : string) : string :=
  match s with "" => "" | String _ r => r end.

(** The digits of [int(s)]: decimal digits, single underscores allowed
    between two digits. *)
Fixpoint int_digits (acc : Z) (after_underscore : bool) (s : string) : option Z :=
  match s with
  | "" => if after_underscore then None else Some acc
  | String c r =>
      if is_digit c then int_digits (10 * acc + digit_value c) false r
      else if decide (c = "_"%char) then
        (if after_underscore then None else int_digits acc true r)
      else None
  end.

Definition int_unsigned (s : string) : option Z :=
  match s with
  | String c _ => if is_digit c then int_digits 0 false s else None
  | "" => None
  end.

(** [int(s)] in base 10 for an ASCII string; [None] stands for the
    [ValueError] it raises.  Surrounding blanks are accepted, as are a sign
    and underscores between digits. *)
Definition int (s : string) : option Z :=
  match strip_with Ascii.is_space s with
  | String "+" r => int_unsigned r
  | String "-" r => Z.opp <$> int_unsigned r
  | t => int_unsigned t
  end.

Definition int_or_raise (s : string) : result Z :=
  match int s with Some n => Ok n | None => Raise ValueError end.

End Py.

(** ** shlex.split

    The tokenizer of the standard library in the configuration
    [shlex.split] uses: POSIX mode, [whitespace_split], no comment
    characters.  The states are those of [shlex.read_token]. *)

Module Shlex.
Import Py.

Inductive mode : Type :=
  | Blank                            (* state ' ' *)
  | Word                             (* state 'a' *)
  | Quote (q : ascii)                (* state is the opening quote *)
  | Escape (escapedstate : option ascii).
      (* state is the backslash; [escapedstate] is 'a' ([None]) or a quote *)

Definition whitespace (c : ascii) : bool :=
  match c with " " | "009" | "013" | "010" => true | _ => false end%char.

Definition backslash : ascii := "092"%char.
Definition double_quote : ascii := "034"%char.
Definition single_quote : ascii := "039"%char.

Definition is_quote (c : ascii) : bool :=
  bool_decide (c = single_quote) || bool_decide (c = double_quote).

Definition nonempty (s : string) : bool :=
  match s with "" => false | _ => true end.

Definition push (token : string) (c : ascii) : string := token +:+ String c "".

(** The end of [read_token]: an unquoted empty token is no token. *)
Definition finish (quoted : bool) (token : string) : list string :=
  if nonempty token || quoted then [token] else [].

Fixpoint lex (st : mode) (quoted : bool) (token : string) (s : string)
    : result (list string) :=
  match s with
  | "" =>
      match st with
      | Blank | Word => Ok (finish quoted token)
      | Quote _ => Raise ValueError       (* No closing quotation *)
      | Escape _ => Raise ValueError      (* No escaped character *)
      end
  | String c r =>
      match st with
      | Blank =>
          if whitespace c then
            if nonempty token || quoted
            then cons token <$> lex Blank false "" r
            else lex Blank quoted token r
          else if decide (c = backslash) then lex (Escape None) quoted token r
          else if is_quote c then lex (Quote c) quoted token r
          else lex Word quoted (String c "") r
      | Word =>
          if whitespace c then
            if nonempty token || quoted
            then cons token <$> lex Blank false "" r
            else lex Blank quoted token r
          else if is_quote c then lex (Quote c) quoted token r
          else if decide (c = backslash) then lex (Escape None) quoted token r
          else lex Word quoted (push token c) r
      | Quote q =>
          if decide (c = q) then lex Word true token r
          else if bool_decide (c = backslash) && bool_decide (q = double_quote)
          then lex (Escape (Some q)) true token r
          else lex (Quote q) true (push token c) r
      | Escape escapedstate =>
          let token :=
            match escapedstate with
            | Some q =>
                if bool_decide (c ≠ backslash) && bool_decide (c ≠ q)
                then push token backslash else token
            | None => token
            end in
          lex (match escapedstate with Some q => Quote q | None => Word end)
              quoted (push token c) r
      end
  end.

(** [shlex.split(s)] *)
Definition split (s : string) : result (list string) := lex Blank false "" s.

End Shlex.

(** ** Floating-point numbers

    The decoders only add, subtract, multiply and divide floats and
    convert text to them; the operations are kept abstract.  [Q] with
    exact arithmetic is the instance used for the algebraic statements
    and for running the decoders on plain decimal numerals. *)

Class PyFloat (F : Type) : Type := {
  float_of_int : Z -> F;
  fadd : F -> F -> F;
  fsub : F -> F -> F;
  fmul : F -> F -> F;
  fdiv : F -> F -> F;
  (** [x == y] *)
  float_eqb : F -> F -> bool;
  (** [float(s)]; [None] stands for the [ValueError] it raises *)
  float_of_str : string -> option F
}.

Module Decimal.
Import Py.

(** The value of a plain decimal numeral: a sign, digits, at most one
    point.  [float] reads such a numeral as this number (up to rounding);
    it also accepts exponents, [inf], [nan], underscores and surrounding
    blanks, which are not numerals here. *)
Fixpoint digits (acc : Z) (scale : positive) (seen_point seen_digit : bool)
    (s : string) : option Q :=
  match s with
  | "" => if seen_digit then Some (Qred (acc # scale)) else None
  | String c r =>
      if is_digit c then
        digits (10 * acc + digit_value c)
               (if seen_point then 10 * scale else scale)%positive
               seen_point true r
      else if bool_decide (c = "."%char) && negb seen_point then
        digits acc scale true seen_digit r
      else None
  end.

Definition of_string (s : string) : option Q :=
  match s with
  | String "+" r => digits 0 1 false false r
  | String "-" r => Qopp <$> digits 0 1 false false r
  | _ => digits 0 1 false false s
  end.

End Decimal.

#[global] Instance Q_float : PyFloat Q := {|
  float_of_int := inject_Z;
  fadd := Qplus;
  fsub := Qminus;
  fmul := Qmult;
  fdiv := Qdiv;
  float_eqb := Qeq_bool;
  float_of_str := Decimal.of_string
|}.

(** ** ExecDozor: the back-computed starting angle and parseOutput *)

Module ExecDozor.
Import Py.

(** A value stored in one of the result dictionaries. *)
Inductive pyval (F : Type) : Type :=
  | VNone
  | VInt (n : Z)
  | VFloat (x : F)
  | VStr (s : string)
  | VList (l : list Z).
Arguments VNone {F}.
Arguments VInt {F} n.
Arguments VFloat {F} x.
Arguments VStr {F} s.
Arguments VList {F} l.

(** The entries of [inData] the decoder and the angle computation read. *)
Record inData (F : Type) : Type := InData {
  startingAngle : F;
  firstImageNumber : Z;
  oscillationRange : F;
  overlap : option F;              (* read with inData.get("overlap", 0.0) *)
  nameTemplateImage : string
}.
Arguments InData {F}.
Arguments startingAngle {F}.
Arguments firstImageNumber {F}.
Arguments oscillationRange {F}.
Arguments overlap {F}.
Arguments nameTemplateImage {F}.

(** What [parseOutput] returns from its decoding loop. *)
Record resultDozor (F : Type) : Type := ResultDozor {
  imageDozor : list (gmap string (pyval F));
  halfDoseTime : option string
}.
Arguments ResultDozor {F}.
Arguments imageDozor {F}.
Arguments halfDoseTime {F}.

(** ["%05d" % n] *)
Definition decimal (n : Z) : string :=
  DecimalString.NilZero.string_of_uint (N.to_uint (Z.to_N n)).
Fixpoint zeros (k : nat) : string :=
  match k with O => "" | S k => String "0" (zeros k) end.
Definition zero_pad (width : nat) (s : string) : string :=
  zeros (width - String.length s) +:+ s.
Definition format_05d (n : Z) : string :=
  if n <? 0 then "-" +:+ zero_pad 4 (decimal (- n)) else zero_pad 5 (decimal n).

(** [os.path.join(a, b)] *)
Definition path_join (a b : string) : string :=
  if startswith b "/" then b
  else if bool_decide (a = "") || endswith a "/" then a +:+ b
  else a +:+ "/" +:+ b.

Section decoder.
Context {F : Type} {float : PyFloat F}.

(** The environment of the decoder: [image_name template n] is
    [template.format(n)] for the format string lines 275-280 derive from
    [nameTemplateImage]; [path_exists] is [os.path.exists]. *)
Context (image_name : string -> Z -> string) (path_exists : string -> bool).

(** generateCommands, lines 252-256: the angle written as [starting_angle]. *)
Definition overall_starting_angle (d : inData F) : F :=
  fsub (startingAngle d)
       (fmul (float_of_int (firstImageNumber d - 1)) (oscillationRange d)).

(** parseOutput, lines 290-296. *)
Definition angle (d : inData F) (imageNumber : Z) : F :=
  let overlap := default (float_of_int 0) (overlap d) in
  fadd (fadd (startingAngle d)
             (fmul (float_of_int (imageNumber - firstImageNumber d))
                   (fsub (oscillationRange d) overlap)))
       (fdiv (oscillationRange d) (float_of_int 2)).

(** [ExecDozor.parseDouble]: never raises, [None] on a failed conversion. *)
Definition parseDouble (value : string) : pyval F :=
  match float_of_str value with
  | Some x => VFloat x
  | None => VNone
  end.

(** A statement of the [try] block: it updates the dictionary or raises. *)
Definition stmt : Type := gmap string (pyval F) -> result (gmap string (pyval F)).

(** [imageDozor[key] = rhs] *)
Definition assign (key : string) (rhs : result (pyval F)) : stmt :=
  fun d => v ← rhs; Ok (<[key := v]> d).

(** A statement sequence under [try: ... except Exception]: the updates
    made before the exception stay. *)
Fixpoint exec (body : list stmt) (d : gmap string (pyval F)) : gmap string (pyval F) :=
  match body with
  | [] => d
  | s :: rest =>
      match s d with
      | Ok d' => exec rest d'
      | Raise _ => d
      end
  end.

Definition short_layout (listLine : list string) : list stmt :=
  [ assign "spotsNumOf" (VInt <$> (getitem listLine 1 ≫= int_or_raise));
    assign "spotsIntAver" (parseDouble <$> getitem listLine 2);
    assign "spotsRFactor" (parseDouble <$> getitem listLine 3);
    assign "spotsResolution" (parseDouble <$> getitem listLine 4);
    assign "mainScore" (parseDouble <$> getitem listLine 8);
    assign "spotScore" (parseDouble <$> getitem listLine 9);
    assign "visibleResolution" (parseDouble <$> getitem listLine 10) ].

Definition extended_layout (listLine : list string) : list stmt :=
  [ assign "spotsNumOf" (VInt <$> (getitem listLine 1 ≫= int_or_raise));
    assign "spotsIntAver" (parseDouble <$> getitem listLine 2);
    assign "spotsRfactor" (parseDouble <$> getitem listLine 3);
    assign "spotsResolution" (parseDouble <$> getitem listLine 4);
    assign "powderWilsonScale" (parseDouble <$> getitem listLine 5);
    assign "powderWilsonBfactor" (parseDouble <$> getitem listLine 6);
    assign "powderWilsonResolution" (parseDouble <$> getitem listLine 7);
    assign "powderWilsonCorrelation" (parseDouble <$> getitem listLine 8);
    assign "powderWilsonRfactor" (parseDouble <$> getitem listLine 9);
    assign "mainScore" (parseDouble <$> getitem listLine 10);
    assign "spotScore" (parseDouble <$> getitem listLine 11);
    assign "visibleResolution" (parseDouble <$> getitem listLine 12) ].

(** Lines 306-338: the [try] block with its [except Exception]. *)
Definition try_layout (listLine : list string) (d : gmap string (pyval F))
    : gmap string (pyval F) :=
  match getitem listLine 5 with
  | Raise _ => d
  | Ok token5 =>
      if startswith token5 "-" || bool_decide (length listLine < 11)%nat
      then exec (short_layout listLine) d
      else exec (extended_layout listLine) d
  end.

(** Lines 297-305: the entries every record starts with. *)
Definition new_record (d : inData F) (imageNumber : Z) : gmap string (pyval F) :=
  <["visibleResolution" := VInt 40]> (
  <["spotScore" := VNone]> (
  <["mainScore" := VNone]> (
  <["spotsResolution" := VNone]> (
  <["spotsIntAver" := VNone]> (
  <["spotsNumOf" := VNone]> (
  <["angle" := VFloat (angle d imageNumber)]> (
  <["image" := VStr (image_name (nameTemplateImage d) imageNumber)]> (
  <["number" := VInt imageNumber]> ∅)))))))).

(** Lines 340-345. *)
Definition attach_spot_file (workingDir : option string) (imageNumber : Z)
    (d : gmap string (pyval F)) : gmap string (pyval F) :=
  match workingDir with
  | None => d
  | Some dir =>
      let spotFile := path_join dir (format_05d imageNumber +:+ ".spot") in
      if path_exists spotFile then <["spotFile" := VStr spotFile]> d else d
  end.

(** Lines 288-347: the record of a result row whose tokens are [listLine]
    and whose first token is [token0]. *)
Definition decode_row (d : inData F) (workingDir : option string)
    (token0 : string) (listLine : list string) : result (gmap string (pyval F)) :=
  imageNumber ← int_or_raise token0;
  Ok (attach_spot_file workingDir imageNumber
        (try_layout listLine (new_record d imageNumber))).

Definition is_row (listLine : list string) : option string :=
  match listLine with
  | token0 :: _ => if isdigit token0 then Some token0 else None
  | [] => None
  end.

(** One iteration of [for line in listOutput]. *)
Definition parse_line (d : inData F) (workingDir : option string)
    (res : resultDozor F) (line : string) : result (resultDozor F) :=
  listLine ← Shlex.split (replace "|" " " line);
  match is_row listLine with
  | Some token0 =>
      record ← decode_row d workingDir token0 listLine;
      Ok {| imageDozor := imageDozor res ++ [record];
            halfDoseTime := halfDoseTime res |}
  | None =>
      if startswith line "h" then
        rhs ← getitem (split_on "=" line) 1;
        value ← getitem (split_ws rhs) 0;
        Ok {| imageDozor := imageDozor res; halfDoseTime := Some value |}
      else Ok res
  end.

Fixpoint parse_lines (d : inData F) (workingDir : option string)
    (res : resultDozor F) (listOutput : list string) : result (resultDozor F) :=
  match listOutput with
  | [] => Ok res
  | line :: rest =>
      res' ← parse_line d workingDir res line;
      parse_lines d workingDir res' rest
  end.

(** [parseOutput], lines 271-349: the decoding of the log.  The rest of
    the method only attaches paths of files found in the working
    directory. *)
Definition parseOutput (d : inData F) (output : string)
    (workingDir : option string) : result (resultDozor F) :=
  let listOutput := drop 6 (split_on "010" output) in
  parse_lines d workingDir {| imageDozor := []; halfDoseTime := None |} listOutput.

(** *** Vocabulary of the statements about the decoder *)

(** The value a field read at position [pos] ends with: the converted
    token when the row has that position, else what the record had. *)
Definition field_or (listLine : list string) (pos : nat) (dflt : pyval F) : pyval F :=
  match listLine !! pos with
  | Some token => parseDouble token
  | None => dflt
  end.

Definition powder_keys : list string :=
  ["powderWilsonScale"; "powderWilsonBfactor"; "powderWilsonResolution";
   "powderWilsonCorrelation"; "powderWilsonRfactor"].

(** The floating-point fields of the two layouts with their positions. *)
Definition short_fields : list (string * nat) :=
  [("spotsIntAver", 2%nat); ("spotsRFactor", 3%nat); ("spotsResolution", 4%nat);
   ("mainScore", 8%nat); ("spotScore", 9%nat); ("visibleResolution", 10%nat)].

Definition extended_fields : list (string * nat) :=
  [("spotsIntAver", 2%nat); ("spotsRfactor", 3%nat); ("spotsResolution", 4%nat);
   ("powderWilsonScale", 5%nat); ("powderWilsonBfactor", 6%nat);
   ("powderWilsonResolution", 7%nat); ("powderWilsonCorrelation", 8%nat);
   ("powderWilsonRfactor", 9%nat); ("mainScore", 10%nat); ("spotScore", 11%nat);
   ("visibleResolution", 12%nat)].

(** The field holds the conversion of its own token, and is null exactly
    when that token does not convert. *)
Definition field_law (listLine : list string) (record : gmap string (pyval F))
    (field : string * nat) : Prop :=
  exists token,
    listLine !! field.2 = Some token /\
    record !! field.1 = Some (parseDouble token) /\
    (record !! field.1 = Some VNone <-> float_of_str token = None).

(** A line the loop gets through without an exception. *)
Definition line_decodes (line : string) : Prop :=
  exists listLine,
    Shlex.split (replace "|" " " line) = Ok listLine /\
    (is_row listLine = None -> startswith line "h" = true ->
     exists rhs value,
       split_on "=" line !! 1%nat = Some rhs /\ split_ws rhs !! 0%nat = Some value).

Definition empty_result : resultDozor F :=
  {| imageDozor := []; halfDoseTime := None |}.

(** The decoded lines [r] put after the decoded lines [res]. *)
Definition extend (res r : resultDozor F) : resultDozor F :=
  {| imageDozor := imageDozor res ++ imageDozor r;
     halfDoseTime := match halfDoseTime r with
                     | Some value => Some value
                     | None => halfDoseTime res
                     end |}.

End decoder.

(** [inData] with the back-computed angle put in the place of
    [startingAngle], and no overlap. *)
Definition substituted (d : inData Q) : inData Q :=
  {| startingAngle := overall_starting_angle d;
     firstImageNumber := firstImageNumber d;
     oscillationRange := oscillationRange d;
     overlap := None;
     nameTemplateImage := nameTemplateImage d |}.

End ExecDozor.

(** ** ExecDozor.generatePngPlots: the plot-file parser (lines 384-430) *)

Module PlotMtv.
Import Py.

(** A value in a plot or sub-plot dictionary: an attribute string, a list
    of floats, or a reference to a list object. *)
Inductive plotval (F : Type) : Type :=
  | PStr (s : string)
  | PFloats (l : list F)
  | PRef (r : nat).
Arguments PStr {F} s.
Arguments PFloats {F} l.
Arguments PRef {F} r.

(** The objects of the parser.  [dictPlotList] and [dictSubPlot] are
    variables that also stay reachable from [listPlots], so the list
    objects and the sub-plot dictionaries live in a store and the
    variables hold references into it. *)
Record state (F : Type) : Type := State {
  listPlots : list (gmap string (plotval F));
  plot_lists : list (list nat);
  sub_plots : list (gmap string (plotval F));
  dictPlotList : nat;
  dictSubPlot : nat
}.
Arguments State {F}.
Arguments listPlots {F}.
Arguments plot_lists {F}.
Arguments sub_plots {F}.
Arguments dictPlotList {F}.
Arguments dictSubPlot {F}.

(** [f.readlines()]: the lines with their newline. *)
Fixpoint readlines_go (cur : string) (s : string) : list string :=
  match s with
  | "" => match cur with "" => [] | _ => [String.rev cur] end
  | String c r =>
      if decide (c = "010"%char) then String.rev (String c cur) :: readlines_go "" r
      else readlines_go (String c cur) r
  end.
Definition readlines (s : string) : list string := readlines_go "" s.

Section parser.
Context {F : Type} {float : PyFloat F}.

(** Lines 384-386. *)
Definition parser_entry : state F :=
  {| listPlots := []; plot_lists := [[]]; sub_plots := [∅];
     dictPlotList := 0; dictSubPlot := 0 |}.

(** The right-hand side of an attribute line, lines 401-405. *)
Definition attribute_value (rhs : string) : result string :=
  value ← (if contains "039" rhs then getitem (split_on "039" rhs) 1 else Ok rhs);
  Ok (strip (replace "010" "" value)).

(** [while listLines[index].startswith("%"): ...] on the lines from
    [index] on; it returns the filled dictionary and the lines left. *)
Fixpoint attributes (lines : list string) (d : gmap string (plotval F))
    : result (gmap string (plotval F) * list string) :=
  match lines with
  | [] => Raise IndexError
  | line :: rest =>
      if startswith line "%" then
        let listLine := split_on "=" line in
        first ← getitem listLine 0;
        let label := strip (tail first) in
        rhs ← getitem listLine 1;
        value ← attribute_value rhs;
        attributes rest (<[label := PStr value]> d)
      else Ok (d, lines)
  end.

(** Lines 391-407: a line starting with [$]; [rest] are the lines after it. *)
Definition plot_block (st : state F) (rest : list string)
    : result (state F * list string) :=
  let ref := length (plot_lists st) in
  let dictPlot := <["plotList" := PRef ref]> ∅ in
  nameLine ← getitem rest 0;
  name ← getitem (split_on "039" nameLine) 1;
  let dictPlot := <["name" := PStr name]> dictPlot in
  '(dictPlot, rest) ← attributes (drop 1 rest) dictPlot;
  Ok ({| listPlots := listPlots st ++ [dictPlot];
         plot_lists := plot_lists st ++ [[]];
         sub_plots := sub_plots st;
         dictPlotList := ref;
         dictSubPlot := dictSubPlot st |}, rest).

(** Lines 409-425: a line starting with [#]. *)
Definition sub_plot (st : state F) (line : string) (rest : list string)
    : result (state F * list string) :=
  let ref := length (sub_plots st) in
  plotName ← getitem (split_on "#" line) 1;
  let dictSubPlot := <["name" := PStr (strip (replace "010" "" plotName))]> ∅ in
  '(dictSubPlot, rest) ← attributes rest dictSubPlot;
  let dictSubPlot :=
    <["yValues" := PFloats []]> (<["xValues" := PFloats []]> dictSubPlot) in
  Ok ({| listPlots := listPlots st;
         plot_lists := alter (fun l => l ++ [ref]) (dictPlotList st) (plot_lists st);
         sub_plots := sub_plots st ++ [dictSubPlot];
         dictPlotList := dictPlotList st;
         dictSubPlot := ref |}, rest).

Definition float_or_raise (s : string) : result F :=
  match float_of_str s with Some x => Ok x | None => Raise ValueError end.

(** [dictSubPlot[key].append(float(listData[i]))] *)
Definition append_value (key : string) (listData : list string) (i : nat)
    (d : gmap string (plotval F)) : result (gmap string (plotval F)) :=
  values ← dict_getitem d key;
  match values with
  | PFloats l =>
      token ← getitem listData i;
      x ← float_or_raise token;
      Ok (<[key := PFloats (l ++ [x])]> d)
  | _ => Raise AttributeError
  end.

(** Lines 427-430: any other line is a data row of the current sub-plot. *)
Definition data_row (st : state F) (line : string) : result (state F) :=
  let listData := split_ws (replace "010" "" line) in
  d ← getitem (sub_plots st) (dictSubPlot st);
  d ← append_value "xValues" listData 0 d;
  d ← append_value "yValues" listData 1 d;
  Ok {| listPlots := listPlots st;
        plot_lists := plot_lists st;
        sub_plots := <[dictSubPlot st := d]> (sub_plots st);
        dictPlotList := dictPlotList st;
        dictSubPlot := dictSubPlot st |}.

(** [while index < len(listLines)] on the lines from [index] on.  Every
    iteration consumes at least one line; [fuel] bounds the number of
    iterations and [None] means that it ran out. *)
Fixpoint parse (fuel : nat) (st : state F) (lines : list string)
    : option (result (state F)) :=
  match lines with
  | [] => Some (Ok st)
  | line :: rest =>
      match fuel with
      | O => None
      | S fuel =>
          if startswith line "$" then
            match plot_block st rest with
            | Ok (st, rest) => parse fuel st rest
            | Raise e => Some (Raise e)
            end
          else if startswith line "#" then
            match sub_plot st line rest with
            | Ok (st, rest) => parse fuel st rest
            | Raise e => Some (Raise e)
            end
          else
            match data_row st line with
            | Ok st => parse fuel st rest
            | Raise e => Some (Raise e)
            end
      end
  end.

(** The objects built from the text of the plot file. *)
Definition generatePngPlots_parse (text : string) : option (result (state F)) :=
  let listLines := readlines text in
  parse (length listLines) parser_entry listLines.

(** The sub-plot dictionaries reachable from [dictPlot["plotList"]]. *)
Definition plotList (st : state F) (dictPlot : gmap string (plotval F))
    : list (gmap string (plotval F)) :=
  match dictPlot !! "plotList" with
  | Some (PRef r) =>
      omap (fun i => sub_plots st !! i) (default [] (plot_lists st !! r))
  | _ => []
  end.

End parser.

(** The state a finished run ends with. *)
Definition final_state (r : option (result (state Q))) : state Q :=
  match r with
  | Some (Ok st) => st
  | _ => parser_entry
  end.

End PlotMtv.

(** ** ControlDozor.run: batches, execution, aggregation (lines 553-613, 650) *)

Module ControlDozor.
Import Py ExecDozor.

Definition MAX_BATCH_SIZE : Z := 5000.

(** The entries of [inData] that [run] reads when neither a
    [dataCollectionId] nor [doDozorM] is given; [image] is the list
    [listImage] of [createImageDict], given or generated from the
    template. *)
Record inDataControlDozor (F : Type) : Type := InDataControlDozor {
  image : list string;
  batchSize : option Z;
  overlap : option F;
  returnSpotList : bool
}.
Arguments InDataControlDozor {F}.
Arguments image {F}.
Arguments batchSize {F}.
Arguments overlap {F}.
Arguments returnSpotList {F}.

Record outData (F : Type) : Type := OutData {
  imageQualityIndicators : list (gmap string (pyval F));
  detectorType : option string
}.
Arguments OutData {F}.
Arguments imageQualityIndicators {F}.
Arguments detectorType {F}.

Section run.
Context {F : Type} {float : PyFloat F}.

(** Modelled from the spec: the collaborators that are not in this file.
    [getImageNumber] is [UtilsImage.getImageNumber].
    [read_header image] is the header service run by [ReadImageHeader] on
    the first image of a batch: the detector type of its first sub-wedge,
    [None] when the task produced no sub-wedge.
    [execute_dozor image listBatch hasOverlap] is [ExecDozor(inDataDozor)
    .execute()] for the batch, followed by [isFailure()] and [outData]:
    [None] when the execution service reports a failure.
    [path_exists] is [os.path.exists]; [load_spot_list] is the encoding of
    [numpy.loadtxt(spotFile, skiprows=3)] and its shape. *)
Context (getImageNumber : string -> Z)
        (read_header : string -> option string)
        (execute_dozor : string -> list Z -> bool -> option (resultDozor F))
        (path_exists : string -> bool)
        (load_spot_list : string -> result (string * list Z)).

(** [createImageDict] for an explicit list of images, lines 1027-1030. *)
Definition createImageDict (listImage : list string) : gmap Z string :=
  foldl (fun dictImage imagePath => <[getImageNumber imagePath := imagePath]> dictImage)
        ∅ listImage.

(** [value == n] for an integer [n]. *)
Definition equals_int (value : pyval F) (n : Z) : bool :=
  match value with
  | VInt m => bool_decide (m = n)
  | VFloat x => float_eqb x (float_of_int n)
  | _ => false
  end.

(** Lines 776-780: a single HDF5 record takes the number of the image. *)
Definition renumber (imageNumberOrig : Z) (out : resultDozor F)
    : result (resultDozor F) :=
  match imageDozor out with
  | [record] =>
      name ← dict_getitem record "image";
      match name with
      | VStr name =>
          if endswith name ".h5" then
            number ← dict_getitem record "number";
            if equals_int number imageNumberOrig then Ok out
            else Ok {| imageDozor := [<["number" := VInt imageNumberOrig]> record];
                       halfDoseTime := halfDoseTime out |}
          else Ok out
      | _ => Raise AttributeError
      end
  | _ => Ok out
  end.

(** [runDozorTask]: the record list of the batch ([None] when its
    execution failed) and the detector type of its first image. *)
Definition runDozorTask (dictImage : gmap Z string) (listBatch : list Z)
    (hasOverlap : bool) : result (option (resultDozor F) * string) :=
  first ← getitem listBatch 0;
  image ← dict_getitem dictImage first;
  let imageNumberOrig := getImageNumber image in
  detectorType ← match read_header image with
                 | Some t => Ok t
                 | None => Raise KeyError
                 end;
  match execute_dozor image listBatch hasOverlap with
  | None => Ok (None, detectorType)
  | Some out =>
      out ← renumber imageNumberOrig out;
      Ok (Some out, detectorType)
  end.

(** Lines 586-610: the indicators of one record. *)
Definition indicators (returnSpotList : bool) (imageDozor : gmap string (pyval F))
    : result (gmap string (pyval F)) :=
  angle ← dict_getitem imageDozor "angle";
  number ← dict_getitem imageDozor "number";
  image ← dict_getitem imageDozor "image";
  mainScore ← dict_getitem imageDozor "mainScore";
  spotScore ← dict_getitem imageDozor "spotScore";
  spotsNumOf ← dict_getitem imageDozor "spotsNumOf";
  spotsIntAver ← dict_getitem imageDozor "spotsIntAver";
  spotsResolution ← dict_getitem imageDozor "spotsResolution";
  visibleResolution ← dict_getitem imageDozor "visibleResolution";
  let imageQualityIndicators : gmap string (pyval F) :=
    <["dozorVisibleResolution" := visibleResolution]> (
    <["dozorSpotsResolution" := spotsResolution]> (
    <["dozorSpotsIntAver" := spotsIntAver]> (
    <["dozorSpotsNumOf" := spotsNumOf]> (
    <["dozorSpotScore" := spotScore]> (
    <["dozorScore" := mainScore]> (
    <["image" := image]> (
    <["number" := number]> (
    <["angle" := angle]> ∅)))))))) in
  match imageDozor !! "spotFile" with
  | None => Ok imageQualityIndicators
  | Some (VStr spotFile) =>
      if path_exists spotFile then
        let imageQualityIndicators :=
          <["dozorSpotFile" := VStr spotFile]> imageQualityIndicators in
        if returnSpotList then
          '(encoded, shape) ← load_spot_list spotFile;
          Ok (<["dozorSpotListShape" := VList shape]> (
              <["dozorSpotList" := VStr encoded]> imageQualityIndicators))
        else Ok imageQualityIndicators
      else Ok imageQualityIndicators
  | Some _ => Raise TypeError
  end.

(** [for imageDozor in outDataDozor["imageDozor"]: ... append] *)
Fixpoint append_indicators (returnSpotList : bool)
    (acc : list (gmap string (pyval F))) (records : list (gmap string (pyval F)))
    : result (list (gmap string (pyval F))) :=
  match records with
  | [] => Ok acc
  | imageDozor :: rest =>
      imageQualityIndicators ← indicators returnSpotList imageDozor;
      append_indicators returnSpotList (acc ++ [imageQualityIndicators]) rest
  end.

(** [for listBatch in listAllBatches: ...], lines 574-613. *)
Fixpoint run_batches (dictImage : gmap Z string) (hasOverlap returnSpotList : bool)
    (out : outData F) (listAllBatches : list (list Z)) : result (outData F) :=
  match listAllBatches with
  | [] => Ok out
  | listBatch :: rest =>
      '(outDataDozor, detectorType) ← runDozorTask dictImage listBatch hasOverlap;
      acc ← match outDataDozor with
            | Some outDataDozor =>
                append_indicators returnSpotList (imageQualityIndicators out)
                                  (imageDozor outDataDozor)
            | None => Ok (imageQualityIndicators out)
            end;
      run_batches dictImage hasOverlap returnSpotList
        {| imageQualityIndicators := acc; detectorType := Some detectorType |} rest
  end.

(** [run] without a [dataCollectionId] and without [doDozorM]: no
    connection to ISPyB, no plot, no dozor_all file. *)
Definition run (d : inDataControlDozor F) : result (outData F) :=
  let batchSize := default MAX_BATCH_SIZE (batchSize d) in
  let dictImage := createImageDict (image d) in
  let overlap := default (float_of_int 0) (overlap d) in
  let hasOverlap := negb (float_eqb overlap (float_of_int 0)) in
  let listAllBatches :=
    Batches.createListOfBatches (elements (dom dictImage)) batchSize hasOverlap in
  run_batches dictImage hasOverlap (returnSpotList d)
    {| imageQualityIndicators := []; detectorType := None |} listAllBatches.

(** *** Vocabulary of the statements about [run] *)

Definition base_keys : list string :=
  ["angle"; "number"; "image"; "mainScore"; "spotScore"; "spotsNumOf";
   "spotsIntAver"; "spotsResolution"; "visibleResolution"].

(** The shape of the records [parseOutput] builds. *)
Definition complete_record (record : gmap string (pyval F)) : Prop :=
  Forall (fun key => is_Some (record !! key)) base_keys /\
  (exists name, record !! "image" = Some (VStr name)) /\
  (forall v, record !! "spotFile" = Some v -> exists spotFile, v = VStr spotFile).

Definition headers_readable (listImage : list string) : Prop :=
  forall path, path ∈ listImage -> is_Some (read_header path).

Definition records_complete : Prop :=
  forall image listBatch hasOverlap outDataDozor,
    execute_dozor image listBatch hasOverlap = Some outDataDozor ->
    Forall complete_record (imageDozor outDataDozor).

Definition spot_lists_load (returnSpotList : bool) : Prop :=
  returnSpotList = true ->
  forall spotFile, path_exists spotFile = true -> exists v, load_spot_list spotFile = Ok v.

(** What one batch adds to [imageQualityIndicators]: nothing when its
    execution failed, else the indicators of its records, in their order. *)
Definition batch_contribution (dictImage : gmap Z string) (hasOverlap returnSpotList : bool)
    (listBatch : list Z) (added : list (gmap string (pyval F))) : Prop :=
  exists first image,
    listBatch !! 0%nat = Some first /\ dictImage !! first = Some image /\
    match execute_dozor image listBatch hasOverlap with
    | None => added = []
    | Some outDataDozor =>
        exists outDataDozor',
          renumber (getImageNumber image) outDataDozor = Ok outDataDozor' /\
          Forall2 (fun record i => indicators returnSpotList record = Ok i)
                  (imageDozor outDataDozor') added
    end.

End run.
End ControlDozor.

(** ** ControlIndexing.runControlDozor *)

Module ControlIndexing.

(** A started task is running until it has finished. *)
Inductive status : Type := Running | Finished.

(** Where the calling thread is: in the first loop with the images still
    to start, in the second loop about to join task [k], or returned. *)
Inductive position : Type :=
  | Starting (todo : list string)
  | Joining (k : nat)
  | Returned.

Record machine (A : Type) : Type := Machine {
  position_of : position;
  listControlDozor : list (string * status);
  listOutDataControlDozor : list A
}.
Arguments Machine {A}.
Arguments position_of {A}.
Arguments listControlDozor {A}.
Arguments listOutDataControlDozor {A}.

Section threads.
Context {A : Type}.

(** Modelled from the spec: [AbstractTask.isSuccess] and [outData] are not
    in this file.  [outcome path] is what the ControlDozor task of an image
    ends with: its [outData], or [None] when [isSuccess()] is false. *)
Context (outcome : string -> option A).

Definition contribution (path : string) : list A :=
  match outcome path with Some outData => [outData] | None => [] end.

(** The images of all sub-wedges, in the order of the two nested loops. *)
Definition images (listSubWedge : list (list string)) : list string :=
  concat listSubWedge.

Definition initial (listSubWedge : list (list string)) : machine A :=
  {| position_of := Starting (images listSubWedge);
     listControlDozor := [];
     listOutDataControlDozor := [] |}.

(** Modelled from the spec: [AbstractTask.start] and [join] are not in
    this file.  [start] makes the task run concurrently with the caller,
    the task finishes at a moment of its own, and [join] returns once it
    has.  The steps of the caller are the two loops of [runControlDozor]. *)
Inductive step : machine A -> machine A -> Prop :=
  | step_start path todo tasks out :
      (* listControlDozor.append(controlDozor); controlDozor.start() *)
      step (Machine (Starting (path :: todo)) tasks out)
           (Machine (Starting todo) (tasks ++ [(path, Running)]) out)
  | step_started tasks out :
      step (Machine (Starting []) tasks out) (Machine (Joining 0) tasks out)
  | step_finish pos tasks out k path :
      (* a running task finishes, whatever the caller is doing *)
      tasks !! k = Some (path, Running) ->
      step (Machine pos tasks out) (Machine pos (<[k := (path, Finished)]> tasks) out)
  | step_join tasks out k path :
      (* controlDozor.join() returns; the output of a success is appended *)
      tasks !! k = Some (path, Finished) ->
      step (Machine (Joining k) tasks out)
           (Machine (Joining (S k)) tasks (out ++ contribution path))
  | step_return tasks out k :
      tasks !! k = None ->
      step (Machine (Joining k) tasks out) (Machine Returned tasks out).

Definition is_running (task : string * status) : nat :=
  match task.2 with Running => 1 | Finished => 0 end.

(** The number of tasks that are running. *)
Definition running (tasks : list (string * status)) : nat :=
  sum_list_with is_running tasks.

(** A bound on the number of steps still to take. *)
Definition measure (total : nat) (m : machine A) : nat :=
  running (listControlDozor m) +
  match position_of m with
  | Starting todo => 2 * length todo + total + 2
  | Joining k => (total - k) + 1
  | Returned => 0
  end.

Definition finished (task : string * status) : Prop := task.2 = Finished.

(** What holds in every state the machine can reach from [initial]. *)
Definition reachable_inv (imgs : list string) (m : machine A) : Prop :=
  match position_of m with
  | Starting todo =>
      (listControlDozor m).*1 ++ todo = imgs /\ listOutDataControlDozor m = []
  | Joining k =>
      (listControlDozor m).*1 = imgs /\ (k <= length imgs)%nat /\
      listOutDataControlDozor m = omap outcome (take k imgs) /\
      Forall finished (take k (listControlDozor m))
  | Returned =>
      (listControlDozor m).*1 = imgs /\
      listOutDataControlDozor m = omap outcome imgs /\
      Forall finished (listControlDozor m)
  end.

End threads.
End ControlIndexing.

(** ** Sample inputs

    Concrete collaborators and inputs on which the decoders are run. *)

Module Samples.
Import Py ExecDozor.

(** No spot file and no plot file in the working directory. *)
Definition no_files (path : string) : bool := false.

Fixpoint count (c : ascii) (s : string) : nat :=
  match s with
  | "" => 0
  | String a r => (if decide (a = c) then 1 else 0) + count c r
  end.

Fixpoint wildcards (k : nat) (s : string) : option string :=
  match k, s with
  | O, _ => Some s
  | S k, String "?" r => wildcards k r
  | S _, _ => None
  end.

Fixpoint fill (k : nat) (number : string) (s : string) : string :=
  match s with
  | "" => ""
  | String c r =>
      if decide (c = "?"%char) then
        match wildcards (k - 1) r with
        | Some rest => number +:+ rest
        | None => s
        end
      else String c (fill k number r)
  end.

Fixpoint interleave (number : string) (s : string) : string :=
  match s with
  | "" => number
  | String c r => number +:+ String c (interleave number r)
  end.

(** [template.format(n)] after lines 275-280, for a template without
    braces that does not end in [.h5] and an image number [n >= 0]: the run
    of [k] wildcards becomes [n] padded with zeros to [k] digits. *)
Definition image_name (template : string) (n : Z) : string :=
  match count "?" template with
  | O => interleave (decimal n) template
  | k => fill k (zero_pad k (decimal n)) template
  end.

Definition banner : string :=
" Program dozor /A.Popov & G.Bourenkov/
 Version 2.0.2 //  26.02.2020
 Copyright 2014-2020 by Alexander Popov and Gleb Bourenkov
 N    | SPOTS                     | Powder Wilson                | Main   Spot  Visible
image | num.of INTaver R-fac Res. | Scale B-fac Res Corr R-fac   | Score  Score Resolution
------------------------------------------------------------------------------------------
".

Definition parameters : inData Q :=
  {| startingAngle := 10%Q; firstImageNumber := 5; oscillationRange := 1%Q;
     overlap := None; nameTemplateImage := "/data/ref_????.cbf" |}.

(** A row of ten tokens whose token 5 starts with a dash. *)
Definition row10 : list string :=
  ["3"; "12"; "55.2"; "0.3"; "2.1"; "-"; "-"; "-"; "0.85"; "0.42"].

(** A row of thirteen tokens in the extended layout. *)
Definition row13 : list string :=
  ["3"; "12"; "55.2"; "0.3"; "2.1"; "1.0"; "2.0"; "3.0"; "0.9"; "0.1";
   "0.85"; "0.42"; "1.9"].

(** The same row with a spot count that is not an integer. *)
Definition row13_bad_count : list string :=
  ["3"; "x"; "55.2"; "0.3"; "2.1"; "1.0"; "2.0"; "3.0"; "0.9"; "0.1";
   "0.85"; "0.42"; "1.9"].

Definition newline : string := String "010" "".

(** The line of [row13]. *)
Definition line13 : string :=
  "    3 |   12  55.2  0.3  2.1 |  1.0  2.0  3.0  0.9  0.1 |  0.85  0.42  1.9".

(** A row with an unreadable B-factor, and the row after it. *)
Definition line_bfactor : string :=
  "    5 |   12  55.2  0.3  2.1 |  1.0  n/a  3.0  0.9  0.1 |  0.85  0.42  1.9".

Definition row_bfactor : list string :=
  ["5"; "12"; "55.2"; "0.3"; "2.1"; "1.0"; "n/a"; "3.0"; "0.9"; "0.1";
   "0.85"; "0.42"; "1.9"].

Definition line_next : string :=
  "    6 |    7  41.0  0.2  2.4 |  1.1  2.2  3.3  0.8  0.2 |  0.61  0.40  2.2".

Definition log_rows : string :=
  banner +:+ line_bfactor +:+ newline +:+ line_next +:+ newline.

(** A log with a line that starts with h and has no equals sign. *)
Definition log_hello : string := banner +:+ "hello
".

Definition plot_text : string :=
"$
'Plot1'
# Series A
% linelabel = 'A'
1.0 2.0
2.0 3.0
".

(** *** A run of three batches *)

(** The number between the last underscore and the extension. *)
Definition getImageNumber (path : string) : Z :=
  default 0 (last (split_on "_" path) ≫= fun name => head (split_on "." name) ≫= int).

Definition three_images : list string :=
  ["/data/ref_0001.cbf"; "/data/ref_0002.cbf"; "/data/ref_0003.cbf"].

Definition read_header (path : string) : option string := Some "pilatus2m".

Definition batch_log (n : Z) : string :=
  banner +:+ "    " +:+ decimal n +:+
  " |   12  55.2  0.3  2.1 |  1.0  2.0  3.0  0.9  0.1 |  0.85  0.42  1.9
".

(** The execution of the second batch fails; the other batches return the
    records decoded from their log. *)
Definition execute_dozor (image : string) (listBatch : list Z) (hasOverlap : bool)
    : option (resultDozor Q) :=
  if bool_decide (listBatch = [2]) then None
  else
    match parseOutput image_name no_files
            {| startingAngle := 0%Q; firstImageNumber := getImageNumber image;
               oscillationRange := 1%Q; overlap := None;
               nameTemplateImage := "/data/ref_????.cbf" |}
            (batch_log (getImageNumber image)) None with
    | Ok res => Some res
    | Raise _ => None
    end.

Definition load_spot_list (spotFile : string) : result (string * list Z) :=
  Raise RuntimeError.

Definition three_batches : ControlDozor.inDataControlDozor Q :=
  {| ControlDozor.image := three_images;
     ControlDozor.batchSize := Some 1;
     ControlDozor.overlap := None;
     ControlDozor.returnSpotList := false |}.

(** *** Two sub-wedges of one image each; the task of the first one fails *)

Definition two_subwedges : list (list string) := [["a.cbf"]; ["b.cbf"]].

Definition outcome (path : string) : option string :=
  if bool_decide (path = "a.cbf") then None else Some ("outData of " +:+ path).

End Samples.

(** ** createListOfBatches: how consecutive batches meet *)

Module BatchChain.
Import Batches.

(** Batch [b'] comes right after batch [b]: either [b] is full, or [b']
    does not start with the number that follows the last one of [b]. *)
Definition linked (batchSize : Z) (b b' : list Z) : Prop :=
  Z.of_nat (length b) = batchSize ∨
  ∀ x y, last b = Some x → head b' = Some y → y ≠ x + 1.

Fixpoint chain (batchSize : Z) (bs : list (list Z)) : Prop :=
  match bs with
  | b :: (b' :: _) as tl => linked batchSize b b' ∧ chain batchSize tl
  | _ => True
  end.

(** What the loop keeps about the batches it has closed and the one it is
    filling. *)
Definition maximal_inv (batchSize : Z) (st : loop_state) : Prop :=
  chain batchSize (flush st) ∧
  match indexNextImageInBatch st with
  | None =>
      listImagesInBatch st = [] ∧
      Forall (λ b, Z.of_nat (length b) = batchSize) (listAllBatches st)
  | Some next =>
      last (listImagesInBatch st) = Some (next - 1) ∧
      indexBatch st = Z.of_nat (length (listImagesInBatch st))
  end.

End BatchChain.

(** ** Zero-padded integers *)

Module PyFormat.
Import ExecDozor.

(** [n] in the format [0<width>d]: the sign, when there is one, counts in
    the width and comes before the zeros. *)
Definition format_0d (width : nat) (n : Z) : string :=
  if n <? 0 then "-" +:+ zero_pad (width - 1) (decimal (- n))
  else zero_pad width (decimal n).

End PyFormat.

(** ** The value of a decimal numeral *)

Module DecimalDigits.

(** The number that the digits of [d] spell after the digits that gave
    [acc]. *)
Fixpoint uint_value (d : Decimal.uint) (acc : Z) : Z :=
  match d with
  | Decimal.Nil => acc
  | Decimal.D0 d => uint_value d (10 * acc)
  | Decimal.D1 d => uint_value d (10 * acc + 1)
  | Decimal.D2 d => uint_value d (10 * acc + 2)
  | Decimal.D3 d => uint_value d (10 * acc + 3)
  | Decimal.D4 d => uint_value d (10 * acc + 4)
  | Decimal.D5 d => uint_value d (10 * acc + 5)
  | Decimal.D6 d => uint_value d (10 * acc + 6)
  | Decimal.D7 d => uint_value d (10 * acc + 7)
  | Decimal.D8 d => uint_value d (10 * acc + 8)
  | Decimal.D9 d => uint_value d (10 * acc + 9)
  end.

End DecimalDigits.

(** ** Python string formatting with one integer argument *)

Module PyString.
Import Py ExecDozor PyFormat.

(** [c * n] for a one-character [c]. *)
Fixpoint times (c : ascii) (n : nat) : string :=
  match n with O => "" | S n => String c (times c n) end.

(** [old in s] *)
Fixpoint occurs (old s : string) : bool :=
  String.prefix old s ||
  match s with
  | "" => false
  | String _ r => occurs old r
  end.

(** [s.replace("", new)]: [new] before every character and at the end. *)
Fixpoint between (new s : string) : string :=
  match s with
  | "" => new
  | String c r => new +:+ String c (between new r)
  end.

(** [s.replace(old, new)] for a non-empty [old]: the occurrences are
    taken from left to right and do not overlap; [skip] counts the
    characters of the occurrence just replaced that are still to pass. *)
Fixpoint replace_go (old new : string) (skip : nat) (s : string) : string :=
  match s with
  | "" => ""
  | String c r =>
      match skip with
      | S k => replace_go old new k r
      | O =>
          if String.prefix old s
          then new +:+ replace_go old new (String.length old - 1) r
          else String c (replace_go old new 0 r)
      end
  end.

(** [s.replace(old, new)] *)
Definition replace_all (old new s : string) : string :=
  match old with
  | "" => between new s
  | _ => replace_go old new 0 s
  end.

(** [str(n)] *)
Definition str (n : Z) : string := format_0d 0 n.

(** What an operation on format strings gives: a value, an exception, or
    [Unmodelled] for the format strings that are left out here (any
    conversion or replacement field other than the ones named below). *)
Inductive evaluation (A : Type) : Type :=
  | Value (a : A)
  | Error (e : exn)
  | Unmodelled.
Arguments Value {A} a.
Arguments Error {A} e.
Arguments Unmodelled {A}.

Definition prepend (prefix : string) (f : evaluation string) : evaluation string :=
  match f with
  | Value s => Value (prefix +:+ s)
  | other => other
  end.

(** The largest width a format accepts ([PY_SSIZE_T_MAX]). *)
Definition max_width : Z := 2 ^ 63 - 1.

(** The value of a run of decimal digits read as a width: [Some None]
    when it is too large, [None] when a character is not a digit. *)
Fixpoint width_digits (acc : Z) (s : string) : option (option Z) :=
  match s with
  | "" => Some (Some acc)
  | String c r =>
      if is_digit c then
        let acc := 10 * acc + digit_value c in
        if max_width <? acc then Some None else width_digits acc r
      else None
  end.

(** [n] right-aligned with blanks in a field of [width] characters. *)
Fixpoint blanks (k : nat) : string :=
  match k with O => "" | S k => String " " (blanks k) end.
Definition format_d (width : nat) (n : Z) : string :=
  blanks (width - String.length (str n)) +:+ str n.

(** *** [fmt.format(n)]

    Modelled: literal text, the doubled braces, and the replacement
    fields [{0}], [{0:}] and [{0:0<width>}]. *)

Definition replacement_field (field : string) (n : Z) : evaluation string :=
  match field with
  | "0" | "0:" => Value (str n)
  | String "0" (String ":" (String "0" w)) =>
      match width_digits 0 w with
      | Some (Some width) => Value (format_0d (Z.to_nat width) n)
      | Some None => Error ValueError      (* Too many decimal digits *)
      | None => Unmodelled
      end
  | _ => Unmodelled
  end.

Inductive format_state : Type :=
  | Literal
  | Opened                       (* after an opening brace *)
  | Field (field : string)       (* inside a field; its text so far, reversed *)
  | Closed.                      (* after a closing brace in literal text *)

Fixpoint format_go (st : format_state) (s : string) (n : Z) : evaluation string :=
  match s with
  | "" =>
      match st with
      | Literal => Value ""
      | Opened => Error ValueError       (* Single '{' encountered *)
      | Field _ => Error ValueError      (* expected '}' before end of string *)
      | Closed => Error ValueError       (* Single '}' encountered *)
      end
  | String c r =>
      match st with
      | Literal =>
          if decide (c = "{"%char) then format_go Opened r n
          else if decide (c = "}"%char) then format_go Closed r n
          else prepend (String c "") (format_go Literal r n)
      | Opened =>
          if decide (c = "{"%char) then prepend "{" (format_go Literal r n)
          else if decide (c = "}"%char) then Unmodelled
          else format_go (Field (String c "")) r n
      | Field field =>
          if decide (c = "}"%char) then
            match replacement_field (String.rev field) n with
            | Value t => prepend t (format_go Literal r n)
            | other => other
            end
          else if decide (c = "{"%char) then Unmodelled
          else format_go (Field (String c field)) r n
      | Closed =>
          if decide (c = "}"%char) then prepend "}" (format_go Literal r n)
          else Error ValueError          (* Single '}' encountered *)
      end
  end.

(** [fmt.format(n)] *)
Definition format (fmt : string) (n : Z) : evaluation string := format_go Literal fmt n.

(** *** [fmt % n]

    Modelled: literal text, [%%], and the conversions [d], [i] and [u]
    with zero flags and a width. *)

Inductive percent_state : Type :=
  | Plain
  | Conversion (fresh zero : bool) (width : Z) (in_width : bool).
      (* after a percent sign; [fresh] right after it *)

Definition is_integer_conversion (c : ascii) : bool :=
  bool_decide (c = "d"%char) || bool_decide (c = "i"%char) || bool_decide (c = "u"%char).

(** [arg] tells whether the argument is still to be used. *)
Fixpoint percent_go (st : percent_state) (s : string) (arg : bool) (n : Z)
    : evaluation string :=
  match s with
  | "" =>
      match st with
      | Plain =>
          if arg then Error TypeError    (* not all arguments converted *)
          else Value ""
      | Conversion _ _ _ _ => Error ValueError   (* incomplete format *)
      end
  | String c r =>
      match st with
      | Plain =>
          if decide (c = "%"%char) then percent_go (Conversion true false 0 false) r arg n
          else prepend (String c "") (percent_go Plain r arg n)
      | Conversion fresh zero width in_width =>
          if bool_decide (c = "%"%char) && fresh then
            prepend "%" (percent_go Plain r arg n)
          else if is_digit c then
            if bool_decide (c = "0"%char) && negb in_width
            then percent_go (Conversion false true width false) r arg n
            else
              let width := 10 * width + digit_value c in
              if max_width <? width then Error ValueError   (* width too big *)
              else percent_go (Conversion false zero width true) r arg n
          else if is_integer_conversion c then
            if arg then
              prepend (if zero then format_0d (Z.to_nat width) n
                       else format_d (Z.to_nat width) n)
                      (percent_go Plain r false n)
            else Error TypeError         (* not enough arguments *)
          else Unmodelled
      end
  end.

(** [fmt % n] *)
Definition percent (fmt : string) (n : Z) : evaluation string :=
  percent_go Plain fmt true n.

End PyString.

(** ** ExecDozor.parseOutput: the name of an image (lines 275-280, 298) *)

Module Template.
Import Py PyString.

(** Lines 275-280: the format string made from [nameTemplateImage]. *)
Definition template (nameTemplateImage : string) : string :=
  let template :=
    if endswith nameTemplateImage ".h5"
    then replace_all "1_??????" "??????" nameTemplateImage   (* HDF5 workaround *)
    else nameTemplateImage in
  let noWildCards := Samples.count "?" template in
  replace_all (times "?" noWildCards)
              ("{0:0" +:+ str (Z.of_nat noWildCards) +:+ "}") template.

(** Line 298: [template.format(imageNumber)]. *)
Definition image (nameTemplateImage : string) (imageNumber : Z) : evaluation string :=
  format (template nameTemplateImage) imageNumber.

(** Text without wildcards and braces. *)
Fixpoint fixed (s : string) : bool :=
  match s with
  | "" => true
  | String c r =>
      negb (bool_decide (c = "?"%char)) && negb (bool_decide (c = "{"%char)) &&
      negb (bool_decide (c = "}"%char)) && fixed r
  end.

End Template.

(** ** ControlDozor.createImageDict: the list of images (lines 1004-1026) *)

Module ImageList.
Import Py PyString.

(** The entries of [inData] that [createImageDict] reads. *)
Record inDataImages : Type := InDataImages {
  image : option (list string);
  directory : option string;
  template : option string;
  startNo : option Z;
  endNo : option Z
}.

(** Lines 1014-1020: [self.template]. *)
Definition self_template (template : string) : string :=
  if contains "#" template then
    let noWildCards := Samples.count "#" template in
    replace_all (times "#" noWildCards)
                ("%0" +:+ str (Z.of_nat noWildCards) +:+ "d") template
  else template.

(** Lines 1023-1026, for the indices still to go. *)
Fixpoint image_paths (directory template : string) (listImage : list string)
    (indices : list Z) : evaluation (list string) :=
  match indices with
  | [] => Value listImage
  | imageIndex :: rest =>
      match percent template imageIndex with
      | Value imageName =>
          image_paths directory template
            (listImage ++ [ExecDozor.path_join directory imageName]) rest
      | Error e => Error e
      | Unmodelled => Unmodelled
      end
  end.

Definition lookup_key {A} (entry : option A) : evaluation A :=
  match entry with Some a => Value a | None => Error KeyError end.

(** Lines 1005-1026: [listImage] as the loop at line 1027 gets it. *)
Definition listImage (inData : inDataImages) : evaluation (list string) :=
  match image inData with
  | Some (first :: rest) => Value (first :: rest)
  | _ =>
      match lookup_key (directory inData) with
      | Value directory =>
          match lookup_key (template inData) with
          | Value template =>
              match lookup_key (startNo inData) with
              | Value startNo =>
                  match lookup_key (endNo inData) with
                  | Value endNo =>
                      image_paths directory (self_template template) []
                                  (seqZ startNo (endNo + 1 - startNo))
                  | Error e => Error e
                  | Unmodelled => Unmodelled
                  end
              | Error e => Error e
              | Unmodelled => Unmodelled
              end
          | Error e => Error e
          | Unmodelled => Unmodelled
          end
      | Error e => Error e
      | Unmodelled => Unmodelled
      end
  end.

(** Text without the wildcard [#] and without percent signs. *)
Fixpoint literal (s : string) : bool :=
  match s with
  | "" => true
  | String c r =>
      negb (bool_decide (c = "#"%char)) && negb (bool_decide (c = "%"%char)) && literal r
  end.

End ImageList.

(** ** ControlDozor.runDozorTask: what a batch asks of Dozor (lines 696-747) *)

Module RunDozorTask.
Import Py PyFormat.

Section request.
(** Modelled from the spec: [UtilsImage.getImageNumber] is not in this
    file; it gives the number embedded in the name of an image. *)
Context (getImageNumber : string -> Z).

(** Lines 699 and 704-714: the number sent as [firstImageNumber]. *)
Definition imageNumber (image : string) (hasOverlap : bool) : Z :=
  if endswith image "h5" then
    if hasOverlap then 1 else getImageNumber image
  else getImageNumber image.

(** Line 747: [numberImages]. *)
Definition numberImages (listBatch : list Z) : Z := Z.of_nat (length listBatch).

(** Lines 701-703: ["{0:04d}_{1:04d}".format(imageNumber, imageNumber +
    len(listBatch) - 1)], with the image number as read at line 699. *)
Definition workingDirectorySuffixDozor (image : string) (listBatch : list Z) : string :=
  format_0d 4 (getImageNumber image) +:+ "_" +:+
  format_0d 4 (getImageNumber image + Z.of_nat (length listBatch) - 1).

End request.
End RunDozorTask.

(** ** ExecDozor.parseOutput: more vocabulary *)

Module DecoderVocabulary.
Import Py ExecDozor.

(** The image number of a line that [parseOutput] takes for a result row
    (lines 286-289), [None] for any other line. *)
Definition row_number (line : string) : option Z :=
  match Shlex.split (replace "|" " " line) with
  | Ok listLine => is_row listLine ≫= int
  | Raise _ => None
  end.

(** Text without quotes and backslashes. *)
Fixpoint plain (s : string) : bool :=
  match s with
  | "" => true
  | String c r =>
      negb (Shlex.is_quote c) && negb (bool_decide (c = Shlex.backslash)) && plain r
  end.

(** A line that begins with [h] and is not a result row is read as
    [line.split("=")[1].split()[0]] (line 349); this is when that works. *)
Definition half_dose_line (line : string) : Prop :=
  exists rhs value,
    split_on "=" line !! 1%nat = Some rhs /\ split_ws rhs !! 0%nat = Some value.

(** The keys a record can have after the short and after the extended
    layout (lines 297-345). *)
Definition header_keys : list string :=
  ["number"; "image"; "angle"; "spotsNumOf"; "spotsIntAver"; "spotsResolution";
   "mainScore"; "spotScore"; "visibleResolution"; "spotFile"].

Definition short_record_keys : list string := "spotsRFactor" :: header_keys.

Definition extended_record_keys : list string :=
  "spotsRfactor" :: powder_keys ++ header_keys.

(** The banner lines put before the rest of a log. *)
Definition with_banner (banner : list string) (rest : string) : string :=
  foldr (fun line acc => line +:+ String "010" acc) rest banner.

Section decoded.
Context {F : Type}.

(** The result of a run of the decoder that did not raise. *)
Definition decoded (r : result (resultDozor F)) : resultDozor F :=
  match r with
  | Ok res => res
  | Raise _ => {| imageDozor := []; halfDoseTime := None |}
  end.

End decoded.
End DecoderVocabulary.

(** ** ControlDozor.run: the keys of the indicators (lines 586-610) *)

Module Indicators.

Definition indicator_keys : list string :=
  ["angle"; "number"; "image"; "dozorScore"; "dozorSpotScore"; "dozorSpotsNumOf";
   "dozorSpotsIntAver"; "dozorSpotsResolution"; "dozorVisibleResolution";
   "dozorSpotFile"; "dozorSpotList"; "dozorSpotListShape"].

(** The entries of a record and the names they get in its indicators. *)
Definition renamed : list (string * string) :=
  [("angle", "angle"); ("number", "number"); ("image", "image");
   ("mainScore", "dozorScore"); ("spotScore", "dozorSpotScore");
   ("spotsNumOf", "dozorSpotsNumOf"); ("spotsIntAver", "dozorSpotsIntAver");
   ("spotsResolution", "dozorSpotsResolution");
   ("visibleResolution", "dozorVisibleResolution")].

End Indicators.

(** ** The plot-file parser: the shape of its store *)

Module PlotShape.
Import Py PlotMtv.

Section shape.
Context {F : Type}.

(** A sub-plot dictionary whose two series have the same length. *)
Definition series (d : gmap string (plotval F)) : Prop :=
  exists xs ys,
    d !! "xValues" = Some (PFloats xs) /\ d !! "yValues" = Some (PFloats ys) /\
    length xs = length ys.

(** What every state of the parser satisfies: there is one list of
    sub-plots per plot besides the first, unattached one; the current list
    is the last one; the lists, laid end to end, hold every sub-plot
    created so far exactly once, in the order of creation; and every
    sub-plot has two series of the same length. *)
Definition nested (st : state F) : Prop :=
  length (plot_lists st) = S (length (listPlots st)) /\
  dictPlotList st = length (listPlots st) /\
  concat (plot_lists st) = seq 1 (length (sub_plots st) - 1) /\
  (dictSubPlot st < length (sub_plots st))%nat /\
  sub_plots st !! 0%nat = Some ∅ /\
  forall (i : nat) d, (1 <= i)%nat -> sub_plots st !! i = Some d -> series d.

End shape.
End PlotShape.

(** ** ControlIndexing.run (lines 56-95) *)

Module ControlIndexingRun.
Import Py ExecDozor.

(** How a call ends: with a value, with one of the exceptions of [Py.exn],
    or with the [UnboundLocalError] of a local variable that is read
    before any assignment to it. *)
Inductive exit (A : Type) : Type :=
  | Return (a : A)
  | Raised (e : exn)
  | UnboundLocalError.
Arguments Return {A} a.
Arguments Raised {A} e.
Arguments UnboundLocalError {A}.

Definition lift {A} (r : result A) : exit A :=
  match r with Ok a => Return a | Raise e => Raised e end.

Definition exit_bind {A B} (m : exit A) (f : A -> exit B) : exit B :=
  match m with
  | Return a => f a
  | Raised e => Raised e
  | UnboundLocalError => UnboundLocalError
  end.

(** The entries of [inData] that [run] and [getListSubWedge] look at; a
    sub-wedge is given by the paths of its images. *)
Record inDataIndexing : Type := InDataIndexing {
  subWedge : option (list (list string));
  imagePath : option (list string)
}.

Record outDataIndexing (F R : Type) : Type := OutDataIndexing {
  resultIndexing : R;
  resultDozor : list (ControlDozor.outData F);
  xparmXdsPath : string
}.
Arguments OutDataIndexing {F R}.
Arguments resultIndexing {F R}.
Arguments resultDozor {F R}.
Arguments xparmXdsPath {F R}.

Section run.
Context {F X R : Type}.

(** Modelled from the spec: the tasks [run] hands work to are not in this
    file.  [readImageHeader paths] is [ReadImageHeader(...).execute()]
    followed by [outData["subWedge"]].  [controlDozor path] is what the
    ControlDozor task of an image ends with: its [outData], or [None] when
    [isSuccess()] is false.  [xdsIndexing listSubWedge files] is
    [XDSIndexing(...).execute()] followed by [isSuccess()] and [outData]:
    [None] when the task did not succeed.  [xparm x] is
    [x["xparmXdsPath"]], and [getResultIndexingFromXds] is the static
    method of that name, whose body is matrix arithmetic. *)
Context (readImageHeader : list string -> result (list (list string)))
        (controlDozor : string -> option (ControlDozor.outData F))
        (xdsIndexing : list (list string) -> list (pyval F) -> option X)
        (xparm : X -> result string)
        (getResultIndexingFromXds : X -> result R).

(** Lines 112-121; the suffix of the working directory is read from
    [listImagePath[0]]. *)
Definition readImageHeaders (listImagePath : list string) : result (list (list string)) :=
  _ ← getitem listImagePath 0;
  readImageHeader listImagePath.

(** Lines 98-109. *)
Definition getListSubWedge (inData : inDataIndexing) : result (list (list string)) :=
  match imagePath inData with
  | Some listImagePath => readImageHeaders listImagePath
  | None => Raise RuntimeError
  end.

(** Lines 124-142, the tasks taken one after the other: the outputs of
    the tasks that succeeded, in the order of the images. *)
Definition runControlDozor (listSubWedge : list (list string))
    : list (ControlDozor.outData F) :=
  omap controlDozor (concat listSubWedge).

(** Lines 65-71. *)
Fixpoint spot_files (listDozorSpotFile : list (pyval F))
    (listOutDataControlDozor : list (ControlDozor.outData F)) : result (list (pyval F)) :=
  match listOutDataControlDozor with
  | [] => Ok listDozorSpotFile
  | outDataControlDozor :: rest =>
      first ← getitem (ControlDozor.imageQualityIndicators outDataControlDozor) 0;
      match first !! "dozorSpotFile" with
      | Some dozorSpotFile => spot_files (listDozorSpotFile ++ [dozorSpotFile]) rest
      | None => spot_files listDozorSpotFile rest
      end
  end.

Definition run (inData : inDataIndexing) : exit (outDataIndexing F R) :=
  exit_bind (lift (match subWedge inData with
                   | Some listSubWedge => Ok listSubWedge
                   | None => getListSubWedge inData
                   end)) (fun listSubWedge =>
  let listOutDataControlDozor := runControlDozor listSubWedge in
  exit_bind (lift (spot_files [] listOutDataControlDozor)) (fun listDozorSpotFile =>
  exit_bind (lift (getitem listSubWedge 0)) (fun imageDict =>
  exit_bind (lift (getitem imageDict 0)) (fun _ =>
  match xdsIndexing listSubWedge listDozorSpotFile with
  | Some xdsIndexingOutData =>
      exit_bind (lift (xparm xdsIndexingOutData)) (fun xparmXdsPath =>
      exit_bind (lift (getResultIndexingFromXds xdsIndexingOutData)) (fun resultIndexing =>
      Return {| resultIndexing := resultIndexing;
                resultDozor := listOutDataControlDozor;
                xparmXdsPath := xparmXdsPath |}))
  | None =>
      (* [resultIndexing] is only assigned when the task succeeded *)
      UnboundLocalError
  end)))).

End run.
End ControlIndexingRun.

(** ** ControlDozor.createImageDictFromISPyB: the list of images
    (lines 1036-1046) *)

Module IspybImages.
Import Py PyString ImageList.

(** The entries of [dataCollection] that are read; ISPyB gives texts and
    integers. *)
Record dataCollection : Type := DataCollection {
  imageDirectory : option string;
  fileTemplate : option string;
  startImageNumber : option Z;
  numberOfImages : option Z
}.

Definition listImageFromISPyB (dataCollection : dataCollection) : evaluation (list string) :=
  match lookup_key (imageDirectory dataCollection) with
  | Value directory =>
      match lookup_key (fileTemplate dataCollection) with
      | Value template =>
          match lookup_key (startImageNumber dataCollection) with
          | Value startNo =>
              match lookup_key (numberOfImages dataCollection) with
              | Value numberOfImages =>
                  let endNo := startNo + numberOfImages - 1 in
                  image_paths directory template []
                              (seqZ startNo (endNo + 1 - startNo))
              | Error e => Error e
              | Unmodelled => Unmodelled
              end
          | Error e => Error e
          | Unmodelled => Unmodelled
          end
      | Error e => Error e
      | Unmodelled => Unmodelled
      end
  | Error e => Error e
  | Unmodelled => Unmodelled
  end.

End IspybImages.

(** ** ControlDozor.determineMinMaxParameters (lines 811-868) *)

Module MinMax.
Import Py ExecDozor PyString.

#[global] Instance evaluation_bind : MBind evaluation := fun A B f m =>
  match m with Value a => f a | Error e => Error e | Unmodelled => Unmodelled end.
#[global] Instance evaluation_fmap : FMap evaluation := fun A B f m =>
  match m with Value a => Value (f a) | Error e => Error e | Unmodelled => Unmodelled end.

Section limits.
Context {F : Type} {float : PyFloat F}.
(** [x < y] on floats *)
Context (flt : F -> F -> bool).

(** [d[key]] *)
Definition item (d : gmap string (pyval F)) (key : string) : evaluation (pyval F) :=
  match d !! key with Some v => Value v | None => Error KeyError end.

(** [a < b] on the values of a result dictionary.  Two integers and two
    floats are compared; [None] against anything, and a text or a list
    against a number, raise TypeError.  An integer against a float, two
    texts and two lists are not modelled. *)
Definition lt (a b : pyval F) : evaluation bool :=
  match a, b with
  | VInt m, VInt n => Value (bool_decide (m < n))
  | VFloat x, VFloat y => Value (flt x y)
  | VInt _, VFloat _ | VFloat _, VInt _ => Unmodelled
  | VStr _, VStr _ | VList _, VList _ => Unmodelled
  | _, _ => Error TypeError
  end.

(** [a > b] *)
Definition gt (a b : pyval F) : evaluation bool := lt b a.

Definition is_none (v : pyval F) : bool :=
  match v with VNone => true | _ => false end.

(** [current is None or test] *)
Definition none_or (current : pyval F) (test : evaluation bool) : evaluation bool :=
  if is_none current then Value true else test.

(** The eight local variables of the loop. *)
Record limits : Type := Limits {
  minImageNumber : pyval F;
  maxImageNumber : pyval F;
  minAngle : pyval F;
  maxAngle : pyval F;
  minDozorValue : pyval F;
  maxDozorValue : pyval F;
  minResolution : pyval F;
  maxResolution : pyval F
}.

Definition limits_entry : limits :=
  {| minImageNumber := VNone; maxImageNumber := VNone;
     minAngle := VNone; maxAngle := VNone;
     minDozorValue := VNone; maxDozorValue := VNone;
     minResolution := VNone; maxResolution := VNone |}.

(** [10.0] *)
Definition ten : pyval F := VFloat (float_of_int 10).

(** One iteration of the loop body. *)
Definition limits_body (st : limits) (imageQualityIndicators : gmap string (pyval F))
    : evaluation limits :=
  let iqi := imageQualityIndicators in
  let 'Limits minImageNumber maxImageNumber minAngle maxAngle
              minDozorValue maxDozorValue minResolution maxResolution := st in
  c ← none_or minImageNumber (number ← item iqi "number"; gt minImageNumber number);
  '(minImageNumber, minAngle) ←
    (if c : bool then
       number ← item iqi "number"; angle ← item iqi "angle"; Value (number, angle)
     else Value (minImageNumber, minAngle));
  c ← none_or maxImageNumber (number ← item iqi "number"; lt maxImageNumber number);
  '(maxImageNumber, maxAngle) ←
    (if c : bool then
       number ← item iqi "number"; angle ← item iqi "angle"; Value (number, angle)
     else Value (maxImageNumber, maxAngle));
  c ← none_or minDozorValue (score ← item iqi "dozorScore"; gt minDozorValue score);
  minDozorValue ← (if c : bool then item iqi "dozorScore" else Value minDozorValue);
  c ← none_or maxDozorValue (score ← item iqi "dozorScore"; lt maxDozorValue score);
  maxDozorValue ← (if c : bool then item iqi "dozorScore" else Value maxDozorValue);
  (* Min resolution: the higher the value the lower the resolution *)
  c ← none_or minResolution
        (resolution ← item iqi "dozorVisibleResolution"; lt minResolution resolution);
  minResolution ←
    (if c : bool then
       (* Disregard resolution worse than 10.0 *)
       resolution ← item iqi "dozorVisibleResolution";
       c ← lt resolution ten;
       if c : bool then item iqi "dozorVisibleResolution" else Value minResolution
     else Value minResolution);
  (* Max resolution: the lower the number the better the resolution *)
  c ← none_or maxResolution
        (resolution ← item iqi "dozorVisibleResolution"; gt maxResolution resolution);
  maxResolution ←
    (if c : bool then item iqi "dozorVisibleResolution" else Value maxResolution);
  Value (Limits minImageNumber maxImageNumber minAngle maxAngle
                minDozorValue maxDozorValue minResolution maxResolution).

Fixpoint limits_loop (st : limits) (records : list (gmap string (pyval F)))
    : evaluation limits :=
  match records with
  | [] => Value st
  | imageQualityIndicators :: rest =>
      st ← limits_body st imageQualityIndicators; limits_loop st rest
  end.

Definition plotDict (st : limits) : gmap string (pyval F) :=
  <["maxResolution" := maxResolution st]> (
  <["minResolution" := minResolution st]> (
  <["maxDozorValue" := maxDozorValue st]> (
  <["minDozorValue" := minDozorValue st]> (
  <["maxAngle" := maxAngle st]> (
  <["minAngle" := minAngle st]> (
  <["maxImageNumber" := maxImageNumber st]> (
  <["minImageNumber" := minImageNumber st]> ∅))))))).

Definition determineMinMaxParameters (outDataImageDozor : ControlDozor.outData F)
    : evaluation (gmap string (pyval F)) :=
  plotDict <$> limits_loop limits_entry
                           (ControlDozor.imageQualityIndicators outDataImageDozor).

(** *** Typed records

    The record of a row whose values were all read: an integer number,
    and floats for the angle, the score and the visible resolution. *)

Definition typed (r : gmap string (pyval F)) : bool :=
  match r !! "number", r !! "angle", r !! "dozorScore",
        r !! "dozorVisibleResolution" with
  | Some (VInt _), Some (VFloat _), Some (VFloat _), Some (VFloat _) => true
  | _, _, _, _ => false
  end.

(** A record whose visible resolution could not be read: [parseDouble]
    gave [None]. *)
Definition unread_resolution (r : gmap string (pyval F)) : bool :=
  match r !! "number", r !! "angle", r !! "dozorScore",
        r !! "dozorVisibleResolution" with
  | Some (VInt _), Some (VFloat _), Some (VFloat _), Some VNone => true
  | _, _, _, _ => false
  end.

(** The local variables when every record so far is typed. *)
Record typed_limits : Type := TypedLimits {
  low_number : option Z;
  high_number : option Z;
  low_angle : option F;
  high_angle : option F;
  low_score : option F;
  high_score : option F;
  low_resolution : option F;
  high_resolution : option F
}.

Definition of_int (o : option Z) : pyval F := from_option VInt VNone o.
Definition of_float (o : option F) : pyval F := from_option VFloat VNone o.

Definition untyped (t : typed_limits) : limits :=
  {| minImageNumber := of_int (low_number t);
     maxImageNumber := of_int (high_number t);
     minAngle := of_float (low_angle t);
     maxAngle := of_float (high_angle t);
     minDozorValue := of_float (low_score t);
     maxDozorValue := of_float (high_score t);
     minResolution := of_float (low_resolution t);
     maxResolution := of_float (high_resolution t) |}.

(** [current is None or test current] *)
Definition unset_or {A} (current : option A) (test : A -> bool) : bool :=
  from_option test true current.

Definition typed_body (t : typed_limits) (number : Z) (angle score resolution : F)
    : typed_limits :=
  let below := unset_or (low_number t) (fun m => bool_decide (number < m)) in
  let above := unset_or (high_number t) (fun m => bool_decide (m < number)) in
  {| low_number := if below then Some number else low_number t;
     high_number := if above then Some number else high_number t;
     low_angle := if below then Some angle else low_angle t;
     high_angle := if above then Some angle else high_angle t;
     low_score :=
       if unset_or (low_score t) (fun m => flt score m) then Some score
       else low_score t;
     high_score :=
       if unset_or (high_score t) (fun m => flt m score) then Some score
       else high_score t;
     low_resolution :=
       if unset_or (low_resolution t) (fun m => flt m resolution)
          && flt resolution (float_of_int 10)
       then Some resolution else low_resolution t;
     high_resolution :=
       if unset_or (high_resolution t) (fun m => flt resolution m) then Some resolution
       else high_resolution t |}.

Definition typed_entry : typed_limits :=
  {| low_number := None; high_number := None; low_angle := None; high_angle := None;
     low_score := None; high_score := None;
     low_resolution := None; high_resolution := None |}.

(** The four entries of a typed record. *)
Definition entries (r : gmap string (pyval F)) : option (Z * F * F * F) :=
  match r !! "number", r !! "angle", r !! "dozorScore",
        r !! "dozorVisibleResolution" with
  | Some (VInt n), Some (VFloat a), Some (VFloat s), Some (VFloat v) => Some (n, a, s, v)
  | _, _, _, _ => None
  end.

Definition typed_step (t : typed_limits) (e : Z * F * F * F) : typed_limits :=
  let '(n, a, s, v) := e in typed_body t n a s v.

(** [es] are the entries of [records], one by one. *)
Definition read (records : list (gmap string (pyval F))) (es : list (Z * F * F * F))
    : Prop :=
  Forall2 (fun r e => entries r = Some e) records es.

End limits.

Arguments limits F : clear implicits.
Arguments typed_limits F : clear implicits.

(** The record an extreme is taken from: [e] replaces the current one when
    its key passes the cut [keep] and the current key is [before] it. *)
Definition pick {E K : Type} (before : K -> K -> bool) (keep : K -> bool) (key : E -> K)
    (cur : option E) (e : E) : option E :=
  if unset_or cur (fun m => before (key m) (key e)) && keep (key e) then Some e else cur.

Definition number_of {F : Type} (e : Z * F * F * F) : Z := let '(n, _, _, _) := e in n.
Definition angle_of {F : Type} (e : Z * F * F * F) : F := let '(_, a, _, _) := e in a.
Definition score_of {F : Type} (e : Z * F * F * F) : F := let '(_, _, s, _) := e in s.
Definition resolution_of {F : Type} (e : Z * F * F * F) : F := let '(_, _, _, v) := e in v.

(** The records the variables of the loop are taken from, when every
    record is typed. *)
Section extremes.
Context {F : Type} {float : PyFloat F}.
Context (flt : F -> F -> bool).

Definition min_number (es : list (Z * F * F * F)) : option (Z * F * F * F) :=
  foldl (pick (fun m n => bool_decide (n < m)) (fun _ => true) number_of) None es.
Definition max_number (es : list (Z * F * F * F)) : option (Z * F * F * F) :=
  foldl (pick (fun m n => bool_decide (m < n)) (fun _ => true) number_of) None es.
Definition min_score (es : list (Z * F * F * F)) : option (Z * F * F * F) :=
  foldl (pick (fun m s => flt s m) (fun _ => true) score_of) None es.
Definition max_score (es : list (Z * F * F * F)) : option (Z * F * F * F) :=
  foldl (pick flt (fun _ => true) score_of) None es.
Definition min_resolution (es : list (Z * F * F * F)) : option (Z * F * F * F) :=
  foldl (pick flt (fun v => flt v (float_of_int 10)) resolution_of) None es.
Definition max_resolution (es : list (Z * F * F * F)) : option (Z * F * F * F) :=
  foldl (pick (fun m v => flt v m) (fun _ => true) resolution_of) None es.

End extremes.
End MinMax.

(** ** More sample inputs *)

Module Inputs.
Import Py ExecDozor DecoderVocabulary.

(** Six lines that are not a banner of Dozor; the third one has a quote
    that is never closed. *)
Definition odd_banner : list string := ["1 2 3"; "h"; "it's"; ""; "x = 1"; "---"].

(** A log with two lines for the half-dose time. *)
Definition log_half_dose : string :=
  Samples.banner +:+ "half-dose time = 12.5 s
" +:+ Samples.line13 +:+ "
half-dose time (fit) = 17.0 s
".

Definition decoded_rows : resultDozor Q :=
  decoded (parseOutput Samples.image_name Samples.no_files Samples.parameters
             Samples.log_rows None).

Definition decoded_half_dose : resultDozor Q :=
  decoded (parseOutput Samples.image_name Samples.no_files Samples.parameters
             log_half_dose None).

(** *** Three images for the indexing: the task of the second one
    succeeds without any indicator *)

Definition indexing_images : list (list string) := [["a.cbf"; "b.cbf"]; ["c.cbf"]].

Definition one_indicator (path : string) : ControlDozor.outData Q :=
  {| ControlDozor.imageQualityIndicators :=
       [<["dozorSpotFile" := VStr (path +:+ ".spot")]> (<["image" := VStr path]> ∅)];
     ControlDozor.detectorType := Some "pilatus2m" |}.

Definition no_indicator : ControlDozor.outData Q :=
  {| ControlDozor.imageQualityIndicators := [];
     ControlDozor.detectorType := Some "pilatus2m" |}.

Definition controlDozor_b_empty (path : string) : option (ControlDozor.outData Q) :=
  if bool_decide (path = "b.cbf") then Some no_indicator else Some (one_indicator path).

Definition controlDozor_all (path : string) : option (ControlDozor.outData Q) :=
  Some (one_indicator path).

Definition xds_fails (listSubWedge : list (list string)) (files : list (pyval Q))
    : option unit := None.

Definition no_headers (paths : list string) : result (list (list string)) :=
  Raise RuntimeError.

Definition no_xparm (x : unit) : result string := Raise KeyError.

Definition no_result (x : unit) : result unit := Raise KeyError.

(** [x < y] on [Q] *)
Definition Q_lt (x y : Q) : bool := negb (Qle_bool y x).

Definition indicator (number : Z) (angle score resolution : Q) : gmap string (pyval Q) :=
  <["dozorVisibleResolution" := VFloat resolution]> (
  <["dozorScore" := VFloat score]> (
  <["angle" := VFloat angle]> (
  <["number" := VInt number]> ∅))).

(** Three images, the second one without visible diffraction. *)
Definition three_indicators : ControlDozor.outData Q :=
  {| ControlDozor.imageQualityIndicators :=
       [indicator 2 (1 # 2) 3 4; indicator 1 0 0 50; indicator 3 1 7 (5 # 2)];
     ControlDozor.detectorType := None |}.

(** The resolution of the second image could not be read. *)
Definition unread_indicators : ControlDozor.outData Q :=
  {| ControlDozor.imageQualityIndicators :=
       [indicator 2 (1 # 2) 3 4;
        <["dozorVisibleResolution" := VNone]> (indicator 1 0 0 50);
        indicator 3 1 7 (5 # 2)];
     ControlDozor.detectorType := None |}.

End Inputs.

(** * Properties *)

(** ** The batches of createListOfBatches *)

Module BatchesSpec.
Import Batches.

Section loop.
Context (batchSize : Z).

Lemma body_pending st x : pending (body batchSize st x) = pending st ++ [x].
Proof.
  unfold pending, body.
  destruct (indexNextImageInBatch st) as [next|]; repeat case_match; simpl;
    rewrite ?concat_app; simpl; rewrite ?app_nil_r, <- ?app_assoc; done.
Qed.

Lemma run_loop_pending l st :
  pending (run_loop batchSize st l) = pending st ++ l.
Proof.
  revert st. induction l as [|x l IH]; intros st; simpl.
  - by rewrite app_nil_r.
  - unfold run_loop in *. simpl. rewrite IH, body_pending, <- app_assoc. done.
Qed.

Lemma flush_concat st : concat (flush st) = pending st.
Proof.
  unfold flush, pending. destruct (listImagesInBatch st); simpl.
  - by rewrite app_nil_r.
  - rewrite concat_app. simpl. by rewrite app_nil_r.
Qed.

Lemma split_inner acc (b : list Z) :
  foldl (fun acc batch => acc ++ [[batch]]) acc b = acc ++ ((fun x => [x]) <$> b).
Proof.
  revert acc. induction b as [|a b IH]; intros acc; simpl.
  - by rewrite app_nil_r.
  - rewrite IH, <- app_assoc. done.
Qed.

Lemma split_outer acc (bs : list (list Z)) :
  foldl (fun new listBatch => foldl (fun acc batch => acc ++ [[batch]]) new listBatch) acc bs
  = acc ++ ((fun x => [x]) <$> concat bs).
Proof.
  revert acc. induction bs as [|b bs IH]; intros acc; simpl.
  - by rewrite app_nil_r.
  - rewrite IH, split_inner, fmap_app, <- app_assoc. done.
Qed.

Lemma split_up_singletons bs : split_up bs = (fun x => [x]) <$> concat bs.
Proof. unfold split_up. by rewrite split_outer. Qed.

Lemma concat_singletons (l : list Z) : concat ((fun x => [x]) <$> l) = l.
Proof.
  induction l as [|a l IH]; [done|].
  change (a :: concat ((fun x => [x]) <$> l) = a :: l). by rewrite IH.
Qed.

Lemma split_up_concat bs : concat (split_up bs) = concat bs.
Proof. by rewrite split_up_singletons, concat_singletons. Qed.

(** Whatever the batch size and the overlap flag, the batches laid end to
    end are the sorted image numbers. *)
Lemma createListOfBatches_concat listImage overlap :
  concat (createListOfBatches listImage batchSize overlap) = sorted listImage.
Proof.
  unfold createListOfBatches.
  destruct overlap; rewrite ?split_up_concat, flush_concat, run_loop_pending; done.
Qed.

Lemma body_nonempty st x : nonempty_inv st -> nonempty_inv (body batchSize st x).
Proof.
  intros [Hall Hcur]. unfold body.
  destruct (indexNextImageInBatch st) as [next|]; repeat case_match; split; cbn;
    try done; try (by intros [? ?]).
  - apply Forall_app. split; [done|]. constructor; [|constructor]. apply Hcur. by eexists.
  - intros _. by destruct (listImagesInBatch st).
  - apply Forall_app. split; [done|]. constructor; [|constructor].
    by destruct (listImagesInBatch st).
  - intros _. by destruct (listImagesInBatch st).
Qed.

Lemma run_loop_nonempty l st : nonempty_inv st -> nonempty_inv (run_loop batchSize st l).
Proof.
  revert st. induction l as [|x l IH]; intros st Hst; [done|].
  apply IH, body_nonempty, Hst.
Qed.

Lemma flush_nonempty st : nonempty_inv st -> Forall (fun b => b <> []) (flush st).
Proof.
  intros [Hall _]. unfold flush. destruct (listImagesInBatch st) eqn:E; [done|].
  apply Forall_app. split; [done|]. constructor; [done|constructor].
Qed.

(** No batch is empty. *)
Lemma batches_nonempty listImage overlap :
  Forall (fun b => b <> []) (createListOfBatches listImage batchSize overlap).
Proof.
  assert (Forall (fun b : list Z => b <> [])
            (flush (run_loop batchSize loop_entry (sorted listImage)))) as Hflush.
  { apply flush_nonempty, run_loop_nonempty. split; [constructor|]. by intros [? ?]. }
  unfold createListOfBatches. destruct overlap; [|done].
  rewrite split_up_singletons. apply Forall_fmap, Forall_forall. done.
Qed.

End loop.

Section shape.
Context (batchSize : Z) (Hsize : 1 ≤ batchSize).

Lemma contiguous_snoc l a :
  contiguous l → last l = Some a → contiguous (l ++ [a + 1]).
Proof.
  induction l as [|x [|y l] IH]; simpl; intros Hc Hl; [done| |].
  - by simplify_eq.
  - destruct Hc as [-> Hc]. split; [done|]. apply IH; done.
Qed.

Lemma contiguous_lookup l :
  contiguous l ↔ ∀ (i : nat) a b, l !! i = Some a → l !! S i = Some b → b - a = 1.
Proof.
  induction l as [|x [|y l] IH].
  - split; [intros _ i a b H; by destruct i | done].
  - split; [intros _ [|i] a b H1 H2; simplify_eq/= | done].
  - split.
    + intros [-> Hc] [|i] a b H1 H2; simplify_eq/=; [lia|].
      apply (proj1 IH Hc i a b); done.
    + intros H. split.
      * specialize (H 0%nat x y eq_refl eq_refl). lia.
      * apply IH. intros i a b H1 H2. apply (H (S i)); done.
Qed.

Lemma loop_inv_initial : loop_inv batchSize loop_entry.
Proof. split; [constructor | done]. Qed.

Lemma body_inv st x : loop_inv batchSize st → loop_inv batchSize (body batchSize st x).
Proof.
  intros [Hall Hcur]. unfold body.
  destruct (indexNextImageInBatch st) as [next|] eqn:Hnext.
  - destruct Hcur as (Hlast & [Hc Hlen] & Hidx).
    destruct (bool_decide (x ≠ next) || bool_decide (indexBatch st = batchSize)) eqn:Hnew.
    + split; simpl.
      * apply Forall_app; split; [done|]. constructor; [by split | constructor].
      * rewrite Z.add_simpl_r. repeat split; simpl; try done; lia.
    + apply orb_false_iff in Hnew as [Hx Hfull].
      apply bool_decide_eq_false in Hx, Hfull.
      assert (x = next) as -> by (destruct (decide (x = next)); [done | by destruct Hx]).
      split; simpl; [done|].
      rewrite last_snoc, Z.add_simpl_r. unfold well_formed.
      rewrite length_app. simpl.
      repeat split; [| lia | lia].
      replace next with ((next - 1) + 1) at 1 by lia.
      by apply contiguous_snoc.
  - rewrite Hcur. simpl. destruct (decide (batchSize = 1)) as [->|Hne]; split; simpl.
    + apply Forall_app; split; [done|]. constructor; [|constructor]. split; simpl; [done | lia].
    + done.
    + done.
    + rewrite Z.add_simpl_r. repeat split; simpl; try done; lia.
Qed.

Lemma run_loop_inv l st :
  loop_inv batchSize st → loop_inv batchSize (run_loop batchSize st l).
Proof.
  revert st. induction l as [|x l IH]; intros st Hst; [done|].
  apply IH, body_inv, Hst.
Qed.

Lemma flush_inv st : loop_inv batchSize st → Forall (well_formed batchSize) (flush st).
Proof.
  intros [Hall Hcur]. unfold flush.
  destruct (listImagesInBatch st) as [|a cur] eqn:E; [done|].
  apply Forall_app; split; [done|]. constructor; [|constructor].
  destruct (indexNextImageInBatch st); [by destruct Hcur as (_ & ? & _) | done].
Qed.

Lemma batches_well_formed listImage :
  Forall (well_formed batchSize) (createListOfBatches listImage batchSize false).
Proof. apply flush_inv, run_loop_inv, loop_inv_initial. Qed.

End shape.

Lemma concat_NoDup_each (bs : list (list Z)) :
  NoDup (concat bs) → Forall NoDup bs.
Proof.
  induction bs as [|b bs IH]; simpl; [constructor|].
  intros (Hb & _ & Hbs)%NoDup_app. constructor; auto.
Qed.

Lemma concat_NoDup_unique (bs : list (list Z)) :
  NoDup (concat bs) →
  ∀ (i j : nat) b b' x,
    bs !! i = Some b → bs !! j = Some b' → x ∈ b → x ∈ b' → i = j.
Proof.
  induction bs as [|c bs IH]; simpl; intros Hnd i j b b' x Hi Hj Hx Hx'.
  - by destruct i.
  - apply NoDup_app in Hnd as (_ & Hdisj & Hbs).
    destruct i as [|i], j as [|j]; simplify_eq/=.
    + done.
    + exfalso. apply (Hdisj x Hx). apply list_elem_of_In, in_concat.
      exists b'. split; apply list_elem_of_In; [|done]. by eapply list_elem_of_lookup_2.
    + exfalso. apply (Hdisj x Hx'). apply list_elem_of_In, in_concat.
      exists b. split; apply list_elem_of_In; [|done]. by eapply list_elem_of_lookup_2.
    + f_equal. by eapply IH.
Qed.

Lemma once_in_NoDup (b : list Z) x :
  NoDup b → x ∈ b → ∃ b1 b2, b = b1 ++ (x :: b2) ∧ (x ∉ b1) ∧ (x ∉ b2).
Proof.
  intros Hnd (b1 & b2 & ->)%list_elem_of_split. exists b1, b2.
  apply NoDup_app in Hnd as (_ & Hdisj & Htl). apply NoDup_cons in Htl as [? _].
  split; [done|]. split; [|done]. intros Hin. apply (Hdisj x Hin). by left.
Qed.

(** C1.  For every finite set [S] of positive image numbers, every
    [batchSize >= 1] and either value of [overlap], the batches of
    [createListOfBatches] cover [S] exactly: laid end to end they are a
    permutation of the elements of [S], and every element of [S] lies in
    exactly one batch, at exactly one place of it. *)
Theorem createListOfBatches_partition (S : gset Z) (batchSize : Z) (overlap : bool) :
  (∀ n, n ∈ S → 0 < n) → 1 ≤ batchSize →
  let batches := createListOfBatches (elements S) batchSize overlap in
  concat batches ≡ₚ elements S ∧
  ∀ x, x ∈ S →
    ∃ (i : nat) b,
      batches !! i = Some b ∧
      (∃ b1 b2, b = b1 ++ (x :: b2) ∧ (x ∉ b1) ∧ (x ∉ b2)) ∧
      ∀ (j : nat) b', batches !! j = Some b' → x ∈ b' → j = i.
Proof.
  intros _ _ batches.
  assert (concat batches ≡ₚ elements S) as Hperm.
  { unfold batches. rewrite createListOfBatches_concat. apply merge_sort_Permutation. }
  assert (NoDup (concat batches)) as Hnd.
  { rewrite Hperm. apply NoDup_elements. }
  split; [done|]. intros x Hx.
  assert (x ∈ concat batches) as Hin by (rewrite Hperm; by apply elem_of_elements).
  apply list_elem_of_In, in_concat in Hin as (b & Hb & Hxb).
  apply list_elem_of_In, list_elem_of_lookup in Hb as [i Hi].
  apply list_elem_of_In in Hxb.
  exists i, b. split; [done|]. split.
  - apply once_in_NoDup; [|done].
    eapply Forall_lookup_1; [apply concat_NoDup_each, Hnd | apply Hi].
  - intros j b' Hj Hxb'. by eapply (concat_NoDup_unique batches Hnd j i).
Qed.

Lemma createListOfBatches_partition_witness :
  let S : gset Z := list_to_set [7; 1; 2; 3; 4; 9; 8] in
  let batches := createListOfBatches (elements S) 3 false in
  batches = [[1; 2; 3]; [4]; [7; 8; 9]] ∧
  concat batches ≡ₚ elements S ∧
  ∀ x, x ∈ S →
    ∃ (i : nat) b,
      batches !! i = Some b ∧
      (∃ b1 b2, b = b1 ++ (x :: b2) ∧ (x ∉ b1) ∧ (x ∉ b2)) ∧
      ∀ (j : nat) b', batches !! j = Some b' → x ∈ b' → j = i.
Proof.
  split; [vm_compute; reflexivity|].
  apply (createListOfBatches_partition (list_to_set [7; 1; 2; 3; 4; 9; 8]) 3 false).
  - intros n Hn. set_unfold. lia.
  - lia.
Defined.

(** C2.  With the overlap mode off, for every finite set of positive
    image numbers and every [batchSize >= 1], each batch is a run
    (consecutive elements differ by exactly 1) of at most [batchSize]
    elements. *)
Theorem createListOfBatches_runs (S : gset Z) (batchSize : Z) :
  (∀ n, n ∈ S → 0 < n) → 1 ≤ batchSize →
  ∀ b, b ∈ createListOfBatches (elements S) batchSize false →
    (∀ (i : nat) x y, b !! i = Some x → b !! (i + 1)%nat = Some y → y - x = 1) ∧
    Z.of_nat (length b) ≤ batchSize.
Proof.
  intros _ Hsize b Hb.
  pose proof (batches_well_formed batchSize Hsize (elements S)) as Hall.
  rewrite Forall_forall in Hall. destruct (Hall b Hb) as [Hc Hlen].
  split; [|done]. intros i x y Hx Hy. rewrite Nat.add_1_r in Hy.
  by eapply (proj1 (contiguous_lookup b) Hc).
Qed.

Lemma createListOfBatches_runs_witness :
  let S : gset Z := list_to_set [7; 1; 2; 3; 4; 9; 8] in
  createListOfBatches (elements S) 3 false = [[1; 2; 3]; [4]; [7; 8; 9]] ∧
  ∀ b, b ∈ createListOfBatches (elements S) 3 false →
    (∀ (i : nat) x y, b !! i = Some x → b !! (i + 1)%nat = Some y → y - x = 1) ∧
    Z.of_nat (length b) ≤ 3.
Proof.
  split; [vm_compute; reflexivity|].
  apply (createListOfBatches_runs (list_to_set [7; 1; 2; 3; 4; 9; 8]) 3).
  - intros n Hn. set_unfold. lia.
  - lia.
Defined.

(** C3.  With the overlap mode on, for every finite set [S] of positive
    image numbers and every [batchSize >= 1], every batch has exactly one
    element and the elements of the batches are the set [S]. *)
Theorem createListOfBatches_overlap (S : gset Z) (batchSize : Z) :
  (∀ n, n ∈ S → 0 < n) → 1 ≤ batchSize →
  let batches := createListOfBatches (elements S) batchSize true in
  (∀ b, b ∈ batches → length b = 1%nat) ∧
  list_to_set (concat batches) = S.
Proof.
  intros _ _ batches. split.
  - intros b. unfold batches, createListOfBatches. rewrite split_up_singletons.
    intros (x & -> & _)%list_elem_of_fmap. done.
  - unfold batches. rewrite createListOfBatches_concat. apply set_eq. intros x.
    rewrite elem_of_list_to_set. unfold sorted.
    rewrite merge_sort_Permutation. apply elem_of_elements.
Qed.

Lemma createListOfBatches_overlap_witness :
  let S : gset Z := list_to_set [7; 1; 2; 9] in
  let batches := createListOfBatches (elements S) 3 true in
  batches = [[1]; [2]; [7]; [9]] ∧
  (∀ b, b ∈ batches → length b = 1%nat) ∧
  list_to_set (concat batches) = S.
Proof.
  split; [vm_compute; reflexivity|].
  apply (createListOfBatches_overlap (list_to_set [7; 1; 2; 9]) 3).
  - intros n Hn. set_unfold. lia.
  - lia.
Defined.

(** The three shapes of a run of the loop. *)
Example sparse_keys :
  createListOfBatches [7; 1; 2; 3; 4; 9; 8] 3 false = [[1; 2; 3]; [4]; [7; 8; 9]].
Proof. vm_compute. reflexivity. Qed.

Example batch_size_one :
  createListOfBatches [3; 1; 2] 1 false = [[1]; [2]; [3]].
Proof. vm_compute. reflexivity. Qed.

End BatchesSpec.

(** ** Python strings: digits convert *)

Module PySpec.
Import Py.

Lemma append_empty_r (s : string) : s +:+ "" = s.
Proof.
  induction s as [|c s IH]; [done|].
  change (String c (s +:+ "") = String c s). by rewrite IH.
Qed.

Lemma rev_app_rev_app (s a b : string) :
  String.rev_app (String.rev_app s a) b = String.rev_app a (s +:+ b).
Proof.
  revert a. induction s as [|c s IH]; intros a; [done|].
  change (String c s +:+ b) with (String c (s +:+ b)).
  cbn. by rewrite IH.
Qed.

Lemma rev_involutive (s : string) : String.rev (String.rev s) = s.
Proof. unfold String.rev. rewrite rev_app_rev_app. cbn. apply append_empty_r. Qed.

Lemma all_digits_rev_app (s a : string) :
  all_digits s = true -> all_digits a = true -> all_digits (String.rev_app s a) = true.
Proof.
  revert a. induction s as [|c s IH]; intros a Hs Ha; [done|].
  cbn in Hs. apply andb_true_iff in Hs as [Hc Hs].
  cbn. apply IH; [done|]. cbn. by rewrite Hc.
Qed.

Lemma digit_not_space c : is_digit c = true -> Ascii.is_space c = false.
Proof. destruct c as [[][][][][][][][]]; done. Qed.

Lemma lstrip_digits (s : string) :
  all_digits s = true -> lstrip_with Ascii.is_space s = s.
Proof.
  destruct s as [|c s]; [done|]. cbn. intros [Hc _]%andb_true_iff.
  by rewrite (digit_not_space c Hc).
Qed.

Lemma strip_digits (s : string) :
  all_digits s = true -> strip_with Ascii.is_space s = s.
Proof.
  intros Hs. unfold strip_with. rewrite (lstrip_digits s Hs).
  rewrite lstrip_digits; [apply rev_involutive|].
  by apply all_digits_rev_app.
Qed.

Lemma digit_value_nonneg c : 0 <= digit_value c.
Proof. destruct c as [[][][][][][][][]]; cbn; lia. Qed.

Lemma int_digits_all_digits (s : string) acc :
  all_digits s = true -> 0 <= acc ->
  exists n, int_digits acc false s = Some n /\ 0 <= n.
Proof.
  revert acc. induction s as [|c s IH]; intros acc Hs Hacc; [by exists acc|].
  cbn in Hs. apply andb_true_iff in Hs as [Hc Hs].
  cbn. rewrite Hc. apply IH; [done|]. pose proof (digit_value_nonneg c). lia.
Qed.

(** A token that [isdigit] accepts is one that [int] converts, to a
    non-negative number. *)
Lemma isdigit_int (s : string) :
  isdigit s = true -> exists n, int s = Some n /\ 0 <= n.
Proof.
  destruct s as [|c s]; [done|]. unfold isdigit. intros Hs.
  unfold int. rewrite (strip_digits _ Hs).
  pose proof Hs as Hs'. cbn in Hs'. apply andb_true_iff in Hs' as [Hc _].
  assert (int_unsigned (String c s) = int_digits 0 false (String c s)) as E.
  { unfold int_unsigned. by rewrite Hc. }
  destruct (int_digits_all_digits (String c s) 0 Hs) as (n & Hn & Hpos); [lia|].
  exists n. split; [|done]. rewrite <- Hn, <- E.
  destruct c as [[][][][][][][][]]; try done.
Qed.

Example shlex_tokens :
  Shlex.split "  12 3.5   -  'a b' x\\ y " = Ok ["12"; "3.5"; "-"; "a b"; "x\"; "y"].
Proof. vm_compute. reflexivity. Qed.

Example shlex_open_quote : Shlex.split "it's" = Raise ValueError.
Proof. vm_compute. reflexivity. Qed.

Example int_literals :
  int " -1_000 " = Some (-1000) /\ int "007" = Some 7 /\ int "1__0" = None /\
  int "_1" = None /\ int "1_" = None /\ int "+" = None /\ int "12x" = None.
Proof. vm_compute. repeat split. Qed.

Example decimal_literals :
  Decimal.of_string "-12.50" = Some (-25 # 2)%Q /\ Decimal.of_string "1." = Some 1%Q /\
  Decimal.of_string ".5" = Some (1 # 2)%Q /\ Decimal.of_string "." = None /\
  Decimal.of_string "1.2.3" = None.
Proof. vm_compute. repeat split. Qed.

Example string_methods :
  split_on "=" "h = 12 = 3" = ["h "; " 12 "; " 3"] /\
  split_ws "  a  bc d " = ["a"; "bc"; "d"] /\ strip "  a b  " = "a b" /\
  split_on "=" "" = [""] /\ endswith "abc.h5" ".h5" = true.
Proof. vm_compute. repeat split. Qed.

End PySpec.

(** ** The angles of ExecDozor *)

Module AngleSpec.
Import ExecDozor.
Local Open Scope Q_scope.

Lemma angle_Q (d : inData Q) n :
  angle d n ==
  startingAngle d
  + inject_Z (n - firstImageNumber d) * (oscillationRange d - default 0 (overlap d))
  + oscillationRange d / 2.
Proof. unfold angle. simpl. reflexivity. Qed.

(** C4, as the code has it, in exact arithmetic.  With the overlap left
    at its default, putting the back-computed angle
    [startingAngle - (firstImageNumber - 1) * oscillationRange] in the place
    of [startingAngle] and evaluating the angle formula of parseOutput at
    [imageNumber = firstImageNumber] gives
    [startingAngle - (firstImageNumber - 1) * oscillationRange
     + oscillationRange / 2]; this is the original [startingAngle] exactly
    when [oscillationRange] is zero.  On the parameters of the batch
    themselves the formula gives the middle of the first image,
    [startingAngle + oscillationRange / 2], and the back-computed angle plus
    [(firstImageNumber - 1) * oscillationRange] is [startingAngle]. *)
Theorem angle_of_back_computed_start
    (start osc : Q) (first : Z) (template : string) :
  let d := {| startingAngle := start; firstImageNumber := first;
              oscillationRange := osc; overlap := None;
              nameTemplateImage := template |} in
  angle (substituted d) first == start - inject_Z (first - 1) * osc + osc / 2 /\
  (angle (substituted d) first == start <-> osc == 0) /\
  angle d first == start + osc / 2 /\
  overall_starting_angle d + inject_Z (first - 1) * osc == start.
Proof.
  intros d.
  assert (angle (substituted d) first == start - inject_Z (first - 1) * osc + osc / 2) as E1.
  { rewrite angle_Q. unfold substituted, overall_starting_angle, d; simpl.
    rewrite Z.sub_diag. unfold inject_Z at 2. field. }
  split; [exact E1|]. split; [|split].
  - rewrite E1. split.
    + intros H. set (k := (first - 1)%Z) in *.
      assert (osc * (2 * inject_Z k - 1) == 0) as Hz.
      { transitivity (- (2) * ((start - inject_Z k * osc + osc / 2) - start)).
        - field.
        - rewrite H. ring. }
      apply Qmult_integral in Hz as [Hz|Hz]; [exact Hz|].
      exfalso. unfold Qeq, inject_Z in Hz. simpl in Hz. lia.
    + intros ->. field.
  - rewrite angle_Q. unfold d; simpl. rewrite Z.sub_diag. unfold inject_Z. field.
  - unfold overall_starting_angle, d; simpl. ring.
Qed.

(** C4 as stated fails: for a batch that starts at image 5 with starting
    angle 10 and oscillation range 1 the formula gives 6.5, not 10. *)
Lemma angle_round_trip_fails :
  angle (substituted Samples.parameters) 5 == 13 # 2 /\
  ~ angle (substituted Samples.parameters) 5 == startingAngle Samples.parameters.
Proof. split; [reflexivity|]. intros H. vm_compute in H. discriminate. Qed.

End AngleSpec.

(** ** The decoder of the result log *)

Module DecoderSpec.
Import Py ExecDozor PySpec.

Ltac run_try_block Hint1 :=
  cbn [getitem lookup list_lookup exec assign mbind fmap result_bind result_fmap
       mret result_ret short_layout extended_layout];
  unfold int_or_raise; rewrite ?Hint1;
  cbn [getitem lookup list_lookup exec assign mbind fmap result_bind result_fmap
       mret result_ret].

Ltac split_spot_file wd :=
  unfold attach_spot_file;
  destruct wd as [?dir|];
  [ match goal with
    | |- context [?exists_ (path_join ?a ?b)] =>
        generalize (path_join a b); intros ?spotFile; destruct (exists_ _)
    end | ].

Section rows.
Context {F : Type} {float : PyFloat F}.
Context (image_name : string -> Z -> string) (path_exists : string -> bool).

Lemma is_row_isdigit listLine token0 :
  is_row listLine = Some token0 -> isdigit token0 = true.
Proof.
  destruct listLine as [|t0 rest]; [done|]. cbn.
  destruct (isdigit t0) eqn:E; [|done]. by intros [= <-].
Qed.

(** A result row always yields a record. *)
Lemma decode_row_ok (d : inData F) wd token0 listLine :
  isdigit token0 = true ->
  exists record, decode_row image_name path_exists d wd token0 listLine = Ok record.
Proof.
  intros (m & Hm & _)%isdigit_int. unfold decode_row, int_or_raise.
  rewrite Hm. by eexists.
Qed.

(** The fields of the record of a row that has a token 5 and an integer
    token 1: every field is read at its position when the row has it and
    keeps its initial value otherwise. *)
Lemma decode_row_fields (d : inData F) (workingDir : option string)
    (token0 : string) (listLine : list string) (token1 token5 : string) (n : Z) :
  is_row listLine = Some token0 ->
  listLine !! 1%nat = Some token1 -> int token1 = Some n ->
  listLine !! 5%nat = Some token5 ->
  exists record,
    decode_row image_name path_exists d workingDir token0 listLine = Ok record /\
    record !! "spotsNumOf" = Some (VInt n) /\
    record !! "spotsIntAver" = parseDouble <$> listLine !! 2%nat /\
    record !! "spotsResolution" = parseDouble <$> listLine !! 4%nat /\
    if startswith token5 "-" || bool_decide (length listLine < 11)%nat then
      record !! "spotsRFactor" = parseDouble <$> listLine !! 3%nat /\
      record !! "mainScore" = Some (field_or listLine 8 VNone) /\
      record !! "spotScore" = Some (field_or listLine 9 VNone) /\
      record !! "visibleResolution" = Some (field_or listLine 10 (VInt 40)) /\
      Forall (fun key => record !! key = None) powder_keys
    else
      record !! "spotsRfactor" = parseDouble <$> listLine !! 3%nat /\
      record !! "powderWilsonScale" = parseDouble <$> listLine !! 5%nat /\
      record !! "powderWilsonBfactor" = parseDouble <$> listLine !! 6%nat /\
      record !! "powderWilsonResolution" = parseDouble <$> listLine !! 7%nat /\
      record !! "powderWilsonCorrelation" = parseDouble <$> listLine !! 8%nat /\
      record !! "powderWilsonRfactor" = parseDouble <$> listLine !! 9%nat /\
      record !! "mainScore" = parseDouble <$> listLine !! 10%nat /\
      record !! "spotScore" = Some (field_or listLine 11 VNone) /\
      record !! "visibleResolution" = Some (field_or listLine 12 (VInt 40)).
Proof.
  intros Hrow H1 Hint H5.
  destruct listLine as [|t0 [|t1 [|t2 [|t3 [|t4 [|t5 [|t6 [|t7 [|t8 [|t9
                       [|t10 [|t11 [|t12 rest]]]]]]]]]]]]]; try done.
  all: cbn in Hrow; destruct (isdigit t0) eqn:Hd; [|done].
  all: destruct (isdigit_int _ Hd) as (m & Hm & _).
  all: simplify_eq/=.
  all: unfold decode_row, int_or_raise; rewrite Hm; cbn [mbind result_bind].
  all: eexists; split; [reflexivity|].
  all: unfold try_layout; cbn [getitem lookup list_lookup].
  all: destruct (startswith token5 "-") eqn:Hdash; cbn [orb length].
  all: try (rewrite bool_decide_eq_true_2 by lia).
  all: try (rewrite bool_decide_eq_false_2 by lia).
  all: run_try_block Hint.
  all: split_spot_file workingDir.
  all: vm_compute; repeat split; repeat constructor.
Qed.

Lemma field_law_intro listLine (record : gmap string (pyval F)) key pos :
  (pos < length listLine)%nat ->
  (record !! key = parseDouble <$> listLine !! pos \/
   exists dflt, record !! key = Some (field_or listLine pos dflt)) ->
  field_law listLine record (key, pos).
Proof.
  intros [token Ht]%lookup_lt_is_Some_2 Hrec. exists token. cbn [fst snd].
  assert (record !! key = Some (parseDouble token)) as ->.
  { destruct Hrec as [->|[dflt ->]]; [by rewrite Ht|]. unfold field_or. by rewrite Ht. }
  split; [done|]. split; [done|]. unfold parseDouble.
  destruct (float_of_str token); split; congruence.
Qed.

(** In a row that has all the positions of its layout and an integer
    spot count, every floating-point field follows its own token. *)
Lemma full_row_fields (d : inData F) wd token0 listLine token1 token5 n :
  is_row listLine = Some token0 ->
  listLine !! 1%nat = Some token1 -> int token1 = Some n ->
  listLine !! 5%nat = Some token5 ->
  ((if startswith token5 "-" then 11 else 13) <= length listLine)%nat ->
  exists record,
    decode_row image_name path_exists d wd token0 listLine = Ok record /\
    record !! "spotsNumOf" = Some (VInt n) /\
    Forall (field_law listLine record)
      (if startswith token5 "-" then short_fields else extended_fields).
Proof.
  intros Hrow H1 Hint H5 Hlen.
  destruct (decode_row_fields d wd token0 listLine token1 token5 n Hrow H1 Hint H5)
    as (record & Hdec & Hnum & Hia & Hres & Hlayout).
  exists record. split; [done|]. split; [done|].
  destruct (startswith token5 "-"); cbn [orb] in Hlayout.
  - destruct Hlayout as (? & ? & ? & ? & _).
    repeat constructor; apply field_law_intro; try lia; eauto.
  - rewrite bool_decide_eq_false_2 in Hlayout by lia.
    destruct Hlayout as (? & ? & ? & ? & ? & ? & ? & ? & ?).
    repeat constructor; apply field_law_intro; try lia; eauto.
Qed.

Lemma extend_empty_r (res : resultDozor F) : extend res empty_result = res.
Proof. destruct res as [recs h]. unfold extend; simpl. by rewrite app_nil_r. Qed.

Lemma extend_assoc (a b c : resultDozor F) :
  extend (extend a b) c = extend a (extend b c).
Proof.
  unfold extend; simpl. rewrite app_assoc. f_equal.
  destruct (halfDoseTime c), (halfDoseTime b), (halfDoseTime a); done.
Qed.

(** A line is decoded the same way whatever was decoded before it. *)
Lemma parse_line_extend (d : inData F) wd res line :
  parse_line image_name path_exists d wd res line =
  extend res <$> parse_line image_name path_exists d wd empty_result line.
Proof.
  unfold parse_line. destruct (Shlex.split _) as [listLine|e]; [|done].
  cbn [mbind result_bind]. destruct (is_row listLine) as [token0|].
  - destruct (decode_row _ _ _ _ _ _) as [record|e]; [|done].
    done.
  - destruct (startswith line "h"); [|by rewrite <- (extend_empty_r res) at 1].
    destruct (getitem (split_on "=" line) 1) as [rhs|e]; [|done].
    cbn [mbind result_bind]. destruct (getitem (split_ws rhs) 0) as [value|e]; [|done].
    cbn. unfold extend; simpl. by rewrite app_nil_r.
Qed.

Lemma parse_lines_extend (d : inData F) wd res ls :
  parse_lines image_name path_exists d wd res ls =
  extend res <$> parse_lines image_name path_exists d wd empty_result ls.
Proof.
  revert res. induction ls as [|line ls IH]; intros res.
  - cbn [parse_lines fmap result_fmap]. by rewrite extend_empty_r.
  - cbn [parse_lines]. rewrite parse_line_extend.
    destruct (parse_line _ _ _ _ empty_result line) as [r1|e]; [|done].
    cbn [fmap result_fmap mbind result_bind].
    rewrite IH, (IH r1).
    destruct (parse_lines _ _ _ _ empty_result ls) as [r2|e]; [|done].
    cbn. by rewrite extend_assoc.
Qed.

Lemma parse_lines_app (d : inData F) wd res l1 l2 :
  parse_lines image_name path_exists d wd res (l1 ++ l2) =
  parse_lines image_name path_exists d wd res l1 ≫=
    fun r => parse_lines image_name path_exists d wd r l2.
Proof.
  revert res. induction l1 as [|line l1 IH]; intros res; [done|].
  cbn [app parse_lines]. destruct (parse_line _ _ _ _ res line) as [r|e]; [|done].
  cbn [mbind result_bind]. apply IH.
Qed.

Lemma parse_line_ok_iff (d : inData F) wd res line :
  (exists r, parse_line image_name path_exists d wd res line = Ok r) <-> line_decodes line.
Proof.
  unfold parse_line, line_decodes.
  destruct (Shlex.split _) as [listLine|e]; cbn [mbind result_bind].
  2:{ split; [by intros [r ?] | by intros (l & ? & _)]. }
  destruct (is_row listLine) as [token0|] eqn:Hrow.
  - destruct (decode_row_ok d wd token0 listLine (is_row_isdigit _ _ Hrow)) as [record ->].
    cbn [mbind result_bind]. split; [|by eexists].
    intros _. exists listLine. split; [done|]. intros E. by rewrite Hrow in E.
  - destruct (startswith line "h").
    2:{ split; [|by eexists]. intros _. exists listLine. split; [done|]. done. }
    unfold getitem. split.
    + intros [r Hr]. exists listLine. split; [done|]. intros _ _.
      destruct (split_on "=" line !! 1%nat) as [rhs|]; [|done]. cbn [mbind result_bind] in Hr.
      destruct (split_ws rhs !! 0%nat) as [value|] eqn:Hv; [|by cbn in Hr].
      by exists rhs, value.
    + intros (l & [= <-] & Hh). rewrite Hrow in Hh.
      destruct (Hh eq_refl eq_refl) as (rhs & value & -> & Hv).
      cbn [mbind result_bind]. rewrite Hv. by eexists.
Qed.

Lemma parse_lines_ok_iff (d : inData F) wd res ls :
  (exists r, parse_lines image_name path_exists d wd res ls = Ok r) <->
  Forall line_decodes ls.
Proof.
  revert res. induction ls as [|line ls IH]; intros res.
  - split; [constructor | by eexists].
  - cbn [parse_lines]. rewrite Forall_cons, <- (parse_line_ok_iff d wd res line). split.
    + intros [r Hr]. destruct (parse_line _ _ _ _ res line) as [r1|e]; [|done].
      split; [by eexists|]. apply (IH r1). by exists r.
    + intros [[r1 ->] Hls]. cbn [mbind result_bind]. by apply IH.
Qed.




End rows.
End DecoderSpec.

(** ** The decoder on sample rows and logs *)

Module DecoderSamples.
Import Py ExecDozor DecoderSpec Samples.

(** Split a conjunction of closed facts and evaluate each of them. *)
Ltac conjuncts :=
  repeat (lazymatch goal with |- _ /\ _ => split end).
Ltac evaluate := conjuncts; try (vm_compute; reflexivity).




(** The records of the sample log: the unreadable B-factor is null, its
    neighbours hold their values, and the next row is decoded as usual. *)
Example unreadable_bfactor :
  (fun res =>
     (fun record => (record !! "powderWilsonScale", record !! "powderWilsonBfactor",
                     record !! "powderWilsonResolution")) <$> imageDozor res)
    <$> parseOutput image_name no_files parameters log_rows None
  = Ok [(Some (VFloat 1%Q), Some VNone, Some (VFloat 3%Q));
        (Some (VFloat (11 # 10)%Q), Some (VFloat (11 # 5)%Q), Some (VFloat (33 # 10)%Q))].
Proof. vm_compute. reflexivity. Qed.



(** An unbalanced quote raises too, from [shlex.split]. *)
Example parseOutput_raises_on_open_quote :
  parseOutput image_name no_files parameters (banner +:+ "it's") None = Raise ValueError.
Proof. vm_compute. reflexivity. Qed.

(** A half-dose line *)
Example half_dose_time :
  halfDoseTime <$> parseOutput image_name no_files parameters
                     (banner +:+ "half dose time = 12.5 s") None = Ok (Some "12.5").
Proof. vm_compute. reflexivity. Qed.

End DecoderSamples.

(** ** The parser of the plot file *)

Module PlotSpec.
Import Py PlotMtv.

Section fuel.
Context {F : Type} {float : PyFloat F}.

Lemma attributes_length lines (d d' : gmap string (plotval F)) rest :
  attributes lines d = Ok (d', rest) -> (length rest <= length lines)%nat.
Proof.
  revert d. induction lines as [|line lines IH]; intros d; [done|].
  cbn [attributes]. destruct (startswith line "%"); [|intros [= <- <-]; done].
  destruct (getitem (split_on "=" line) 0) as [first|e]; [|done]. cbn [mbind result_bind].
  destruct (getitem (split_on "=" line) 1) as [rhs|e]; [|done]. cbn [mbind result_bind].
  destruct (attribute_value rhs) as [value|e]; [|done]. cbn [mbind result_bind].
  intros H%IH. cbn. lia.
Qed.

Lemma plot_block_length (st st' : state F) rest rest' :
  plot_block st rest = Ok (st', rest') -> (length rest' <= length rest)%nat.
Proof.
  unfold plot_block.
  destruct (getitem rest 0) as [nameLine|e]; [|done]. cbn [mbind result_bind].
  destruct (getitem (split_on "039" nameLine) 1) as [name|e]; [|done]. cbn [mbind result_bind].
  destruct (attributes (drop 1 rest) _) as [[d r]|e] eqn:E; [|done]. cbn [mbind result_bind].
  intros [= <- <-]. apply attributes_length in E. rewrite length_drop in E. lia.
Qed.

Lemma sub_plot_length (st st' : state F) line rest rest' :
  sub_plot st line rest = Ok (st', rest') -> (length rest' <= length rest)%nat.
Proof.
  unfold sub_plot.
  destruct (getitem (split_on "#" line) 1) as [plotName|e]; [|done]. cbn [mbind result_bind].
  destruct (attributes rest _) as [[d r]|e] eqn:E; [|done]. cbn [mbind result_bind].
  intros [= <- <-]. by apply attributes_length in E.
Qed.

Lemma parse_enough_fuel fuel (st : state F) lines :
  (length lines <= fuel)%nat -> exists r, parse fuel st lines = Some r.
Proof.
  revert st lines. induction fuel as [|fuel IH]; intros st [|line rest] Hlen;
    cbn in Hlen; try lia; try (by eexists).
  cbn [parse]. destruct (startswith line "$").
  - destruct (plot_block st rest) as [[st' rest']|e] eqn:E; [|by eexists].
    apply IH. apply plot_block_length in E. lia.
  - destruct (startswith line "#").
    + destruct (sub_plot st line rest) as [[st' rest']|e] eqn:E; [|by eexists].
      apply IH. apply sub_plot_length in E. lia.
    + destruct (data_row st line) as [st'|e]; [|by eexists]. apply IH. lia.
Qed.

(** The loop always ends: the fuel of one iteration per line is enough. *)
Lemma generatePngPlots_parse_ends text :
  exists r, generatePngPlots_parse (F := F) text = Some r.
Proof. apply parse_enough_fuel. lia. Qed.

End fuel.

(** C8.  On the plot file made of one [$] block named Plot1, one [#]
    sub-plot named Series A with the single attribute line
    [% linelabel = 'A'], and the data rows [1.0 2.0] and [2.0 3.0], the
    parser ends without an exception and has built exactly one plot
    dictionary, named Plot1, whose plot list holds exactly one sub-plot
    dictionary: name Series A, linelabel A, xValues [1.0, 2.0] and
    yValues [2.0, 3.0]. *)
Theorem plot_nesting :
  let st := final_state (generatePngPlots_parse Samples.plot_text) in
  generatePngPlots_parse Samples.plot_text = Some (Ok st) /\
  listPlots st = [ <["name" := PStr "Plot1"]> (<["plotList" := PRef 1]> ∅) ] /\
  plotList st <$> listPlots st =
    [[ <["yValues" := PFloats [2%Q; 3%Q]]> (
       <["xValues" := PFloats [1%Q; 2%Q]]> (
       <["linelabel" := PStr "A"]> (
       <["name" := PStr "Series A"]> ∅))) ]].
Proof. vm_compute. repeat split. Qed.

End PlotSpec.

(** ** The aggregation of ControlDozor.run *)

Module RunSpec.
Import Py ExecDozor ControlDozor.

Section complete.
Context {F : Type} {float : PyFloat F}.
Context (image_name : string -> Z -> string) (path_exists : string -> bool).

Lemma exec_preserves (P : gmap string (pyval F) -> Prop) (body : list stmt) d :
  P d ->
  Forall (fun s : stmt => forall d d', P d -> s d = Ok d' -> P d') body ->
  P (exec body d).
Proof.
  intros Hd Hbody. revert d Hd. induction Hbody as [|s body Hs _ IH]; intros d Hd; [done|].
  cbn. destruct (s d) as [d'|e] eqn:E; [|done]. apply IH. by eapply Hs.
Qed.

Lemma insert_complete key (v : pyval F) d :
  key <> "image" -> key <> "spotFile" ->
  complete_record d -> complete_record (<[key := v]> d).
Proof.
  intros Himage Hspot (Hkeys & [name Hname] & Hfile). split; [|split].
  - rewrite Forall_forall in Hkeys |- *. intros k Hk.
    destruct (decide (k = key)) as [->|Hne].
    + rewrite lookup_insert_eq. by eexists.
    + rewrite lookup_insert_ne by done. by apply Hkeys.
  - exists name. by rewrite lookup_insert_ne.
  - intros w. rewrite lookup_insert_ne by done. apply Hfile.
Qed.

Lemma assign_complete key (rhs : result (pyval F)) d d' :
  key <> "image" -> key <> "spotFile" ->
  complete_record d -> assign key rhs d = Ok d' -> complete_record d'.
Proof.
  intros Himage Hspot Hd. unfold assign. destruct rhs as [v|e]; [|done].
  intros [= <-]. by apply insert_complete.
Qed.

Lemma new_record_complete (d : ExecDozor.inData F) imageNumber :
  complete_record (new_record image_name d imageNumber).
Proof.
  split; [|split].
  - unfold base_keys.
    repeat (apply Forall_cons_2; [vm_compute; by eexists|]). apply Forall_nil_2.
  - eexists. vm_compute. reflexivity.
  - intros v. vm_compute. done.
Qed.

Lemma try_layout_complete listLine (d : gmap string (pyval F)) :
  complete_record d -> complete_record (try_layout listLine d).
Proof.
  intros Hd. unfold try_layout. destruct (getitem listLine 5) as [token5|e]; [|done].
  destruct (_ || _); (apply exec_preserves; [done|]);
    unfold short_layout, extended_layout;
    repeat (apply Forall_cons_2;
            [intros d1 d2 Hd1 Hassign;
             (eapply assign_complete; [| |exact Hd1|exact Hassign]); done|]);
    apply Forall_nil_2.
Qed.

Lemma attach_spot_file_complete wd imageNumber (d : gmap string (pyval F)) :
  complete_record d -> complete_record (attach_spot_file path_exists wd imageNumber d).
Proof.
  intros Hd. unfold attach_spot_file. destruct wd as [dir|]; [|done].
  destruct (path_exists _); [|done].
  destruct Hd as (Hkeys & [name Hname] & Hfile). split; [|split].
  - rewrite Forall_forall in Hkeys |- *. intros k Hk.
    destruct (decide (k = "spotFile")) as [->|Hne].
    + rewrite lookup_insert_eq. by eexists.
    + rewrite lookup_insert_ne by done. by apply Hkeys.
  - exists name. by rewrite lookup_insert_ne.
  - intros v. rewrite lookup_insert_eq. intros [= <-]. by eexists.
Qed.

Lemma decode_row_complete (d : ExecDozor.inData F) wd token0 listLine record :
  decode_row image_name path_exists d wd token0 listLine = Ok record ->
  complete_record record.
Proof.
  unfold decode_row. destruct (int_or_raise token0) as [n|e]; [|done].
  intros [= <-]. apply attach_spot_file_complete, try_layout_complete, new_record_complete.
Qed.

Lemma parse_lines_complete (d : ExecDozor.inData F) wd res ls res' :
  Forall complete_record (imageDozor res) ->
  parse_lines image_name path_exists d wd res ls = Ok res' ->
  Forall complete_record (imageDozor res').
Proof.
  revert res. induction ls as [|line ls IH]; intros res Hres; [by intros [= <-]|].
  cbn [parse_lines]. destruct (parse_line _ _ _ _ res line) as [res1|e] eqn:Hline; [|done].
  cbn [mbind result_bind]. apply IH. revert Hline. unfold parse_line.
  destruct (Shlex.split _) as [listLine|e]; [|done]. cbn [mbind result_bind].
  destruct (is_row listLine) as [token0|].
  - destruct (decode_row _ _ _ _ _ _) as [record|e] eqn:Hrow; [|done].
    intros [= <-]. cbn. apply Forall_app. split; [done|].
    constructor; [|constructor]. by eapply decode_row_complete.
  - destruct (startswith line "h"); [|by intros [= <-]].
    destruct (getitem (split_on "=" line) 1) as [rhs|e]; [|done]. cbn [mbind result_bind].
    destruct (getitem (split_ws rhs) 0) as [value|e]; [|done]. by intros [= <-].
Qed.

(** Every record of [parseOutput] has the entries [run] reads. *)
Lemma parseOutput_complete (d : ExecDozor.inData F) output wd res :
  parseOutput image_name path_exists d output wd = Ok res ->
  Forall complete_record (imageDozor res).
Proof. apply parse_lines_complete. constructor. Qed.

End complete.

Section run.
Context {F : Type} {float : PyFloat F}.
Context (getImageNumber : string -> Z)
        (read_header : string -> option string)
        (execute_dozor : string -> list Z -> bool -> option (resultDozor F))
        (path_exists : string -> bool)
        (load_spot_list : string -> result (string * list Z)).

Lemma indicators_ok returnSpotList (record : gmap string (pyval F)) :
  complete_record record -> spot_lists_load path_exists load_spot_list returnSpotList ->
  exists imageQualityIndicators,
    indicators path_exists load_spot_list returnSpotList record = Ok imageQualityIndicators.
Proof.
  intros (Hkeys & _ & Hspot) Hload. unfold indicators, dict_getitem.
  repeat (apply Forall_cons in Hkeys as [[? ->] Hkeys]; cbn [mbind result_bind]).
  destruct (record !! "spotFile") as [v|] eqn:Hv; [|by eexists].
  destruct (Hspot v eq_refl) as [spotFile ->].
  destruct (path_exists spotFile) eqn:Hexists; [|by eexists].
  destruct returnSpotList; [|by eexists].
  destruct (Hload eq_refl spotFile Hexists) as [[encoded shape] ->].
  by eexists.
Qed.

Lemma append_indicators_ok returnSpotList acc (records : list (gmap string (pyval F))) :
  Forall complete_record records ->
  spot_lists_load path_exists load_spot_list returnSpotList ->
  exists new,
    append_indicators path_exists load_spot_list returnSpotList acc records
      = Ok (acc ++ new) /\
    Forall2 (fun record i =>
               indicators path_exists load_spot_list returnSpotList record = Ok i)
            records new.
Proof.
  intros Hrecords Hload. revert acc.
  induction Hrecords as [|record records Hrecord _ IH]; intros acc.
  - exists []. by rewrite app_nil_r.
  - destruct (indicators_ok returnSpotList record Hrecord Hload) as [i Hi].
    destruct (IH (acc ++ [i])) as (new & Hnew & Hall).
    exists (i :: new). cbn [append_indicators]. rewrite Hi. cbn [mbind result_bind].
    rewrite Hnew, <- app_assoc. split; [done|]. by constructor.
Qed.

Lemma renumber_ok imageNumberOrig (out : resultDozor F) :
  Forall complete_record (imageDozor out) ->
  exists out', renumber imageNumberOrig out = Ok out' /\
               Forall complete_record (imageDozor out').
Proof.
  intros Hout. unfold renumber.
  destruct (imageDozor out) as [|record [|? ?]] eqn:E; try (exists out; by rewrite E).
  pose proof Hout as [Hrecord _]%Forall_cons.
  pose proof Hrecord as (Hkeys & [name Hname] & Hspot).
  unfold dict_getitem. rewrite Hname. cbn [mbind result_bind].
  destruct (endswith name ".h5"); [|exists out; by rewrite E].
  assert (is_Some (record !! "number")) as [number ->].
  { rewrite Forall_forall in Hkeys. apply Hkeys. set_solver. }
  cbn [mbind result_bind].
  destruct (equals_int number imageNumberOrig); [exists out; by rewrite E|].
  eexists. split; [done|]. cbn. constructor; [|constructor].
  by apply insert_complete.
Qed.

(** The loop over the batches never raises on a failed batch, and what it
    appends is the contribution of each batch, in the order of the
    batches. *)
Lemma run_batches_spec dictImage hasOverlap returnSpotList listAllBatches :
  (forall n image, dictImage !! n = Some image -> is_Some (read_header image)) ->
  records_complete execute_dozor ->
  spot_lists_load path_exists load_spot_list returnSpotList ->
  Forall (fun listBatch => exists first, listBatch !! 0%nat = Some first /\
                                         is_Some (dictImage !! first)) listAllBatches ->
  forall out0, exists out added,
    run_batches getImageNumber read_header execute_dozor path_exists load_spot_list
      dictImage hasOverlap returnSpotList out0 listAllBatches = Ok out /\
    imageQualityIndicators out = imageQualityIndicators out0 ++ concat added /\
    Forall2 (batch_contribution getImageNumber execute_dozor path_exists load_spot_list
               dictImage hasOverlap returnSpotList)
            listAllBatches added.
Proof.
  intros Hheaders Hcomplete Hload Hbatches.
  induction Hbatches as [|listBatch rest (first & Hfirst & [image Himage]) _ IH]; intros out0.
  - exists out0, []. cbn. by rewrite app_nil_r.
  - cbn [run_batches]. unfold runDozorTask, getitem, dict_getitem.
    rewrite Hfirst. cbn [mbind result_bind]. rewrite Himage. cbn [mbind result_bind].
    destruct (Hheaders first image Himage) as [detectorType ->]. cbn [mbind result_bind].
    destruct (execute_dozor image listBatch hasOverlap) as [outDataDozor|] eqn:Hexec.
    + destruct (renumber_ok (getImageNumber image) outDataDozor) as (out' & Hren & Hout');
        [by eapply Hcomplete|].
      rewrite Hren. cbn [mbind result_bind].
      destruct (append_indicators_ok returnSpotList (imageQualityIndicators out0)
                  (imageDozor out') Hout' Hload) as (new & -> & Hnew).
      cbn [mbind result_bind].
      destruct (IH {| imageQualityIndicators := imageQualityIndicators out0 ++ new;
                      detectorType := Some detectorType |})
        as (out & added & -> & Hout & Hadded).
      exists out, (new :: added). split; [done|]. split.
      * rewrite Hout. cbn. by rewrite app_assoc.
      * constructor; [|done]. exists first, image. rewrite Hexec.
        split; [done|]. split; [done|]. by exists out'.
    + cbn [mbind result_bind].
      destruct (IH {| imageQualityIndicators := imageQualityIndicators out0;
                      detectorType := Some detectorType |})
        as (out & added & -> & Hout & Hadded).
      exists out, ([] :: added). split; [done|]. split; [done|].
      constructor; [|done]. exists first, image. by rewrite Hexec.
Qed.

Lemma createImageDict_lookup listImage n path :
  createImageDict getImageNumber listImage !! n = Some path -> path ∈ listImage.
Proof.
  unfold createImageDict.
  assert (forall (acc : gmap Z string),
            foldl (fun dictImage imagePath => <[getImageNumber imagePath := imagePath]> dictImage)
                  acc listImage !! n = Some path ->
            acc !! n = Some path \/ path ∈ listImage) as H.
  { induction listImage as [|p l IH]; intros acc Hn; [by left|].
    cbn in Hn. destruct (IH _ Hn) as [Hacc|Hin]; [|right; by right].
    apply lookup_insert_Some in Hacc as [[_ <-]|[_ Hacc]]; [right; by left|by left]. }
  intros Hn. by destruct (H ∅ Hn).
Qed.

Lemma batches_first_in_dict (dictImage : gmap Z string) batchSize overlap :
  Forall (fun listBatch => exists first, listBatch !! 0%nat = Some first /\
                                         is_Some (dictImage !! first))
         (Batches.createListOfBatches (elements (dom dictImage)) batchSize overlap).
Proof.
  pose proof (BatchesSpec.batches_nonempty batchSize (elements (dom dictImage)) overlap)
    as Hne.
  pose proof (BatchesSpec.createListOfBatches_concat batchSize
                (elements (dom dictImage)) overlap) as Hcat.
  rewrite Forall_forall in Hne |- *. intros b Hb. specialize (Hne b Hb).
  destruct b as [|first b]; [done|]. exists first. split; [done|].
  apply elem_of_dom, elem_of_elements.
  rewrite <- (merge_sort_Permutation Z.le). fold (Batches.sorted (elements (dom dictImage))).
  rewrite <- Hcat. apply list_elem_of_In, in_concat. exists (first :: b).
  split; apply list_elem_of_In; [done|by left].
Qed.


End run.


(** Three batches, the second one failing: the indicators are those of
    images 1 and 3, in this order. *)
Example three_batches_second_fails :
  Batches.createListOfBatches
    (elements (dom (createImageDict Samples.getImageNumber Samples.three_images))) 1 false
  = [[1]; [2]; [3]] /\
  (fun out => (fun i => (i !! "number", i !! "dozorScore")) <$> imageQualityIndicators out)
    <$> run Samples.getImageNumber Samples.read_header Samples.execute_dozor
            Samples.no_files Samples.load_spot_list Samples.three_batches
  = Ok [(Some (VInt 1), Some (VFloat (17 # 20)%Q));
        (Some (VInt 3), Some (VFloat (17 # 20)%Q))].
Proof. split; vm_compute; reflexivity. Qed.

End RunSpec.

(** ** The join order of ControlIndexing.runControlDozor *)

Module IndexingSpec.
Import ControlIndexing.

Section threads.
Context {A : Type} (outcome : string -> option A).

Lemma fst_insert_status (tasks : list (string * status)) k path st st' :
  tasks !! k = Some (path, st) -> (<[k := (path, st')]> tasks).*1 = tasks.*1.
Proof.
  intros Hk. rewrite list_fmap_insert. cbn.
  apply list_insert_id. by rewrite list_lookup_fmap, Hk.
Qed.

Lemma take_insert_finished (tasks : list (string * status)) k j path :
  Forall finished (take j tasks) ->
  Forall finished (take j (<[k := (path, Finished)]> tasks)).
Proof.
  rewrite !Forall_lookup. intros H i t Hi.
  apply lookup_take_Some in Hi as [Hi Hlt].
  destruct (decide (i = k)) as [->|Hne].
  - apply list_lookup_insert_Some in Hi as [(_ & <- & _)|[? _]]; done.
  - rewrite list_lookup_insert_ne in Hi by done.
    apply (H i). by rewrite lookup_take_lt.
Qed.

(** Every step keeps the invariant. *)
Lemma step_inv imgs m m' :
  reachable_inv outcome imgs m -> step outcome m m' -> reachable_inv outcome imgs m'.
Proof.
  intros Hinv Hstep.
  destruct Hstep as [path todo tasks out|tasks out|pos tasks out k path Hk
                    |tasks out k path Hk|tasks out k Hk];
    unfold reachable_inv in *; cbn in *.
  - destruct Hinv as [<- ->]. split; [|done].
    rewrite fmap_app. cbn. by rewrite <- app_assoc.
  - destruct Hinv as [<- ->]. rewrite app_nil_r. repeat split; try done; try lia.
  - rewrite (fst_insert_status _ _ _ _ _ Hk).
    destruct pos as [todo|j|]; [done| |].
    + destruct Hinv as (? & ? & ? & ?). repeat split; try done.
      by apply take_insert_finished.
    + destruct Hinv as (? & ? & Hf). repeat split; try done.
      rewrite <- (take_ge tasks (length tasks)) in Hf by lia.
      rewrite <- (take_ge (<[k:=_]> tasks) (length tasks)) by (rewrite length_insert; lia).
      by apply take_insert_finished.
  - destruct Hinv as (Himgs & Hle & -> & Hf).
    assert (imgs !! k = Some path) as Hpath.
    { rewrite <- Himgs, list_lookup_fmap, Hk. done. }
    pose proof (lookup_lt_Some _ _ _ Hpath) as Hlt.
    split; [done|]. split; [lia|]. split.
    + rewrite (take_S_r _ _ _ Hpath), omap_app. f_equal.
    + rewrite (take_S_r _ _ _ Hk). apply Forall_app. split; [done|].
      by constructor.
  - destruct Hinv as (Himgs & Hle & -> & Hf).
    apply lookup_ge_None in Hk.
    assert (length tasks = length imgs) as Hlen by (by rewrite <- Himgs, length_fmap).
    rewrite take_ge in Hf by lia. rewrite take_ge by lia. done.
Qed.

Lemma initial_inv listSubWedge :
  reachable_inv outcome (images listSubWedge) (initial listSubWedge).
Proof. done. Qed.

Lemma rtc_inv imgs m m' :
  reachable_inv outcome imgs m -> rtc (step outcome) m m' -> reachable_inv outcome imgs m'.
Proof. intros Hinv Hsteps. induction Hsteps; eauto using step_inv. Qed.

Lemma running_insert_finished (tasks : list (string * status)) k path :
  tasks !! k = Some (path, Running) ->
  S (running (<[k := (path, Finished)]> tasks)) = running tasks.
Proof.
  revert k. induction tasks as [|t tasks IH]; intros [|k] Hk; try done.
  - cbn in Hk. by simplify_eq.
  - cbn in Hk. specialize (IH k Hk). unfold running in *. cbn [sum_list_with].
    change (list_insert k ?x ?l) with (<[k:=x]> l). rewrite <- IH. apply plus_n_Sm.
Qed.

(** Every step uses up some of the measure, so every run is finite. *)
Lemma step_measure imgs m m' :
  reachable_inv outcome imgs m -> step outcome m m' ->
  (measure (length imgs) m' < measure (length imgs) m)%nat.
Proof.
  intros Hinv Hstep.
  destruct Hstep as [path todo tasks out|tasks out|pos tasks out k path Hk
                    |tasks out k path Hk|tasks out k Hk];
    unfold reachable_inv, measure in *;
    cbn [position_of listControlDozor listOutDataControlDozor] in *.
  - unfold running. rewrite sum_list_with_app.
    cbn [sum_list_with is_running snd length]. lia.
  - cbn [length]. lia.
  - rewrite <- (running_insert_finished _ _ _ Hk). lia.
  - destruct Hinv as (Himgs & _).
    assert (k < length imgs)%nat; [|lia].
    rewrite <- Himgs, length_fmap. by eapply lookup_lt_Some.
  - lia.
Qed.

(** A machine that has not returned can take a step. *)
Lemma step_progress (m : machine A) :
  position_of m <> Returned -> exists m', step outcome m m'.
Proof.
  destruct m as [[[|path todo]|k|] tasks out]; cbn; intros Hpos; [| | |done].
  - eexists. apply step_started.
  - eexists. apply step_start.
  - destruct (tasks !! k) as [[path [|]]|] eqn:Hk.
    + eexists. by eapply (step_finish _ (Joining k)).
    + eexists. by eapply step_join.
    + eexists. by eapply step_return.
Qed.


End threads.


End IndexingSpec.

(** ** Strings: concatenation, reversal, prefixes *)

Module StringSpec.
Import Py PySpec.

Lemma app_cons (c : ascii) (s t : string) : String c s +:+ t = String c (s +:+ t).
Proof. reflexivity. Qed.

Lemma app_empty_l (s : string) : "" +:+ s = s.
Proof. reflexivity. Qed.

Lemma app_assoc_string (a b c : string) : (a +:+ b) +:+ c = a +:+ (b +:+ c).
Proof. induction a as [|x a IH]; [done|]. by rewrite !app_cons, IH. Qed.

Lemma app_inv_head_string (a b c : string) : a +:+ b = a +:+ c -> b = c.
Proof. induction a as [|x a IH]; [done|]. rewrite !app_cons. intros [= H]. by apply IH. Qed.

Lemma length_app_string (a b : string) :
  String.length (a +:+ b) = (String.length a + String.length b)%nat.
Proof. induction a as [|x a IH]; [done|]. rewrite app_cons. cbn. by rewrite IH. Qed.

Lemma app_inv_tail_string (a b c : string) : a +:+ c = b +:+ c -> a = b.
Proof.
  revert b. induction a as [|x a IH]; intros [|y b]; try done.
  - change ("" +:+ c) with c. intros H. apply (f_equal String.length) in H.
    rewrite app_cons in H. cbn [String.length] in H. rewrite length_app_string in H. lia.
  - change ("" +:+ c) with c. intros H. apply (f_equal String.length) in H.
    rewrite app_cons in H. cbn [String.length] in H. rewrite length_app_string in H. lia.
  - rewrite !app_cons. intros [= -> H]. f_equal. by apply IH.
Qed.

Lemma rev_app_app (s a b : string) :
  String.rev_app s a +:+ b = String.rev_app s (a +:+ b).
Proof. revert a. induction s as [|c s IH]; intros a; [done|]. cbn. by rewrite IH. Qed.

Lemma rev_cons_app (c : ascii) (s t : string) :
  String.rev (String c s) +:+ t = String.rev s +:+ String c t.
Proof. unfold String.rev. cbn [String.rev_app]. by rewrite !rev_app_app. Qed.

Lemma rev_app_app_l (a b x : string) :
  String.rev_app (a +:+ b) x = String.rev_app b "" +:+ String.rev_app a x.
Proof.
  revert x. induction a as [|c a IH]; intros x.
  - by rewrite app_empty_l, rev_app_app.
  - rewrite app_cons. cbn [String.rev_app]. apply IH.
Qed.

Lemma rev_app_string (a b : string) :
  String.rev (a +:+ b) = String.rev b +:+ String.rev a.
Proof. apply rev_app_app_l. Qed.

Lemma prefix_nil (s : string) : String.prefix "" s = true.
Proof. by destruct s. Qed.

Lemma prefix_cons_ne (a c : ascii) (o s : string) :
  a <> c -> String.prefix (String a o) (String c s) = false.
Proof. intros Hne. cbn [String.prefix]. by destruct (ascii_dec a c). Qed.

Lemma prefix_cons_eq (a : ascii) (o s : string) :
  String.prefix (String a o) (String a s) = String.prefix o s.
Proof. cbn [String.prefix]. by destruct (ascii_dec a a). Qed.

Lemma prefix_app (a b : string) : String.prefix a (a +:+ b) = true.
Proof.
  induction a as [|c a IH]; [apply prefix_nil|]. by rewrite app_cons, prefix_cons_eq.
Qed.

Lemma contains_app (c : ascii) (a b : string) :
  contains c (a +:+ b) = contains c a || contains c b.
Proof.
  induction a as [|x a IH]; [done|]. rewrite app_cons. cbn [contains].
  by destruct (decide (x = c)).
Qed.

(** [s.endswith(suffix)] on a string that ends with [suffix]. *)
Lemma endswith_app (a b : string) : endswith (a +:+ b) b = true.
Proof. unfold endswith. rewrite rev_app_string. apply prefix_app. Qed.

End StringSpec.

(** ** More about the batches of createListOfBatches *)

Module BatchChainSpec.
Import Batches BatchChain.

Section chain.
Context (batchSize : Z).

Lemma chain_lookup bs :
  chain batchSize bs ↔
  ∀ (i : nat) b b', bs !! i = Some b → bs !! S i = Some b' → linked batchSize b b'.
Proof.
  induction bs as [|b [|b' bs] IH].
  - split; [intros _ i ? ? H; by destruct i | done].
  - split; [intros _ [|i] ? ? H1 H2; simplify_eq/= | done].
  - split.
    + intros [Hl Hc] [|i] c c' H1 H2; simplify_eq/=; [done|].
      apply (proj1 IH Hc i); done.
    + intros H. split.
      * apply (H 0%nat); done.
      * apply IH. intros i c c' H1 H2. apply (H (S i)); done.
Qed.

Lemma chain_snoc bs c :
  chain batchSize bs →
  (∀ b, last bs = Some b → linked batchSize b c) →
  chain batchSize (bs ++ [c]).
Proof.
  induction bs as [|b [|b' bs] IH]; intros Hc Hl; [done| |].
  - split; [|done]. by apply Hl.
  - destruct Hc as [Hbb Hc]. split; [done|]. apply IH; [done|].
    intros d Hd. apply Hl. done.
Qed.

Lemma chain_grow bs c x :
  c ≠ [] → chain batchSize (bs ++ [c]) → chain batchSize (bs ++ [c ++ [x]]).
Proof.
  intros Hne. induction bs as [|b [|b' bs] IH]; [done| |].
  - intros [Hl _]. split; [|done]. destruct Hl as [Hfull|Hgap]; [by left|right].
    intros y z Hy Hz. apply (Hgap y z Hy). by destruct c.
  - intros [Hl Hc]. split; [done|]. by apply IH.
Qed.

Lemma linked_full_all bs c :
  Forall (λ b, Z.of_nat (length b) = batchSize) bs →
  ∀ b, last bs = Some b → linked batchSize b c.
Proof.
  intros Hall b Hb. left. rewrite Forall_forall in Hall. apply Hall.
  apply last_Some in Hb as [l ->]. set_solver.
Qed.

Lemma chain_full bs :
  Forall (λ b, Z.of_nat (length b) = batchSize) bs → chain batchSize bs.
Proof.
  induction bs as [|b [|b' bs] IH]; [done..|].
  intros [Hb Hbs]%Forall_cons. split; [by left|by apply IH].
Qed.

Lemma body_maximal st x :
  maximal_inv batchSize st → maximal_inv batchSize (body batchSize st x).
Proof.
  intros [Hchain Hcur]. unfold body, maximal_inv, flush in *.
  destruct (indexNextImageInBatch st) as [next|] eqn:Hnext.
  - destruct Hcur as [Hlast Hidx].
    destruct (listImagesInBatch st) as [|a cur] eqn:Hc; [done|].
    destruct (bool_decide (x ≠ next) || bool_decide (indexBatch st = batchSize)) eqn:Hnew.
    + cbn. split; [|split; [f_equal; lia|done]].
      apply chain_snoc; [done|]. intros b Hb. rewrite last_snoc in Hb. simplify_eq.
      apply orb_true_iff in Hnew as [Hx|Hfull].
      * right. intros y z Hy [= <-]. apply bool_decide_eq_true in Hx.
        rewrite Hlast in Hy. simplify_eq. lia.
      * left. apply bool_decide_eq_true in Hfull. lia.
    + apply orb_false_iff in Hnew as [Hx Hfull].
      apply bool_decide_eq_false in Hx.
      assert (x = next) as -> by (destruct (decide (x = next)); [done | by destruct Hx]).
      cbn [listImagesInBatch listAllBatches indexBatch indexNextImageInBatch].
      change ((a :: cur) ++ [next]) with (a :: (cur ++ [next])).
      cbn iota. split.
      * by apply (chain_grow _ (a :: cur) next).
      * change (a :: cur ++ [next]) with ((a :: cur) ++ [next]).
        rewrite last_snoc, length_app. cbn [length]. cbn in Hidx. split; [f_equal; lia|lia].
  - destruct Hcur as [Hc Hall]. rewrite Hc in *. cbn.
    destruct (decide (batchSize = 1)) as [E|Hne]; cbn.
    + assert (Forall (λ b, Z.of_nat (length b) = batchSize)
                (listAllBatches st ++ [[x]])) as Hfull.
      { apply Forall_app. split; [done|]. constructor; [by rewrite E|constructor]. }
      split; [by apply chain_full|]. by split.
    + split; [|split; [f_equal; lia|done]].
      apply chain_snoc; [done|]. by apply linked_full_all.
Qed.

Lemma run_loop_maximal l st :
  maximal_inv batchSize st → maximal_inv batchSize (run_loop batchSize st l).
Proof.
  revert st. induction l as [|x l IH]; intros st Hst; [done|].
  apply IH, body_maximal, Hst.
Qed.

Lemma batches_chain listImage :
  chain batchSize (createListOfBatches listImage batchSize false).
Proof.
  unfold createListOfBatches.
  apply (run_loop_maximal (sorted listImage) loop_entry). split; [done|]. by split.
Qed.

End chain.

(** *** Image numbers without gaps *)

Lemma seqZ_sorted start n : StronglySorted Z.le (seqZ start n).
Proof.
  destruct (decide (0 ≤ n)) as [Hn|Hn]; [|rewrite seqZ_nil by lia; constructor].
  rewrite <- (Z2Nat.id n Hn). generalize (Z.to_nat n) as k. clear. intros k. revert start.
  induction k as [|k IH]; intros start; [rewrite seqZ_nil by lia; constructor|].
  rewrite seqZ_cons by lia. replace (Z.pred (Z.of_nat (S k))) with (Z.of_nat k) by lia.
  constructor; [apply IH|]. apply Forall_seqZ. lia.
Qed.

Lemma sorted_of_range listImage start n :
  listImage ≡ₚ seqZ start n → sorted listImage = seqZ start n.
Proof.
  intros Hperm. apply (StronglySorted_unique Z.le).
  - apply StronglySorted_merge_sort; apply _.
  - apply seqZ_sorted.
  - unfold sorted. by rewrite merge_sort_Permutation.
Qed.

Lemma seqZ_contiguous start n : contiguous (seqZ start n).
Proof.
  apply BatchesSpec.contiguous_lookup. intros i a b Ha Hb.
  apply lookup_seqZ in Ha as [-> _]. apply lookup_seqZ in Hb as [-> _]. lia.
Qed.

Lemma contiguous_app_r l1 l2 : contiguous (l1 ++ l2) → contiguous l2.
Proof.
  rewrite !BatchesSpec.contiguous_lookup. intros H i a b Ha Hb.
  apply (H (length l1 + i)%nat).
  - by rewrite lookup_app_r, Nat.add_comm, Nat.add_sub by lia.
  - replace (S (length l1 + i)) with (length l1 + S i)%nat by lia.
    by rewrite lookup_app_r, Nat.add_comm, Nat.add_sub by lia.
Qed.

Lemma contiguous_junction l1 l2 x y :
  contiguous (l1 ++ l2) → last l1 = Some x → head l2 = Some y → y = x + 1.
Proof.
  rewrite BatchesSpec.contiguous_lookup. intros H Hx Hy.
  apply last_Some in Hx as [l ->]. destruct l2 as [|z l2]; simplify_eq/=.
  assert (((l ++ [x]) ++ y :: l2) !! length l = Some x) as H1.
  { rewrite <- app_assoc. by apply list_lookup_middle. }
  assert (((l ++ [x]) ++ y :: l2) !! S (length l) = Some y) as H2.
  { rewrite lookup_app_r by (rewrite length_app; cbn; lia).
    rewrite length_app. cbn. by replace (S (length l) - (length l + 1))%nat with 0%nat by lia. }
  specialize (H _ _ _ H1 H2). lia.
Qed.

(** In a list of batches cut from a sequence without gaps, a batch that
    is followed by another one is full. *)
Lemma chain_without_gaps batchSize bs :
  Forall (λ b, b ≠ []) bs → contiguous (concat bs) → chain batchSize bs →
  ∀ (i : nat) b, bs !! i = Some b → (S i < length bs)%nat →
    Z.of_nat (length b) = batchSize.
Proof.
  induction bs as [|b [|b' bs] IH]; intros Hne Hcont Hchain i c Hc Hi; cbn in Hi; try lia.
  destruct Hchain as [Hl Hchain].
  apply Forall_cons in Hne as [Hb Hne]. pose proof Hne as [Hb' _]%Forall_cons.
  destruct i as [|i].
  - cbn in Hc. simplify_eq. destruct Hl as [Hfull|Hgap]; [done|]. exfalso.
    destruct (last c) as [x|] eqn:Hx; [|by apply last_None in Hx].
    destruct b' as [|y b']; [done|].
    apply (Hgap x y eq_refl eq_refl).
    cbn [concat] in Hcont. eapply (contiguous_junction c); [exact Hcont|done|done].
  - apply (IH Hne) with (i := i); [|done|done|cbn; lia].
    cbn [concat] in Hcont. by apply contiguous_app_r in Hcont.
Qed.

Lemma length_concat_full batchSize (bs : list (list Z)) :
  Forall (λ b, Z.of_nat (length b) = batchSize) bs →
  Z.of_nat (length (concat bs)) = Z.of_nat (length bs) * batchSize.
Proof.
  induction 1 as [|b bs Hb _ IH]; [done|].
  cbn [concat length]. rewrite length_app. lia.
Qed.

Lemma singletons_concat (bs : list (list Z)) :
  Forall (λ b, length b = 1%nat) bs → bs = (λ x, [x]) <$> concat bs.
Proof.
  induction 1 as [|b bs Hb _ IH]; [done|].
  destruct b as [|x [|? ?]]; try done. cbn. by rewrite <- IH.
Qed.

(** X1.  Whatever the order of the numbers it is given, whether a number
    is repeated, and whatever the batch size (zero and negative sizes
    included) and the overlap flag, the batches of [createListOfBatches]
    laid end to end list the given numbers in ascending order. *)
Theorem createListOfBatches_ascending
    (listImage : list Z) (batchSize : Z) (overlap : bool) :
  StronglySorted Z.le (concat (createListOfBatches listImage batchSize overlap)) ∧
  concat (createListOfBatches listImage batchSize overlap) ≡ₚ listImage.
Proof.
  rewrite BatchesSpec.createListOfBatches_concat. split.
  - apply StronglySorted_merge_sort; apply _.
  - apply merge_sort_Permutation.
Qed.

(** X2.  With the overlap mode off, [createListOfBatches] never closes a
    batch early: a batch that is followed by another one holds exactly
    [batchSize] numbers, or the next batch does not start with the number
    that follows its last one. *)
Theorem createListOfBatches_maximal
    (listImage : list Z) (batchSize : Z) (i : nat) (b b' : list Z) :
  createListOfBatches listImage batchSize false !! i = Some b →
  createListOfBatches listImage batchSize false !! S i = Some b' →
  Z.of_nat (length b) = batchSize ∨
  ∀ x y, last b = Some x → head b' = Some y → y ≠ x + 1.
Proof.
  intros Hb Hb'. pose proof (batches_chain batchSize listImage) as Hchain.
  by apply (proj1 (chain_lookup batchSize _) Hchain i).
Qed.

Lemma createListOfBatches_maximal_witness :
  createListOfBatches [4; 1; 2; 3; 7] 3 false = [[1; 2; 3]; [4]; [7]] ∧
  (Z.of_nat (length [4]) = 3 ∨
   ∀ x y, last [4] = Some x → head [7] = Some y → y ≠ x + 1).
Proof.
  split; [vm_compute; reflexivity|].
  apply (createListOfBatches_maximal [4; 1; 2; 3; 7] 3 1 [4] [7]); vm_compute; reflexivity.
Defined.

(** X3.  With the overlap mode off and [batchSize >= 1], the image numbers
    [start, ..., start + n - 1], given in any order, are cut into
    [ceil (n / batchSize)] batches, and every batch but the last one holds
    exactly [batchSize] numbers. *)
Theorem createListOfBatches_range
    (listImage : list Z) (start n batchSize : Z) :
  listImage ≡ₚ seqZ start n → 0 ≤ n → 1 ≤ batchSize →
  Z.of_nat (length (createListOfBatches listImage batchSize false))
    = (n + batchSize - 1) / batchSize ∧
  ∀ (i : nat) b,
    createListOfBatches listImage batchSize false !! i = Some b →
    (S i < length (createListOfBatches listImage batchSize false))%nat →
    Z.of_nat (length b) = batchSize.
Proof.
  intros Hperm Hn Hsize.
  set (bs := createListOfBatches listImage batchSize false).
  pose proof (BatchesSpec.createListOfBatches_concat batchSize listImage false) as Hcat.
  rewrite (sorted_of_range _ _ _ Hperm) in Hcat. fold bs in Hcat.
  pose proof (BatchesSpec.batches_nonempty batchSize listImage false) as Hne. fold bs in Hne.
  pose proof (BatchesSpec.batches_well_formed batchSize Hsize listImage) as Hwf. fold bs in Hwf.
  pose proof (batches_chain batchSize listImage) as Hchain. fold bs in Hchain.
  assert (∀ (i : nat) b, bs !! i = Some b → (S i < length bs)%nat →
            Z.of_nat (length b) = batchSize) as Hfull.
  { apply chain_without_gaps; [done| |done]. rewrite Hcat. apply seqZ_contiguous. }
  split; [|exact Hfull].
  assert (Z.of_nat (length (concat bs)) = n) as Hlen.
  { rewrite Hcat, length_seqZ. lia. }
  destruct (decide (bs = [])) as [E|E].
  - rewrite E in *. cbn in Hlen. subst n. cbn. symmetry. apply Z.div_small. lia.
  - destruct (exists_last E) as (init & lst & Hbs). rewrite Hbs in *.
    assert (Forall (λ b, Z.of_nat (length b) = batchSize) init) as Hinit.
    { apply Forall_lookup. intros i b Hb. apply (Hfull i).
      - by rewrite lookup_app_l by (by eapply lookup_lt_Some).
      - rewrite length_app. cbn. apply lookup_lt_Some in Hb. lia. }
    rewrite concat_app, length_app in Hlen. cbn in Hlen. rewrite app_nil_r in Hlen.
    pose proof (length_concat_full batchSize init Hinit) as Hsum.
    apply Forall_app in Hwf as [_ [[_ Hle] _]%Forall_cons].
    apply Forall_app in Hne as [_ [Hlst _]%Forall_cons].
    assert (1 ≤ Z.of_nat (length lst)) by (destruct lst; [done|cbn; lia]).
    rewrite length_app. cbn [length].
    apply (Z.div_unique_pos _ _ _ (Z.of_nat (length lst) - 1)); [lia|nia].
Qed.

Lemma createListOfBatches_range_witness :
  createListOfBatches [5; 3; 4; 7; 6] 2 false = [[3; 4]; [5; 6]; [7]] ∧
  Z.of_nat (length (createListOfBatches [5; 3; 4; 7; 6] 2 false)) = (5 + 2 - 1) / 2.
Proof.
  split; [vm_compute; reflexivity|].
  apply (createListOfBatches_range [5; 3; 4; 7; 6] 3 5 2); [|lia|lia].
  change (seqZ 3 5) with [3; 4; 5; 6; 7].
  apply (Permutation_trans (l' := [3; 4; 5; 7; 6])).
  - apply (perm_trans (l' := [3; 5; 4; 7; 6])); [apply perm_swap|].
    apply perm_skip, perm_swap.
  - do 3 apply perm_skip. apply perm_swap.
Defined.

(** X4.  A batch size of 1 and the overlap mode give the same batches:
    one batch per image number, in ascending order. *)
Theorem batch_size_one_is_overlap (listImage : list Z) (batchSize : Z) :
  createListOfBatches listImage 1 false = createListOfBatches listImage batchSize true ∧
  createListOfBatches listImage 1 false = (λ x, [x]) <$> sorted listImage.
Proof.
  assert (createListOfBatches listImage 1 false = (λ x, [x]) <$> sorted listImage) as E.
  { rewrite <- (BatchesSpec.createListOfBatches_concat 1 listImage false).
    apply singletons_concat.
    pose proof (BatchesSpec.batches_well_formed 1 ltac:(lia) listImage) as Hwf.
    pose proof (BatchesSpec.batches_nonempty 1 listImage false) as Hne.
    rewrite Forall_forall in Hwf, Hne |- *. intros b Hb.
    destruct (Hwf b Hb) as [_ Hle]. specialize (Hne b Hb).
    destruct b as [|x [|? ?]]; cbn in *; try done; lia. }
  split; [|exact E]. rewrite E.
  unfold createListOfBatches. rewrite BatchesSpec.split_up_singletons.
  by rewrite BatchesSpec.flush_concat, BatchesSpec.run_loop_pending.
Qed.

(** X5.  A batch size of zero or less switches the size limit off: with
    the overlap mode off, image numbers without gaps all go into a single
    batch, however many they are. *)
Theorem createListOfBatches_no_limit
    (listImage : list Z) (start n batchSize : Z) :
  listImage ≡ₚ seqZ start n → 0 < n → batchSize ≤ 0 →
  createListOfBatches listImage batchSize false = [seqZ start n].
Proof.
  intros Hperm Hn Hsize.
  pose proof (BatchesSpec.createListOfBatches_concat batchSize listImage false) as Hcat.
  rewrite (sorted_of_range _ _ _ Hperm) in Hcat.
  pose proof (BatchesSpec.batches_nonempty batchSize listImage false) as Hne.
  pose proof (batches_chain batchSize listImage) as Hchain.
  remember (createListOfBatches listImage batchSize false) as bs eqn:Hbs in *.
  assert (∀ (i : nat) b, bs !! i = Some b → (S i < length bs)%nat →
            Z.of_nat (length b) = batchSize) as Hfull.
  { apply chain_without_gaps; [done| |done]. rewrite Hcat. apply seqZ_contiguous. }
  clear Hbs. destruct bs as [|b [|b' bs]].
  - exfalso. cbn in Hcat. rewrite seqZ_cons in Hcat by lia. done.
  - cbn in Hcat. rewrite app_nil_r in Hcat. by subst b.
  - exfalso. specialize (Hfull 0%nat b eq_refl ltac:(cbn; lia)).
    apply Forall_cons in Hne as [Hb _]. destruct b; [done|cbn in Hfull; lia].
Qed.

Lemma createListOfBatches_no_limit_witness :
  createListOfBatches [2; 1; 3] 0 false = [[1; 2; 3]].
Proof.
  apply (createListOfBatches_no_limit [2; 1; 3] 1 3 0); [|lia|lia].
  change (seqZ 1 3) with [1; 2; 3]. apply perm_swap.
Defined.

(** X6.  No batch is empty, whatever the batch size and the overlap flag,
    and there is no batch at all exactly when there is no image number. *)
Theorem createListOfBatches_nonempty
    (listImage : list Z) (batchSize : Z) (overlap : bool) :
  Forall (λ b, b ≠ []) (createListOfBatches listImage batchSize overlap) ∧
  (createListOfBatches listImage batchSize overlap = [] ↔ listImage = []).
Proof.
  split; [apply BatchesSpec.batches_nonempty|].
  pose proof (BatchesSpec.createListOfBatches_concat batchSize listImage overlap) as Hcat.
  split.
  - intros E. rewrite E in Hcat. cbn in Hcat.
    symmetry. apply Permutation_nil_l. rewrite Hcat. apply merge_sort_Permutation.
  - intros ->. by destruct overlap.
Qed.

End BatchChainSpec.

(** ** The image dictionary and what each batch asks of Dozor *)

Module ImageDictSpec.
Import Py Batches ControlDozor RunDozorTask PyFormat.

Section dict.
Context (getImageNumber : string -> Z).

Lemma createImageDict_fold (listImage : list string) (acc : gmap Z string) n path :
  foldl (fun dictImage imagePath => <[getImageNumber imagePath := imagePath]> dictImage)
        acc listImage !! n = Some path ↔
  (∃ l1 l2, listImage = l1 ++ path :: l2 ∧ getImageNumber path = n ∧
            Forall (λ p, getImageNumber p ≠ n) l2) ∨
  (acc !! n = Some path ∧ Forall (λ p, getImageNumber p ≠ n) listImage).
Proof.
  revert acc. induction listImage as [|p l IH]; intros acc.
  - cbn. split; [intros H; right; by split|].
    intros [(l1 & l2 & E & _)|[H _]]; [by destruct l1|done].
  - cbn [foldl]. rewrite IH. split.
    + intros [(l1 & l2 & -> & Hn & Hl2)|[Hacc Hl]].
      * left. by exists (p :: l1), l2.
      * apply lookup_insert_Some in Hacc as [[Hn <-]|[Hne Hacc]].
        -- left. by exists [], l.
        -- right. split; [done|]. by constructor.
    + intros [(l1 & l2 & E & Hn & Hl2)|[Hacc Hl]].
      * destruct l1 as [|q l1]; simplify_eq/=.
        -- right. split; [by rewrite lookup_insert_eq|done].
        -- left. by exists l1, l2.
      * apply Forall_cons in Hl as [Hp Hl]. right. split; [|done].
        by rewrite lookup_insert_ne.
Qed.

(** X7.  [createImageDict] files every image under its number, and when
    several images of the list have the same number the last one of them
    is the one that is kept. *)
Theorem createImageDict_last_wins (listImage : list string) (n : Z) (path : string) :
  createImageDict getImageNumber listImage !! n = Some path ↔
  ∃ l1 l2, listImage = l1 ++ path :: l2 ∧ getImageNumber path = n ∧
           Forall (λ p, getImageNumber p ≠ n) l2.
Proof.
  unfold createImageDict. rewrite createImageDict_fold. split; [|by left].
  intros [H|[H _]]; [done|]. by rewrite lookup_empty in H.
Qed.

Lemma contiguous_seqZ (l : list Z) a :
  contiguous l → head l = Some a → l = seqZ a (Z.of_nat (length l)).
Proof.
  revert a. induction l as [|x [|y l] IH]; intros a Hc Ha; simplify_eq/=.
  - done.
  - destruct Hc as [-> Hc]. rewrite seqZ_cons by lia. f_equal.
    rewrite (IH (Z.succ a)) at 1; [|done|by rewrite Z.add_1_r].
    f_equal. cbn [length]. lia.
Qed.

Lemma batches_contiguous listImage batchSize overlap :
  1 ≤ batchSize →
  Forall contiguous (createListOfBatches listImage batchSize overlap).
Proof.
  intros Hsize. destruct overlap.
  - unfold createListOfBatches. rewrite BatchesSpec.split_up_singletons.
    apply Forall_fmap, Forall_forall. done.
  - eapply Forall_impl; [apply (BatchesSpec.batches_well_formed batchSize Hsize)|].
    by intros b [Hc _].
Qed.

(** X8.  In a run with [batchSize >= 1], every batch made from the keys of
    the image dictionary has a first number, the dictionary has an image
    for it, and the number of this image is that first number.  The
    numbers [getImageNumber image, ..., getImageNumber image +
    len(listBatch) - 1] are exactly the numbers of the batch, so that
    [firstImageNumber] and [numberImages] describe the batch to Dozor
    (the one exception being an HDF5 image in overlap mode, which is sent
    as number 1), and the suffix of the working directory names the first
    and the last number of the batch. *)
Theorem dozor_request_is_batch
    (listImage : list string) (batchSize : Z) (hasOverlap : bool) (listBatch : list Z) :
  1 ≤ batchSize →
  listBatch ∈ createListOfBatches
                (elements (dom (createImageDict getImageNumber listImage)))
                batchSize hasOverlap →
  ∃ first last_ image,
    listBatch !! 0%nat = Some first ∧ last listBatch = Some last_ ∧
    createImageDict getImageNumber listImage !! first = Some image ∧
    getImageNumber image = first ∧
    seqZ (getImageNumber image) (numberImages listBatch) = listBatch ∧
    (endswith image "h5" && hasOverlap = false →
     imageNumber getImageNumber image hasOverlap = first) ∧
    workingDirectorySuffixDozor getImageNumber image listBatch
      = format_0d 4 first +:+ "_" +:+ format_0d 4 last_.
Proof.
  intros Hsize Hin. set (dictImage := createImageDict getImageNumber listImage) in *.
  pose proof (RunSpec.batches_first_in_dict dictImage batchSize hasOverlap) as Hfirst.
  rewrite Forall_forall in Hfirst.
  destruct (Hfirst listBatch Hin) as (first & Hhead & [image Himage]).
  pose proof (batches_contiguous (elements (dom dictImage)) batchSize hasOverlap Hsize) as Hc.
  rewrite Forall_forall in Hc. specialize (Hc listBatch Hin).
  assert (getImageNumber image = first) as Hnum.
  { unfold dictImage, createImageDict in Himage.
    apply createImageDict_fold in Himage as [(? & ? & _ & ? & _)|[H _]]; [done|].
    by rewrite lookup_empty in H. }
  assert (listBatch = seqZ first (Z.of_nat (length listBatch))) as Hseq.
  { apply contiguous_seqZ; [done|]. by destruct listBatch. }
  assert (last listBatch = Some (first + Z.of_nat (length listBatch) - 1)) as Hlast.
  { destruct listBatch as [|x l]; [done|]. rewrite Hseq at 1.
    rewrite last_lookup, length_seqZ, Nat2Z.id. cbn [length Nat.pred].
    rewrite lookup_seqZ_lt by lia. f_equal. lia. }
  exists first, (first + Z.of_nat (length listBatch) - 1), image.
  split; [done|]. split; [done|]. split; [done|]. split; [done|]. split; [|split].
  - unfold numberImages. by rewrite Hnum, <- Hseq.
  - unfold imageNumber. intros Hh5. rewrite Hnum.
    destruct (endswith image "h5"), hasOverlap; done.
  - unfold workingDirectorySuffixDozor. by rewrite Hnum.
Qed.

End dict.

Lemma dozor_request_is_batch_witness :
  createListOfBatches
    (elements (dom (createImageDict Samples.getImageNumber Samples.three_images))) 2 false
  = [[1; 2]; [3]] ∧
  ∃ first last_ image,
    [1; 2] !! 0%nat = Some first ∧ last [1; 2] = Some last_ ∧
    createImageDict Samples.getImageNumber Samples.three_images !! first = Some image ∧
    Samples.getImageNumber image = first ∧
    seqZ (Samples.getImageNumber image) (numberImages [1; 2]) = [1; 2] ∧
    (endswith image "h5" && false = false →
     imageNumber Samples.getImageNumber image false = first) ∧
    workingDirectorySuffixDozor Samples.getImageNumber image [1; 2]
      = format_0d 4 first +:+ "_" +:+ format_0d 4 last_.
Proof.
  split; [vm_compute; reflexivity|].
  apply (dozor_request_is_batch Samples.getImageNumber Samples.three_images 2 false [1; 2]).
  - lia.
  - vm_compute. left.
Defined.

End ImageDictSpec.

(** ** More about the decoder of the result log *)

Module DecoderMore.
Import Py ExecDozor DecoderVocabulary PySpec StringSpec.

(** *** Strings *)

Lemma plain_app (a b : string) : plain (a +:+ b) = plain a && plain b.
Proof.
  induction a as [|c a IH]; [done|]. rewrite app_cons. cbn [plain]. rewrite IH.
  by rewrite andb_assoc.
Qed.

Lemma plain_rev_app (s a : string) : plain (String.rev_app s a) = plain s && plain a.
Proof.
  revert a. induction s as [|c s IH]; intros a; [done|]. cbn [String.rev_app plain].
  rewrite IH. cbn [plain].
  destruct (negb (Shlex.is_quote c) && negb (bool_decide (c = Shlex.backslash))),
           (plain s), (plain a); done.
Qed.

Lemma split_go_plain sep cur s :
  plain cur = true → plain s = true →
  Forall (λ l, plain l = true) (split_go sep cur s).
Proof.
  revert cur. induction s as [|c s IH]; intros cur Hcur Hs; cbn [split_go].
  - constructor; [|constructor]. unfold String.rev. by rewrite plain_rev_app, Hcur.
  - cbn [plain] in Hs. apply andb_true_iff in Hs as [Hc Hs].
    destruct (decide (c = sep)).
    + constructor; [|by apply IH]. unfold String.rev. by rewrite plain_rev_app, Hcur.
    + apply IH; [|done]. cbn [plain]. by rewrite Hc, Hcur.
Qed.

Lemma replace_bar_plain s : plain s = true → plain (replace "|" " " s) = true.
Proof.
  induction s as [|c s IH]; [done|]. cbn [plain replace].
  intros [Hc Hs]%andb_true_iff. destruct (decide (c = "|"%char)).
  - rewrite plain_app, (IH Hs). done.
  - cbn [plain]. by rewrite Hc, (IH Hs).
Qed.

Lemma split_go_prefix sep cur a r :
  contains sep a = false →
  split_go sep cur (a +:+ String sep r) = (String.rev cur +:+ a) :: split_go sep "" r.
Proof.
  revert cur. induction a as [|c a IH]; intros cur Ha.
  - rewrite app_empty_l. cbn [split_go]. rewrite decide_True by done.
    by rewrite append_empty_r.
  - cbn [contains] in Ha. destruct (decide (c = sep)) as [|Hne]; [done|].
    rewrite app_cons. cbn [split_go]. rewrite decide_False by done.
    rewrite (IH _ Ha). f_equal. apply rev_cons_app.
Qed.

Lemma split_on_with_banner banner rest :
  Forall (λ l, contains "010" l = false) banner →
  split_on "010" (with_banner banner rest) = banner ++ split_on "010" rest.
Proof.
  induction 1 as [|line banner Hline _ IH]; [done|].
  cbn [with_banner foldr]. unfold split_on at 1.
  rewrite (split_go_prefix _ _ _ _ Hline). cbn [app]. f_equal. exact IH.
Qed.

(** *** The tokens of a plain line; the first token of a line *)

Lemma lex_plain s :
  plain s = true →
  ∀ st quoted token, st = Shlex.Blank ∨ st = Shlex.Word →
    ∃ l, Shlex.lex st quoted token s = Ok l.
Proof.
  induction s as [|c s IH]; intros Hs st quoted token Hst.
  - destruct Hst as [-> | ->]; by eexists.
  - cbn [plain] in Hs. apply andb_true_iff in Hs as [Hc Hs].
    apply andb_true_iff in Hc as [Hq Hb].
    apply negb_true_iff in Hq, Hb. apply bool_decide_eq_false in Hb.
    specialize (IH Hs).
    destruct Hst as [-> | ->]; cbn [Shlex.lex]; rewrite Hq;
      destruct (Shlex.whitespace c);
      try (destruct (Shlex.nonempty token || quoted));
      try (rewrite decide_False by done);
      try (destruct (IH Shlex.Blank false "" (or_introl eq_refl)) as [l ->]; by eexists);
      try (apply IH; auto).
Qed.

Lemma lex_first_token s :
  ∀ st quoted c0 t l,
    st ≠ Shlex.Blank → Shlex.lex st quoted (String c0 t) s = Ok l →
    ∃ t' rest, l = String c0 t' :: rest.
Proof.
  induction s as [|c s IH]; intros st quoted c0 t l Hst Hl.
  - destruct st; try done; cbn in Hl; simplify_eq; by eexists _, _.
  - destruct st as [| |q|e]; [done| | |]; cbn [Shlex.lex] in Hl.
    + destruct (Shlex.whitespace c).
      * cbn [Shlex.nonempty orb] in Hl.
        destruct (Shlex.lex Shlex.Blank false "" s) as [l'|]; [|done].
        cbn in Hl. simplify_eq. by eexists _, _.
      * destruct (Shlex.is_quote c); [by eapply IH; [|exact Hl]|].
        destruct (decide (c = Shlex.backslash)); [by eapply IH; [|exact Hl]|].
        unfold Shlex.push in Hl. rewrite app_cons in Hl. by eapply IH; [|exact Hl].
    + destruct (decide (c = q)); [by eapply IH; [|exact Hl]|].
      destruct (_ && _); [by eapply IH; [|exact Hl]|].
      unfold Shlex.push in Hl. rewrite app_cons in Hl. by eapply IH; [|exact Hl].
    + unfold Shlex.push in Hl.
      destruct e as [q|]; [destruct (_ && _)|]; rewrite ?app_cons in Hl;
        (eapply IH; [|exact Hl]); done.
Qed.

(** A line that begins with [h] is never a result row. *)
Lemma h_line_is_no_row line listLine :
  startswith line "h" = true →
  Shlex.split (replace "|" " " line) = Ok listLine → is_row listLine = None.
Proof.
  destruct line as [|c line]; [done|]. unfold startswith. cbn [String.prefix].
  destruct (ascii_dec "h" c) as [<-|]; [|done].
  intros _. unfold Shlex.split. cbn. intros Hl.
  apply lex_first_token in Hl as (t' & rest & ->); done.
Qed.

Section rows.
Context {F : Type} {float : PyFloat F}.
Context (image_name : string -> Z -> string) (path_exists : string -> bool).

(** *** What the [try] block leaves alone *)

Lemma assign_other key k (rhs : result (pyval F)) d d' :
  k ≠ key → assign k rhs d = Ok d' → d' !! key = d !! key.
Proof.
  intros Hne. unfold assign. destruct rhs as [v|e]; [|done]. intros [= <-].
  by rewrite lookup_insert_ne.
Qed.

Lemma try_layout_header listLine (d : gmap string (pyval F)) key :
  key = "number" ∨ key = "image" ∨ key = "angle" →
  try_layout listLine d !! key = d !! key.
Proof.
  intros Hkey. unfold try_layout. destruct (getitem listLine 5) as [token5|e]; [|done].
  destruct (_ || _);
    (apply (RunSpec.exec_preserves (λ d', d' !! key = d !! key)); [done|]);
    unfold short_layout, extended_layout;
    repeat (apply Forall_cons_2;
            [intros d1 d2 Hd1 Hassign; rewrite <- Hd1;
             (eapply assign_other; [|exact Hassign]);
             destruct Hkey as [->|[->| ->]]; done|]);
    apply Forall_nil_2.
Qed.

Lemma attach_spot_file_other wd n (d : gmap string (pyval F)) key :
  key ≠ "spotFile" → attach_spot_file path_exists wd n d !! key = d !! key.
Proof.
  intros Hne. unfold attach_spot_file. destruct wd as [dir|]; [|done].
  destruct (path_exists _); [|done]. by rewrite lookup_insert_ne.
Qed.

Lemma decode_row_header (d : inData F) wd token0 listLine record n :
  int token0 = Some n →
  decode_row image_name path_exists d wd token0 listLine = Ok record →
  record !! "number" = Some (VInt n) ∧
  record !! "image" = Some (VStr (image_name (nameTemplateImage d) n)) ∧
  record !! "angle" = Some (VFloat (angle d n)).
Proof.
  intros Hn. unfold decode_row, int_or_raise. rewrite Hn. cbn [mbind result_bind].
  intros [= <-].
  rewrite !attach_spot_file_other by done.
  rewrite !try_layout_header by auto.
  unfold new_record.
  split; [|split]; by rewrite !lookup_insert_ne, lookup_insert_eq by done.
Qed.

(** X9.  When [parseOutput] returns, its records are those of the result
    rows of the log, one record per row (a repeated image number gives a
    repeated record), in the order of the log; and whatever the rest of
    the row looks like, the record of a row carries the number read from
    its first token, the image name made for that number, and the angle
    the formula gives for it. *)
Theorem records_follow_rows (d : inData F) (output : string)
    (workingDir : option string) (res : resultDozor F) :
  parseOutput image_name path_exists d output workingDir = Ok res →
  Forall2 (λ n record,
             record !! "number" = Some (VInt n) ∧
             record !! "image" = Some (VStr (image_name (nameTemplateImage d) n)) ∧
             record !! "angle" = Some (VFloat (angle d n)))
          (omap row_number (drop 6 (split_on "010" output))) (imageDozor res).
Proof.
  unfold parseOutput. generalize (drop 6 (split_on "010" output)) as ls.
  intros ls.
  assert (∀ ns res0,
            Forall2 (λ n record,
               record !! "number" = Some (VInt n) ∧
               record !! "image" = Some (VStr (image_name (nameTemplateImage d) n)) ∧
               record !! "angle" = Some (VFloat (angle d n))) ns (imageDozor res0) →
            parse_lines image_name path_exists d workingDir res0 ls = Ok res →
            Forall2 (λ n record,
               record !! "number" = Some (VInt n) ∧
               record !! "image" = Some (VStr (image_name (nameTemplateImage d) n)) ∧
               record !! "angle" = Some (VFloat (angle d n)))
              (ns ++ omap row_number ls) (imageDozor res)) as H.
  { induction ls as [|line ls IH]; intros ns res0 Hns.
    - cbn. intros [= <-]. by rewrite app_nil_r.
    - cbn [parse_lines]. unfold parse_line at 1.
      change (omap row_number (line :: ls))
        with (match row_number line with
              | Some n => n :: omap row_number ls
              | None => omap row_number ls
              end).
      destruct (Shlex.split (replace "|" " " line)) as [listLine|e] eqn:Hsplit; [|done].
      cbn [mbind result_bind]. destruct (is_row listLine) as [token0|] eqn:Hrow.
      + destruct (isdigit_int token0 (DecoderSpec.is_row_isdigit _ _ Hrow)) as (n & Hn & _).
        assert (row_number line = Some n) as ->.
        { unfold row_number. rewrite Hsplit, Hrow. exact Hn. }
        destruct (decode_row _ _ _ _ _ _) as [record|e] eqn:Hdec; [|done].
        cbn [mbind result_bind]. intros Hrest.
        replace (ns ++ n :: omap row_number ls) with ((ns ++ [n]) ++ omap row_number ls)
          by (by rewrite <- app_assoc).
        eapply IH; [|exact Hrest].
        cbn. apply Forall2_app; [done|]. constructor; [|constructor].
        by eapply decode_row_header.
      + assert (row_number line = None) as ->.
        { unfold row_number. by rewrite Hsplit, Hrow. }
        destruct (startswith line "h").
        * destruct (getitem (split_on "=" line) 1) as [rhs|e]; [|done].
          cbn [mbind result_bind].
          destruct (getitem (split_ws rhs) 0) as [value|e]; [|done].
          cbn [mbind result_bind]. intros Hrest. by eapply IH; [|exact Hrest].
        * cbn [mbind result_bind]. intros Hrest. by eapply IH; [|exact Hrest]. }
  intros Hres. apply (H [] {| imageDozor := []; halfDoseTime := None |}); [constructor|done].
Qed.

Lemma parse_lines_keeps_half_dose (d : inData F) wd res ls res' :
  Forall (λ l, startswith l "h" = false) ls →
  parse_lines image_name path_exists d wd res ls = Ok res' →
  halfDoseTime res' = halfDoseTime res.
Proof.
  intros Hls. revert res. induction Hls as [|line ls Hline _ IH]; intros res.
  - by intros [= <-].
  - cbn [parse_lines]. unfold parse_line at 1. rewrite Hline.
    destruct (Shlex.split _) as [listLine|e]; [|done]. cbn [mbind result_bind].
    destruct (is_row listLine) as [token0|].
    + destruct (decode_row _ _ _ _ _ _) as [record|e]; [|done].
      cbn [mbind result_bind]. intros Hrest. by rewrite (IH _ Hrest).
    + cbn [mbind result_bind]. apply IH.
Qed.

(** X10.  When several lines of the log begin with [h], [halfDoseTime] is
    taken from the last of them: for a log that [parseOutput] decodes, if
    a line begins with [h], has a whitespace-delimited token after its
    first equals sign, and no later line begins with [h], then
    [halfDoseTime] is that token, as text. *)
Theorem halfDoseTime_last_wins (d : inData F) (output : string)
    (workingDir : option string) (before after : list string)
    (line rhs value : string) (res : resultDozor F) :
  drop 6 (split_on "010" output) = before ++ line :: after →
  startswith line "h" = true →
  split_on "=" line !! 1%nat = Some rhs → split_ws rhs !! 0%nat = Some value →
  Forall (λ l, startswith l "h" = false) after →
  parseOutput image_name path_exists d output workingDir = Ok res →
  halfDoseTime res = Some value.
Proof.
  intros Hlines Hh Hrhs Hvalue Hafter. unfold parseOutput.
  rewrite Hlines, DecoderSpec.parse_lines_app.
  destruct (parse_lines _ _ _ _ _ before) as [res0|e]; [|done].
  cbn [mbind result_bind parse_lines]. unfold parse_line at 1.
  destruct (Shlex.split _) as [listLine|e] eqn:Hsplit; [|done].
  cbn [mbind result_bind]. rewrite (h_line_is_no_row _ _ Hh Hsplit), Hh.
  unfold getitem. rewrite Hrhs. cbn [mbind result_bind]. rewrite Hvalue.
  cbn [mbind result_bind]. intros Hrest.
  by rewrite (parse_lines_keeps_half_dose _ _ _ _ _ Hafter Hrest).
Qed.

(** *** The keys of a record *)

Lemma exec_keys (keys : list string) (body : list (@stmt F)) d :
  (∀ key, is_Some (d !! key) → key ∈ keys) →
  Forall (λ s : stmt, ∃ k rhs, s = assign k rhs ∧ k ∈ keys) body →
  ∀ key, is_Some (exec body d !! key) → key ∈ keys.
Proof.
  intros Hd Hbody.
  apply (RunSpec.exec_preserves (λ d', ∀ key, is_Some (d' !! key) → key ∈ keys)); [done|].
  eapply Forall_impl; [exact Hbody|]. cbn.
  intros s (k & rhs & -> & Hk) d1 d2 Hd1. unfold assign.
  destruct rhs as [v|e]; [|done]. intros [= <-] key [w Hw].
  apply lookup_insert_Some in Hw as [[<- _]|[_ Hw]]; [done|]. apply Hd1. by eexists.
Qed.

Lemma new_record_keys (d : inData F) n key :
  is_Some (new_record image_name d n !! key) → key ∈ header_keys.
Proof.
  unfold new_record, header_keys. intros [v Hv].
  repeat (apply lookup_insert_Some in Hv as [[<- _]|[_ Hv]];
          [apply list_elem_of_In; cbn; tauto|]).
  by rewrite lookup_empty in Hv.
Qed.

Lemma try_layout_keys listLine (d : gmap string (pyval F)) :
  (∀ key, is_Some (d !! key) → key ∈ header_keys) →
  (∀ key, is_Some (try_layout listLine d !! key) → key ∈ short_record_keys) ∨
  (∀ key, is_Some (try_layout listLine d !! key) → key ∈ extended_record_keys).
Proof.
  intros Hd. unfold try_layout. destruct (getitem listLine 5) as [token5|e].
  2:{ left. intros key Hkey. right. by apply Hd. }
  destruct (_ || _); [left|right]; apply exec_keys.
  - intros key Hkey. right. by apply Hd.
  - unfold short_layout.
    repeat (apply Forall_cons_2;
            [eexists _, _; split; [reflexivity|apply list_elem_of_In; cbn; tauto]|]).
    apply Forall_nil_2.
  - intros key Hkey. unfold extended_record_keys. right.
    apply elem_of_app. right. by apply Hd.
  - unfold extended_layout.
    repeat (apply Forall_cons_2;
            [eexists _, _; split; [reflexivity|apply list_elem_of_In; cbn; tauto]|]).
    apply Forall_nil_2.
Qed.

Lemma decode_row_keys (d : inData F) wd token0 listLine record :
  decode_row image_name path_exists d wd token0 listLine = Ok record →
  (∀ key, is_Some (record !! key) → key ∈ short_record_keys) ∨
  (∀ key, is_Some (record !! key) → key ∈ extended_record_keys).
Proof.
  unfold decode_row. destruct (int_or_raise token0) as [n|e]; [|done].
  cbn [mbind result_bind]. intros [= <-].
  destruct (try_layout_keys listLine (new_record image_name d n)) as [H|H];
    [apply new_record_keys|left|right];
    intros key [v Hv]; unfold attach_spot_file in Hv;
    destruct wd as [dir|]; try (apply H; by eexists);
    destruct (path_exists _); try (apply H; by eexists);
    (apply lookup_insert_Some in Hv as [[<- _]|[_ Hv]]; [|apply H; by eexists]);
    apply list_elem_of_In; cbn; tauto.
Qed.

(** X11.  Every record of [parseOutput] has its keys among those of the
    short layout or among those of the extended layout.  In particular the
    R-factor of the spots is stored under [spotsRFactor] by the short
    layout and under [spotsRfactor] by the extended one, a record never
    has both, and a record that has [spotsRFactor] has none of the
    powder-Wilson entries. *)
Theorem record_keys (d : inData F) (output : string) (workingDir : option string)
    (res : resultDozor F) :
  parseOutput image_name path_exists d output workingDir = Ok res →
  Forall (λ record : gmap string (pyval F),
            ((∀ key, is_Some (record !! key) → key ∈ short_record_keys) ∨
             (∀ key, is_Some (record !! key) → key ∈ extended_record_keys)) ∧
            ¬ (is_Some (record !! "spotsRFactor") ∧ is_Some (record !! "spotsRfactor")) ∧
            (is_Some (record !! "spotsRFactor") →
             Forall (λ key, record !! key = None) powder_keys))
         (imageDozor res).
Proof.
  intros Hres.
  assert (Forall (λ record : gmap string (pyval F),
            (∀ key, is_Some (record !! key) → key ∈ short_record_keys) ∨
            (∀ key, is_Some (record !! key) → key ∈ extended_record_keys))
            (imageDozor res)) as Hkeys.
  { revert Hres. unfold parseOutput. generalize (drop 6 (split_on "010" output)) as ls.
    intros ls. generalize (Forall_nil_2
      (λ record : gmap string (pyval F),
         (∀ key, is_Some (record !! key) → key ∈ short_record_keys) ∨
         (∀ key, is_Some (record !! key) → key ∈ extended_record_keys))).
    change (@nil (gmap string (pyval F)))
      with (imageDozor {| imageDozor := @nil (gmap string (pyval F)); halfDoseTime := None |}) at 1.
    generalize ({| imageDozor := @nil (gmap string (pyval F)); halfDoseTime := None |}) as res0.
    induction ls as [|line ls IH]; intros res0 Hres0; [by intros [= <-]|].
    cbn [parse_lines]. unfold parse_line at 1.
    destruct (Shlex.split _) as [listLine|e]; [|done]. cbn [mbind result_bind].
    destruct (is_row listLine) as [token0|].
    - destruct (decode_row _ _ _ _ _ _) as [record|e] eqn:Hdec; [|done].
      cbn [mbind result_bind]. apply IH. cbn. apply Forall_app. split; [done|].
      constructor; [|constructor]. by eapply decode_row_keys.
    - destruct (startswith line "h"); [|cbn [mbind result_bind]; by apply IH].
      destruct (getitem (split_on "=" line) 1) as [rhs|e]; [|done]. cbn [mbind result_bind].
      destruct (getitem (split_ws rhs) 0) as [value|e]; [|done]. cbn [mbind result_bind].
      by apply IH. }
  eapply Forall_impl; [exact Hkeys|]. cbn. intros record Hrecord.
  split; [exact Hrecord|]. split.
  - intros [Hshort Hext]. destruct Hrecord as [H|H].
    + specialize (H _ Hext). apply list_elem_of_In in H. cbn in H.
      repeat (destruct H as [H|H]; [discriminate|]). done.
    + specialize (H _ Hshort). apply list_elem_of_In in H. cbn in H.
      repeat (destruct H as [H|H]; [discriminate|]). done.
  - intros Hshort. destruct Hrecord as [H|H].
    + unfold powder_keys.
      repeat (apply Forall_cons_2;
              [match goal with |- ?m !! ?k = None =>
                 destruct (m !! k) eqn:E; [|done];
                 specialize (H k ltac:(by eexists)); apply list_elem_of_In in H; cbn in H;
                 repeat (destruct H as [H|H]; [discriminate|]); done
               end|]).
      apply Forall_nil_2.
    + specialize (H _ Hshort). apply list_elem_of_In in H. cbn in H.
      repeat (destruct H as [H|H]; [discriminate|]). done.
Qed.


(** X13.  The first six lines of the log are dropped unread: whatever six
    lines stand before the rest of a log, result rows, lines beginning
    with [h] and quotes that are never closed included, [parseOutput]
    gives what the decoding loop gives on the lines of the rest alone. *)
Theorem banner_is_skipped (d : inData F) (banner : list string) (rest : string)
    (workingDir : option string) :
  length banner = 6%nat →
  Forall (λ line, contains "010" line = false) banner →
  parseOutput image_name path_exists d (with_banner banner rest) workingDir =
  parse_lines image_name path_exists d workingDir empty_result (split_on "010" rest).
Proof.
  intros Hlen Hbanner. unfold parseOutput.
  rewrite (split_on_with_banner _ _ Hbanner).
  rewrite <- Hlen, drop_app_length. done.
Qed.

End rows.

Lemma records_follow_rows_witness :
  omap row_number (drop 6 (split_on "010" Samples.log_rows)) = [5; 6] ∧
  Forall2 (λ n record,
             record !! "number" = Some (VInt n) ∧
             record !! "image" =
               Some (VStr (Samples.image_name (nameTemplateImage Samples.parameters) n)) ∧
             record !! "angle" = Some (VFloat (angle Samples.parameters n)))
          (omap row_number (drop 6 (split_on "010" Samples.log_rows)))
          (imageDozor Inputs.decoded_rows).
Proof.
  split; [vm_compute; reflexivity|].
  apply (records_follow_rows Samples.image_name Samples.no_files Samples.parameters
           Samples.log_rows None Inputs.decoded_rows).
  vm_compute. reflexivity.
Defined.

Lemma halfDoseTime_last_wins_witness :
  halfDoseTime Inputs.decoded_half_dose = Some "17.0".
Proof.
  apply (halfDoseTime_last_wins Samples.image_name Samples.no_files Samples.parameters
           Inputs.log_half_dose None
           ["half-dose time = 12.5 s"; Samples.line13] [""]
           "half-dose time (fit) = 17.0 s" " 17.0 s" "17.0").
  - vm_compute. reflexivity.
  - vm_compute. reflexivity.
  - vm_compute. reflexivity.
  - vm_compute. reflexivity.
  - constructor; [vm_compute; reflexivity|constructor].
  - vm_compute. reflexivity.
Defined.

Lemma record_keys_witness :
  Forall (λ record : gmap string (pyval Q),
            ((∀ key, is_Some (record !! key) → key ∈ short_record_keys) ∨
             (∀ key, is_Some (record !! key) → key ∈ extended_record_keys)) ∧
            ¬ (is_Some (record !! "spotsRFactor") ∧ is_Some (record !! "spotsRfactor")) ∧
            (is_Some (record !! "spotsRFactor") →
             Forall (λ key, record !! key = None) powder_keys))
         (imageDozor Inputs.decoded_rows).
Proof.
  apply (record_keys Samples.image_name Samples.no_files Samples.parameters
           Samples.log_rows None Inputs.decoded_rows).
  vm_compute. reflexivity.
Defined.


Lemma banner_is_skipped_witness :
  parseOutput Samples.image_name Samples.no_files Samples.parameters
    (with_banner Inputs.odd_banner Samples.line13) None =
  parse_lines Samples.image_name Samples.no_files Samples.parameters None
    empty_result [Samples.line13].
Proof.
  apply (banner_is_skipped Samples.image_name Samples.no_files Samples.parameters
           Inputs.odd_banner Samples.line13 None).
  - reflexivity.
  - repeat (apply Forall_cons_2; [vm_compute; reflexivity|]). apply Forall_nil_2.
Defined.

End DecoderMore.

(** ** From the records of the decoder to the indicators of [run] *)

Module IndicatorsSpec.
Import Py ExecDozor ControlDozor Indicators.

Ltac not_renamed :=
  let Hin := fresh "Hin" in
  intros Hin; apply list_elem_of_In in Hin; cbn in Hin;
  repeat (destruct Hin as [Hin|Hin]; [discriminate Hin|]); exact Hin.

Section indicators.
Context {F : Type} {float : PyFloat F}.
Context (image_name : string -> Z -> string) (path_exists_then : string -> bool).
Context (path_exists : string -> bool)
        (load_spot_list : string -> result (string * list Z)).

Lemma indicators_of_complete returnSpotList (record : gmap string (pyval F)) :
  complete_record record ->
  spot_lists_load path_exists load_spot_list returnSpotList ->
  exists i,
    indicators path_exists load_spot_list returnSpotList record = Ok i /\
    Forall (fun names : string * string => i !! names.2 = record !! names.1) renamed /\
    (forall key, is_Some (i !! key) -> key ∈ indicator_keys) /\
    (is_Some (i !! "dozorSpotFile") -> is_Some (record !! "spotFile")).
Proof.
  intros (Hkeys & _ & Hspot) Hload. unfold indicators, dict_getitem.
  repeat (let Hk := fresh "Hk" in
          apply Forall_cons in Hkeys as [[? Hk] Hkeys]; rewrite Hk;
          cbn [mbind result_bind]).
  set (base := <["dozorVisibleResolution" := _]> _).
  assert (Forall (fun names : string * string => base !! names.2 = record !! names.1) renamed)
    as Hbase.
  { unfold renamed, base.
    repeat (apply Forall_cons_2;
            [cbn [fst snd]; rewrite ?lookup_insert_ne by done;
             rewrite lookup_insert_eq; symmetry; assumption|]).
    apply Forall_nil_2. }
  assert (forall key, is_Some (base !! key) -> key ∈ indicator_keys) as Hdom.
  { intros key [v Hv]. unfold base in Hv.
    repeat (apply lookup_insert_Some in Hv as [[<- _]|[_ Hv]];
            [apply list_elem_of_In; cbn; tauto|]).
    by rewrite lookup_empty in Hv. }
  assert (base !! "dozorSpotFile" = None) as Hnone.
  { unfold base. by rewrite !lookup_insert_ne, lookup_empty by done. }
  assert (forall (m : gmap string (pyval F)) k v,
            k ∉ renamed.*2 ->
            Forall (fun names : string * string => m !! names.2 = record !! names.1) renamed ->
            Forall (fun names : string * string => <[k := v]> m !! names.2 = record !! names.1)
                   renamed) as Hins.
  { intros m k v Hnotin Hm. rewrite Forall_forall in Hm |- *. intros names Hnames.
    rewrite lookup_insert_ne; [by apply Hm|]. intros ->. apply Hnotin.
    apply list_elem_of_fmap. by exists names. }
  destruct (record !! "spotFile") as [v|] eqn:Hv.
  2:{ exists base. split; [done|]. split; [done|]. split; [done|].
      rewrite Hnone. by intros [? ?]. }
  destruct (Hspot v eq_refl) as [spotFile ->].
  destruct (path_exists spotFile) eqn:Hexists.
  2:{ exists base. split; [done|]. split; [done|]. split; [done|].
      intros _. by exists (VStr spotFile). }
  destruct returnSpotList.
  - destruct (Hload eq_refl spotFile Hexists) as [[encoded shape] ->].
    cbn [mbind result_bind]. eexists. split; [reflexivity|]. split; [|split].
    + apply Hins; [not_renamed|]. apply Hins; [not_renamed|].
      apply Hins; [not_renamed|]. done.
    + intros key [w Hw].
      repeat (apply lookup_insert_Some in Hw as [[<- _]|[_ Hw]];
              [apply list_elem_of_In; cbn; tauto|]).
      apply Hdom. by exists w.
    + intros _. by exists (VStr spotFile).
  - eexists. split; [reflexivity|]. split; [|split].
    + apply Hins; [not_renamed|]. done.
    + intros key [w Hw].
      apply lookup_insert_Some in Hw as [[<- _]|[_ Hw]];
        [apply list_elem_of_In; cbn; tauto|].
      apply Hdom. by exists w.
    + intros _. by exists (VStr spotFile).
Qed.

(** X14.  Every record that [parseOutput] decodes is accepted by the
    aggregation of [ControlDozor.run] (provided spot lists, when asked for,
    load): the indicators of the record hold its angle, number and image
    and its five scores under their [dozor...] names, null values
    included; they hold nothing else but the spot file, its list and the
    shape of the list, so the R-factor and the powder-Wilson values of the
    record are not passed on; and the spot file is only there when the
    decoder attached one. *)
Theorem decoded_records_aggregate (d : ExecDozor.inData F) (output : string)
    (workingDir : option string) (res : resultDozor F) (returnSpotList : bool) :
  parseOutput image_name path_exists_then d output workingDir = Ok res ->
  spot_lists_load path_exists load_spot_list returnSpotList ->
  Forall (fun record =>
            exists i,
              indicators path_exists load_spot_list returnSpotList record = Ok i /\
              Forall (fun names : string * string => i !! names.2 = record !! names.1)
                     renamed /\
              (forall key, is_Some (i !! key) -> key ∈ indicator_keys) /\
              (is_Some (i !! "dozorSpotFile") -> is_Some (record !! "spotFile")))
         (imageDozor res).
Proof.
  intros Hres Hload.
  pose proof (RunSpec.parseOutput_complete image_name path_exists_then d output
                workingDir res Hres) as Hcomplete.
  eapply Forall_impl; [exact Hcomplete|]. cbn. intros record Hrecord.
  by apply indicators_of_complete.
Qed.

End indicators.

Lemma decoded_records_aggregate_witness :
  length (imageDozor Inputs.decoded_rows) = 2%nat /\
  Forall (fun record =>
            exists i,
              indicators Samples.no_files Samples.load_spot_list false record = Ok i /\
              Forall (fun names : string * string => i !! names.2 = record !! names.1)
                     renamed /\
              (forall key, is_Some (i !! key) -> key ∈ indicator_keys) /\
              (is_Some (i !! "dozorSpotFile") -> is_Some (record !! "spotFile")))
         (imageDozor Inputs.decoded_rows).
Proof.
  split; [vm_compute; reflexivity|].
  apply (decoded_records_aggregate Samples.image_name Samples.no_files Samples.no_files
           Samples.load_spot_list Samples.parameters Samples.log_rows None
           Inputs.decoded_rows false).
  - vm_compute. reflexivity.
  - intros H. discriminate H.
Defined.

End IndicatorsSpec.

(** ** More about the parser of the plot file *)

Module PlotMore.
Import Py PlotMtv PlotShape.

Ltac case_attributes H :=
  match goal with
  | |- context [attributes ?a ?b] =>
      destruct (attributes a b) as [[?d ?r0]|?e] eqn:H; [|done]
  end.

Section parser.
Context {F : Type} {float : PyFloat F}.

(** *** The last line *)

Lemma attributes_last lines (d d' : gmap string (plotval F)) rest l :
  attributes lines d = Ok (d', rest) -> last lines = Some l -> last rest = Some l.
Proof.
  revert d. induction lines as [|line lines IH]; intros d; [done|].
  cbn [attributes]. destruct (startswith line "%"); [|by intros [= <- <-]].
  destruct (getitem (split_on "=" line) 0) as [first|e]; [|done]. cbn [mbind result_bind].
  destruct (getitem (split_on "=" line) 1) as [rhs|e]; [|done]. cbn [mbind result_bind].
  destruct (attribute_value rhs) as [value|e]; [|done]. cbn [mbind result_bind].
  intros Hrest Hlast. destruct lines as [|line' lines]; [done|].
  by eapply IH.
Qed.

Lemma parse_header_last fuel (st : state F) lines l r :
  last lines = Some l ->
  startswith l "$" = true \/ startswith l "#" = true ->
  parse fuel st lines = Some r -> exists e, r = Raise e.
Proof.
  intros Hlast Hl. revert st lines Hlast.
  induction fuel as [|fuel IH]; intros st [|line rest] Hlast; try done.
  cbn [parse]. destruct (startswith line "$") eqn:Hdollar.
  - destruct (plot_block st rest) as [[st' rest']|e] eqn:E; [|intros [= <-]; by eexists].
    apply IH. revert E. unfold plot_block.
    destruct rest as [|nameLine rest0]; [done|]. cbn [getitem lookup list_lookup].
    cbn [mbind result_bind].
    destruct (getitem (split_on "039" nameLine) 1) as [name|e]; [|done].
    cbn [mbind result_bind drop].
    case_attributes Ha.
    cbn [mbind result_bind]. intros [= <- <-].
    destruct rest0 as [|x rest0]; [done|]. by eapply attributes_last.
  - destruct (startswith line "#") eqn:Hhash.
    + destruct (sub_plot st line rest) as [[st' rest']|e] eqn:E; [|intros [= <-]; by eexists].
      apply IH. revert E. unfold sub_plot.
      destruct (getitem (split_on "#" line) 1) as [plotName|e]; [|done].
      cbn [mbind result_bind].
      case_attributes Ha.
      cbn [mbind result_bind]. intros [= <- <-].
      destruct rest as [|x rest]; [done|]. by eapply attributes_last.
    + destruct (data_row st line) as [st'|e]; [|intros [= <-]; by eexists].
      apply IH. destruct rest as [|x rest]; [|done].
      cbn in Hlast. simplify_eq. destruct Hl; congruence.
Qed.

(** X15.  A plot file that the parser accepts begins with a [$] or a [#]
    line and does not end with one: a file whose first line is anything
    else raises (the data row has no sub-plot to go to), and so does a
    file whose last line opens a plot or a sub-plot (the line after it is
    read without a check). *)
Theorem accepted_plot_file (text : string) (st : state F) :
  generatePngPlots_parse text = Some (Ok st) ->
  (forall line, head (readlines text) = Some line ->
     startswith line "$" = true \/ startswith line "#" = true) /\
  (forall line, last (readlines text) = Some line ->
     startswith line "$" = false /\ startswith line "#" = false).
Proof.
  unfold generatePngPlots_parse. intros Hparse. split.
  - intros line Hhead. destruct (readlines text) as [|line' rest]; [done|].
    cbn in Hhead. simplify_eq. cbn [length parse] in Hparse.
    destruct (startswith line "$"); [by left|].
    destruct (startswith line "#"); [by right|]. exfalso.
    revert Hparse. unfold data_row, parser_entry. cbn. done.
  - intros line Hlast.
    destruct (startswith line "$") eqn:Hdollar.
    { destruct (parse_header_last _ _ _ _ _ Hlast (or_introl Hdollar) Hparse) as [e He].
      done. }
    destruct (startswith line "#") eqn:Hhash; [|done].
    destruct (parse_header_last _ _ _ _ _ Hlast (or_intror Hhash) Hparse) as [e He].
    done.
Qed.

(** *** The store *)

Lemma plot_block_nested (st st' : state F) rest rest' :
  nested st -> plot_block st rest = Ok (st', rest') -> nested st'.
Proof.
  intros (Hlen & Hcur & Hcat & Hsub & Hzero & Hseries). unfold plot_block.
  destruct (getitem rest 0) as [nameLine|e]; [|done]. cbn [mbind result_bind].
  destruct (getitem (split_on "039" nameLine) 1) as [name|e]; [|done].
  cbn [mbind result_bind].
  case_attributes Ha.
  cbn [mbind result_bind]. intros [= <- <-]. unfold nested. cbn.
  rewrite !length_app, concat_app. cbn. rewrite app_nil_r.
  repeat split; try done; lia.
Qed.

Lemma concat_alter_last (pl : list (list nat)) k x :
  length pl = S k -> concat (alter (fun l => l ++ [x]) k pl) = concat pl ++ [x].
Proof.
  revert k. induction pl as [|l pl IH]; intros k Hk; [done|].
  destruct k as [|k].
  - destruct pl; [|done]. cbn. by rewrite !app_nil_r.
  - cbn in Hk. cbn [alter list_alter concat].
    change (list_alter ?f k pl) with (alter f k pl).
    rewrite IH by lia. by rewrite app_assoc.
Qed.

Lemma sub_plot_nested (st st' : state F) line rest rest' :
  nested st -> sub_plot st line rest = Ok (st', rest') -> nested st'.
Proof.
  intros (Hlen & Hcur & Hcat & Hsub & Hzero & Hseries). unfold sub_plot.
  destruct (getitem (split_on "#" line) 1) as [plotName|e]; [|done].
  cbn [mbind result_bind].
  case_attributes Ha.
  cbn [mbind result_bind]. intros [= <- <-]. unfold nested. cbn.
  assert (0 < length (sub_plots st))%nat as Hpos by lia.
  rewrite length_alter, length_app. cbn [length].
  split; [done|]. split; [done|]. split; [|split; [lia|split]].
  - rewrite concat_alter_last by lia. rewrite Hcat.
    replace (length (sub_plots st) + 1 - 1)%nat with (S (length (sub_plots st) - 1)) by lia.
    rewrite seq_S. f_equal. f_equal. lia.
  - by rewrite lookup_app_l.
  - intros i d' Hi Hd'. apply lookup_app_Some in Hd' as [Hd'|[Hge Hd']].
    + by apply (Hseries i).
    + apply list_lookup_singleton_Some in Hd' as [_ <-].
      exists [], []. rewrite lookup_insert_ne, !lookup_insert_eq by done. done.
Qed.

Lemma data_row_nested (st st' : state F) line :
  nested st -> data_row st line = Ok st' -> nested st'.
Proof.
  intros (Hlen & Hcur & Hcat & Hsub & Hzero & Hseries). unfold data_row.
  unfold getitem at 1.
  destruct (sub_plots st !! dictSubPlot st) as [d|] eqn:Hd0; [|done].
  cbn [mbind result_bind].
  destruct (decide (dictSubPlot st = 0%nat)) as [E|Hne].
  { rewrite E, Hzero in Hd0. simplify_eq. done. }
  destruct (Hseries (dictSubPlot st) d ltac:(lia) Hd0) as (xs & ys & Hx & Hy & Hxy).
  unfold append_value, dict_getitem. rewrite Hx. cbn [mbind result_bind].
  destruct (getitem _ 0) as [t0|e]; [|done]. cbn [mbind result_bind].
  destruct (float_or_raise t0) as [x|e]; [|done]. cbn [mbind result_bind].
  rewrite lookup_insert_ne, Hy by done.
  cbn [mbind result_bind].
  destruct (getitem _ 1) as [t1|e]; [|done]. cbn [mbind result_bind].
  destruct (float_or_raise t1) as [y|e]; [|done]. cbn [mbind result_bind].
  intros [= <-]. unfold nested. cbn. rewrite length_insert.
  split; [done|]. split; [done|]. split; [done|]. split; [done|]. split.
  - by rewrite list_lookup_insert_ne.
  - intros i d' Hi Hd'. destruct (decide (i = dictSubPlot st)) as [->|Hi'].
    + rewrite list_lookup_insert_eq in Hd' by done. simplify_eq.
      exists (xs ++ [x]), (ys ++ [y]).
      rewrite lookup_insert_ne, !lookup_insert_eq by done.
      rewrite !length_app, Hxy. done.
    + rewrite list_lookup_insert_ne in Hd' by done. by apply (Hseries i).
Qed.

Lemma parse_nested fuel (st st' : state F) lines :
  nested st -> parse fuel st lines = Some (Ok st') -> nested st'.
Proof.
  revert st lines. induction fuel as [|fuel IH]; intros st [|line rest] Hst;
    cbn [parse]; try done; try (by intros [= <-]).
  destruct (startswith line "$").
  - destruct (plot_block st rest) as [[st1 rest1]|e] eqn:E; [|done].
    apply IH. by eapply plot_block_nested.
  - destruct (startswith line "#").
    + destruct (sub_plot st line rest) as [[st1 rest1]|e] eqn:E; [|done].
      apply IH. by eapply sub_plot_nested.
    + destruct (data_row st line) as [st1|e] eqn:E; [|done].
      apply IH. by eapply data_row_nested.
Qed.

Lemma parser_entry_nested : nested (parser_entry (F := F)).
Proof.
  unfold nested, parser_entry. cbn.
  split; [done|]. split; [done|]. split; [done|]. split; [lia|]. split; [done|].
  intros [|i] d Hi; [lia|done].
Qed.


(** X17.  In the store the parser ends with, every sub-plot that a [#]
    line created has a list of x values and a list of y values of the same
    length: a data row that gives an x value but no readable y value
    raises instead of leaving the two series ragged. *)
Theorem series_same_length (text : string) (st : state F)
    (i : nat) (d : gmap string (plotval F)) :
  generatePngPlots_parse text = Some (Ok st) ->
  (1 <= i)%nat -> sub_plots st !! i = Some d ->
  exists xs ys,
    d !! "xValues" = Some (PFloats xs) /\ d !! "yValues" = Some (PFloats ys) /\
    length xs = length ys.
Proof.
  intros Hparse Hi Hd. apply parse_nested in Hparse; [|apply parser_entry_nested].
  destruct Hparse as (_ & _ & _ & _ & _ & Hseries). by apply (Hseries i).
Qed.

End parser.

Lemma accepted_plot_file_witness :
  (forall line, head (readlines Samples.plot_text) = Some line ->
     startswith line "$" = true \/ startswith line "#" = true) /\
  (forall line, last (readlines Samples.plot_text) = Some line ->
     startswith line "$" = false /\ startswith line "#" = false).
Proof.
  apply (accepted_plot_file (F := Q) Samples.plot_text
           (final_state (generatePngPlots_parse Samples.plot_text))).
  vm_compute. reflexivity.
Defined.


Lemma series_same_length_witness :
  exists xs ys : list Q,
    (<["yValues" := PFloats [2%Q; 3%Q]]> (
     <["xValues" := PFloats [1%Q; 2%Q]]> (
     <["linelabel" := PStr "A"]> (
     <["name" := PStr "Series A"]> ∅))) : gmap string (plotval Q)) !! "xValues"
      = Some (PFloats xs) /\
    (<["yValues" := PFloats [2%Q; 3%Q]]> (
     <["xValues" := PFloats [1%Q; 2%Q]]> (
     <["linelabel" := PStr "A"]> (
     <["name" := PStr "Series A"]> ∅))) : gmap string (plotval Q)) !! "yValues"
      = Some (PFloats ys) /\
    length xs = length ys.
Proof.
  apply (series_same_length (F := Q) Samples.plot_text
           (final_state (generatePngPlots_parse Samples.plot_text)) 1).
  - vm_compute. reflexivity.
  - lia.
  - vm_compute. reflexivity.
Defined.

End PlotMore.

(** ** ControlIndexing.run: when it does not return *)

Module IndexingRunSpec.
Import Py ExecDozor ControlIndexingRun.

Section run.
Context {F X R : Type}.
Context (readImageHeader : list string -> result (list (list string)))
        (controlDozor : string -> option (ControlDozor.outData F))
        (xdsIndexing : list (list string) -> list (pyval F) -> option X)
        (xparm : X -> result string)
        (getResultIndexingFromXds : X -> result R).

Lemma spot_files_empty_indicators acc (outs : list (ControlDozor.outData F)) o :
  o ∈ outs -> ControlDozor.imageQualityIndicators o = [] ->
  spot_files acc outs = Raise IndexError.
Proof.
  intros Hin Ho. revert acc. induction outs as [|o' outs IH]; intros acc.
  - by apply elem_of_nil in Hin.
  - cbn [spot_files]. unfold getitem.
    destruct (ControlDozor.imageQualityIndicators o' !! 0%nat) as [first|] eqn:Hfirst.
    + cbn [mbind result_bind].
      assert (o ∈ outs) as Hin'.
      { apply elem_of_cons in Hin as [->|Hin]; [by rewrite Ho in Hfirst|done]. }
      destruct (first !! "dozorSpotFile"); by apply IH.
    + done.
Qed.

(** X18.  [ControlIndexing.run] reads the first indicator of every Dozor
    output it collected.  So when the ControlDozor task of some image
    succeeded without any indicator (its Dozor execution failed, which
    ControlDozor.run tolerates), [run] raises IndexError, whatever the
    other images gave. *)
Theorem run_needs_an_indicator (inData : inDataIndexing)
    (listSubWedge : list (list string)) (path : string) (o : ControlDozor.outData F) :
  subWedge inData = Some listSubWedge ->
  path ∈ concat listSubWedge ->
  controlDozor path = Some o ->
  ControlDozor.imageQualityIndicators o = [] ->
  run readImageHeader controlDozor xdsIndexing xparm getResultIndexingFromXds inData
    = Raised IndexError.
Proof.
  intros Hsub Hpath Ho Hempty. unfold run. rewrite Hsub. cbn [lift exit_bind].
  rewrite (spot_files_empty_indicators [] _ o); [done| |done].
  unfold runControlDozor. apply list_elem_of_omap. by exists path.
Qed.

(** X19.  When the XDS indexing task does not succeed, [run] does not
    return the Dozor results it has: the variable [resultIndexing] was
    never assigned, and building [outData] raises UnboundLocalError. *)
Theorem run_needs_xds (inData : inDataIndexing)
    (listSubWedge : list (list string)) (listDozorSpotFile : list (pyval F))
    (imageDict : list string) (image : string) :
  subWedge inData = Some listSubWedge ->
  spot_files [] (runControlDozor controlDozor listSubWedge) = Ok listDozorSpotFile ->
  listSubWedge !! 0%nat = Some imageDict -> imageDict !! 0%nat = Some image ->
  xdsIndexing listSubWedge listDozorSpotFile = None ->
  run readImageHeader controlDozor xdsIndexing xparm getResultIndexingFromXds inData
    = UnboundLocalError.
Proof.
  intros Hsub Hfiles Hdict Himage Hxds. unfold run, getitem.
  rewrite Hsub. cbn [lift exit_bind]. rewrite Hfiles. cbn [lift exit_bind].
  rewrite Hdict. cbn [lift exit_bind]. rewrite Himage. cbn [lift exit_bind].
  by rewrite Hxds.
Qed.

End run.

Lemma run_needs_an_indicator_witness :
  run (R := unit) Inputs.no_headers Inputs.controlDozor_b_empty Inputs.xds_fails
      Inputs.no_xparm Inputs.no_result
      {| subWedge := Some Inputs.indexing_images; imagePath := None |}
    = Raised IndexError.
Proof.
  apply (run_needs_an_indicator Inputs.no_headers Inputs.controlDozor_b_empty
           Inputs.xds_fails Inputs.no_xparm Inputs.no_result
           {| subWedge := Some Inputs.indexing_images; imagePath := None |}
           Inputs.indexing_images "b.cbf" Inputs.no_indicator).
  - reflexivity.
  - unfold Inputs.indexing_images. cbn. right. left.
  - reflexivity.
  - reflexivity.
Defined.

Lemma run_needs_xds_witness :
  run (R := unit) Inputs.no_headers Inputs.controlDozor_all Inputs.xds_fails
      Inputs.no_xparm Inputs.no_result
      {| subWedge := Some Inputs.indexing_images; imagePath := None |}
    = UnboundLocalError.
Proof.
  apply (run_needs_xds Inputs.no_headers Inputs.controlDozor_all Inputs.xds_fails
           Inputs.no_xparm Inputs.no_result
           {| subWedge := Some Inputs.indexing_images; imagePath := None |}
           Inputs.indexing_images
           [VStr "a.cbf.spot"; VStr "b.cbf.spot"; VStr "c.cbf.spot"]
           ["a.cbf"; "b.cbf"] "a.cbf").
  - reflexivity.
  - vm_compute. reflexivity.
  - reflexivity.
  - reflexivity.
  - reflexivity.
Defined.

End IndexingRunSpec.

(** ** Decimal numerals read back *)

Module DecimalSpec.
Import Py ExecDozor PyFormat DecimalDigits PySpec StringSpec.

Lemma uint_value_mono d acc : 0 <= acc -> acc <= uint_value d acc.
Proof.
  revert acc. induction d as [|d IH|d IH|d IH|d IH|d IH|d IH|d IH|d IH|d IH|d IH];
    intros acc Hacc; cbn [uint_value]; [lia|..];
    (etransitivity; [|apply IH]); lia.
Qed.

Lemma uint_value_pos d p : Z.pos (Pos.of_uint_acc d p) = uint_value d (Z.pos p).
Proof.
  revert p. induction d as [|d IH|d IH|d IH|d IH|d IH|d IH|d IH|d IH|d IH|d IH];
    intros p; cbn [Pos.of_uint_acc uint_value]; [done|..]; rewrite IH; f_equal; lia.
Qed.

Lemma uint_value_N d : Z.of_N (N.of_uint d) = uint_value d 0.
Proof.
  unfold N.of_uint.
  induction d as [|d IH|d IH|d IH|d IH|d IH|d IH|d IH|d IH|d IH|d IH];
    cbn [Pos.of_uint uint_value]; [done|exact IH|..];
    cbn [Z.of_N]; rewrite uint_value_pos; done.
Qed.

Lemma all_digits_uint d : all_digits (DecimalString.NilEmpty.string_of_uint d) = true.
Proof. induction d; cbn; done. Qed.

Lemma int_digits_uint d acc :
  int_digits acc false (DecimalString.NilEmpty.string_of_uint d) = Some (uint_value d acc).
Proof.
  revert acc. induction d as [|d IH|d IH|d IH|d IH|d IH|d IH|d IH|d IH|d IH|d IH];
    intros acc; cbn [DecimalString.NilEmpty.string_of_uint int_digits uint_value];
    [done|..]; cbn [is_digit digit_value]; rewrite IH; f_equal; f_equal; lia.
Qed.

(** The digits of [decimal n] spell [n]. *)
Lemma decimal_uint n :
  0 <= n ->
  exists d, decimal n = (match d with
                         | Decimal.Nil => "0"
                         | _ => DecimalString.NilEmpty.string_of_uint d
                         end) /\ uint_value d 0 = n.
Proof.
  intros Hn. exists (N.to_uint (Z.to_N n)). split; [done|].
  rewrite <- uint_value_N, DecimalN.Unsigned.of_to. lia.
Qed.

Lemma decimal_digits n : 0 <= n -> isdigit (decimal n) = true.
Proof.
  intros Hn. destruct (decimal_uint n Hn) as (d & -> & _).
  destruct d; try done; unfold isdigit;
    cbn [DecimalString.NilEmpty.string_of_uint]; cbn [all_digits is_digit andb];
    apply all_digits_uint.
Qed.

Lemma int_digits_decimal n : 0 <= n -> int_digits 0 false (decimal n) = Some n.
Proof.
  intros Hn. destruct (decimal_uint n Hn) as (d & -> & Hd).
  destruct d; try (by rewrite int_digits_uint, Hd). cbn in Hd. by subst n.
Qed.

Lemma zeros_digits k : all_digits (zeros k) = true.
Proof. induction k; [done|]. by cbn. Qed.

Lemma all_digits_app a b : all_digits (a +:+ b) = all_digits a && all_digits b.
Proof. induction a as [|c a IH]; [done|]. rewrite app_cons. cbn. by rewrite IH, andb_assoc. Qed.

Lemma int_digits_zeros k s : int_digits 0 false (zeros k +:+ s) = int_digits 0 false s.
Proof. induction k as [|k IH]; [done|]. cbn [zeros]. rewrite app_cons. cbn. exact IH. Qed.

(** [int] on a non-empty string of digits. *)
Lemma int_all_digits s :
  isdigit s = true -> int s = int_digits 0 false s.
Proof.
  destruct s as [|c s]; [done|]. unfold isdigit. intros Hs.
  unfold int. rewrite (strip_digits _ Hs).
  pose proof Hs as Hs'. cbn in Hs'. apply andb_true_iff in Hs' as [Hc _].
  assert (int_unsigned (String c s) = int_digits 0 false (String c s)) as E.
  { unfold int_unsigned. by rewrite Hc. }
  rewrite <- E. destruct c as [[][][][][][][][]]; try done.
Qed.

(** A number of five digits and more, printed as [%05d], reads back. *)
Lemma int_format_05d n : 0 <= n -> int (format_05d n) = Some n.
Proof.
  intros Hn. unfold format_05d. rewrite (proj2 (Z.ltb_ge n 0) Hn). unfold zero_pad.
  rewrite int_all_digits.
  - by rewrite int_digits_zeros, int_digits_decimal.
  - pose proof (decimal_digits n Hn) as Hd. unfold isdigit in *.
    destruct (decimal n) as [|c s] eqn:E; [done|].
    destruct (zeros _ +:+ String c s) as [|c' s'] eqn:E'.
    + apply (f_equal String.length) in E'. rewrite length_app_string in E'. cbn in E'. lia.
    + rewrite <- E', all_digits_app, zeros_digits. done.
Qed.

(** X20.  Two different image numbers never get the same spot file: the
    name [%05d.spot] grows with the number instead of cutting it, and it
    reads back as the number itself. *)
Theorem spot_files_distinct (workingDir : string) (n m : Z) :
  0 <= n -> 0 <= m -> n <> m ->
  int (format_05d n) = Some n /\
  path_join workingDir (format_05d n +:+ ".spot")
    <> path_join workingDir (format_05d m +:+ ".spot").
Proof.
  intros Hn Hm Hne. split; [by apply int_format_05d|].
  assert (forall k, 0 <= k -> startswith (format_05d k +:+ ".spot") "/" = false) as Hslash.
  { intros k Hk. unfold format_05d. rewrite (proj2 (Z.ltb_ge k 0) Hk). unfold zero_pad.
    pose proof (decimal_digits k Hk) as Hd. unfold isdigit in Hd.
    destruct (zeros (5 - String.length (decimal k))) as [|z zs] eqn:Ez.
    - destruct (decimal k) as [|c s]; [done|]. cbn in Hd.
      apply andb_true_iff in Hd as [Hc _].
      destruct c as [[][][][][][][][]]; done.
    - destruct (5 - String.length (decimal k))%nat; [done|]. cbn in Ez. by simplify_eq. }
  unfold path_join. rewrite !Hslash by done. intros H.
  assert (format_05d n +:+ ".spot" = format_05d m +:+ ".spot") as H'.
  { destruct (bool_decide (workingDir = "") || endswith workingDir "/").
    - by eapply app_inv_head_string.
    - apply app_inv_head_string in H. by eapply (app_inv_head_string "/"). }
  apply app_inv_tail_string in H'.
  apply Hne. pose proof (int_format_05d n Hn) as E. rewrite H' in E.
  rewrite (int_format_05d m Hm) in E. by simplify_eq.
Qed.

Lemma spot_files_distinct_witness :
  int (format_05d 12) = Some 12 /\
  path_join "/work" (format_05d 12 +:+ ".spot")
    <> path_join "/work" (format_05d 123456 +:+ ".spot").
Proof. apply (spot_files_distinct "/work" 12 123456); lia. Defined.

End DecimalSpec.

(** ** Templates with wildcards: the names of the images *)

Module TemplateSpec.
Import Py ExecDozor PyFormat PyString DecimalDigits PySpec StringSpec DecimalSpec.

(** *** Counting and replacing *)

Lemma count_app c (a b : string) : Samples.count c (a +:+ b) = (Samples.count c a + Samples.count c b)%nat.
Proof.
  induction a as [|x a IH]; [done|]. rewrite app_cons. cbn [Samples.count]. rewrite IH. lia.
Qed.

Lemma count_times c k : Samples.count c (times c k) = k.
Proof. induction k as [|k IH]; [done|]. cbn. rewrite decide_True by done. by rewrite IH. Qed.

Lemma count_absent c s : contains c s = false -> Samples.count c s = 0%nat.
Proof.
  induction s as [|x s IH]; [done|]. cbn [contains Samples.count].
  destruct (decide (x = c)); [done|]. intros H. by rewrite IH.
Qed.

Lemma length_times c k : String.length (times c k) = k.
Proof. induction k as [|k IH]; [done|]. cbn. by rewrite IH. Qed.

Lemma replace_go_absent q o new s :
  contains q s = false -> replace_go (String q o) new 0 s = s.
Proof.
  induction s as [|x s IH]; [done|]. cbn [contains].
  destruct (decide (x = q)) as [|Hne]; [done|]. intros Hs.
  cbn [replace_go]. rewrite prefix_cons_ne by done. by rewrite IH.
Qed.

Lemma replace_go_pass q o new pre rest :
  contains q pre = false ->
  replace_go (String q o) new 0 (pre +:+ rest)
    = pre +:+ replace_go (String q o) new 0 rest.
Proof.
  induction pre as [|x pre IH]; [done|]. cbn [contains].
  destruct (decide (x = q)) as [|Hne]; [done|]. intros Hs.
  rewrite !app_cons. cbn [replace_go]. rewrite prefix_cons_ne by done. by rewrite IH.
Qed.

Lemma replace_go_skip old new x y :
  replace_go old new (String.length x) (x +:+ y) = replace_go old new 0 y.
Proof. induction x as [|c x IH]; [done|]. rewrite app_cons. cbn. exact IH. Qed.

Lemma replace_go_hit q o new rest :
  replace_go (String q o) new 0 (String q o +:+ rest)
    = new +:+ replace_go (String q o) new 0 rest.
Proof.
  rewrite app_cons. cbn [replace_go].
  rewrite <- (app_cons q o rest), prefix_app.
  cbn [String.length]. rewrite Nat.sub_succ, Nat.sub_0_r.
  by rewrite replace_go_skip.
Qed.

Lemma replace_go_no_occurrence old new s :
  occurs old s = false -> replace_go old new 0 s = s.
Proof.
  induction s as [|c s IH]; [done|]. cbn [occurs].
  intros [Hp Hs]%orb_false_iff. cbn [replace_go]. rewrite Hp. by rewrite IH.
Qed.

(** A single run of [k >= 1] characters [c] is replaced as a whole. *)
Lemma replace_run c k new pre post :
  (1 <= k)%nat -> contains c pre = false -> contains c post = false ->
  replace_all (times c k) new (pre +:+ times c k +:+ post) = pre +:+ new +:+ post.
Proof.
  intros Hk Hpre Hpost. destruct k as [|k]; [lia|]. cbn [times]. unfold replace_all.
  rewrite replace_go_pass by done. f_equal.
  rewrite replace_go_hit. f_equal. by apply replace_go_absent.
Qed.

Lemma count_run c k pre post :
  contains c pre = false -> contains c post = false ->
  Samples.count c (pre +:+ times c k +:+ post) = k.
Proof.
  intros Hpre Hpost. rewrite !count_app, count_times, !count_absent by done. lia.
Qed.

(** *** Widths *)

Lemma zero_pad_0 s : zero_pad 0 s = s.
Proof. reflexivity. Qed.

Lemma str_nonneg n : 0 <= n -> str n = decimal n.
Proof. intros Hn. unfold str, format_0d. by rewrite (proj2 (Z.ltb_ge n 0) Hn). Qed.

Lemma width_digits_uint d acc :
  0 <= acc -> uint_value d acc <= max_width ->
  width_digits acc (DecimalString.NilEmpty.string_of_uint d) = Some (Some (uint_value d acc)).
Proof.
  revert acc. induction d as [|d IH|d IH|d IH|d IH|d IH|d IH|d IH|d IH|d IH|d IH];
    intros acc Hacc Hmax;
    cbn [DecimalString.NilEmpty.string_of_uint width_digits uint_value] in *;
    [done|..]; cbn [is_digit digit_value]; rewrite ?Z.add_0_r;
    match goal with
    | |- context [max_width <? ?a] =>
        pose proof (uint_value_mono d a ltac:(lia));
        rewrite (proj2 (Z.ltb_ge max_width a)) by lia
    end;
    (rewrite IH; [f_equal; f_equal; f_equal; lia|lia|]);
    match goal with
    | H : uint_value d ?a <= max_width |- uint_value d ?b <= max_width =>
        replace b with a by lia; exact H
    end.
Qed.

Lemma width_digits_decimal k :
  0 <= k <= max_width -> width_digits 0 (decimal k) = Some (Some k).
Proof.
  intros [Hk Hmax]. destruct (decimal_uint k Hk) as (d & -> & Hd).
  destruct d; try (rewrite width_digits_uint; [by rewrite Hd|done|by rewrite Hd]).
  cbn in Hd. subst k. reflexivity.
Qed.

Lemma decimal_no_brace n c :
  0 <= n -> is_digit c = false -> contains c (decimal n) = false.
Proof.
  intros Hn Hc. pose proof (decimal_digits n Hn) as Hd. unfold isdigit in Hd.
  assert (all_digits (decimal n) = true) as Hall by (by destruct (decimal n)).
  clear Hd. induction (decimal n) as [|x s IH]; [done|]. cbn in Hall |- *.
  apply andb_true_iff in Hall as [Hx Hs].
  destruct (decide (x = c)) as [->|_]; [congruence|]. by apply IH.
Qed.

(** *** [format] *)

Lemma prepend_prepend a b f : prepend a (prepend b f) = prepend (a +:+ b) f.
Proof. destruct f; [|done..]. cbn. by rewrite app_assoc_string. Qed.

Lemma format_go_literal pre rest n :
  contains "{" pre = false -> contains "}" pre = false ->
  format_go Literal (pre +:+ rest) n = prepend pre (format_go Literal rest n).
Proof.
  induction pre as [|c pre IH].
  { rewrite app_empty_l. destruct (format_go Literal rest n); reflexivity. }
  cbn [contains]. destruct (decide (c = "{"%char)); [done|].
  destruct (decide (c = "}"%char)); [done|]. intros H1 H2.
  rewrite app_cons. cbn [format_go]. rewrite !decide_False by done.
  rewrite IH by done. by rewrite prepend_prepend.
Qed.

Lemma format_go_field field w rest n :
  contains "{" w = false -> contains "}" w = false ->
  format_go (Field field) (w +:+ String "}" rest) n =
  match replacement_field (String.rev field +:+ w) n with
  | Value t => prepend t (format_go Literal rest n)
  | other => other
  end.
Proof.
  revert field. induction w as [|c w IH]; intros field.
  - intros _ _. rewrite app_empty_l, append_empty_r. cbn [format_go].
    by rewrite decide_True.
  - cbn [contains]. destruct (decide (c = "{"%char)); [done|].
    destruct (decide (c = "}"%char)); [done|]. intros H1 H2.
    rewrite app_cons. cbn [format_go]. rewrite !decide_False by done.
    rewrite IH by done. by rewrite rev_cons_app.
Qed.

Lemma format_literal s n :
  contains "{" s = false -> contains "}" s = false -> format s n = Value s.
Proof.
  intros H1 H2. unfold format. rewrite <- (append_empty_r s) at 1.
  rewrite format_go_literal by done. cbn. by rewrite append_empty_r.
Qed.

Lemma fixed_contains s :
  Template.fixed s = true ->
  contains "?" s = false /\ contains "{" s = false /\ contains "}" s = false.
Proof.
  induction s as [|c s IH]; [done|]. cbn [Template.fixed contains].
  intros [[[H1 H2]%andb_true_iff H3]%andb_true_iff H4]%andb_true_iff.
  apply negb_true_iff, bool_decide_eq_false in H1, H2, H3.
  rewrite !decide_False by done. by apply IH.
Qed.

(** The format string made from a single run of wildcards, filled in. *)
Lemma format_run pre post (k : nat) (n : Z) :
  (1 <= k)%nat -> Z.of_nat k <= max_width ->
  Template.fixed pre = true -> Template.fixed post = true ->
  format (replace_all (times "?" (Samples.count "?" (pre +:+ times "?" k +:+ post)))
            ("{0:0" +:+ str (Z.of_nat (Samples.count "?" (pre +:+ times "?" k +:+ post))) +:+ "}")
            (pre +:+ times "?" k +:+ post)) n
  = Value (pre +:+ format_0d k n +:+ post).
Proof.
  intros Hk Hmax (Hq1 & Ho1 & Hc1)%fixed_contains (Hq2 & Ho2 & Hc2)%fixed_contains.
  rewrite count_run by done. rewrite replace_run by done.
  rewrite str_nonneg by lia. unfold format.
  rewrite format_go_literal by done.
  assert (("{0:0" +:+ decimal (Z.of_nat k) +:+ "}") +:+ post
          = String "{" (String "0" ((":0" +:+ decimal (Z.of_nat k)) +:+ String "}" post)))
    as ->.
  { rewrite !app_assoc_string. reflexivity. }
  cbn [format_go]. rewrite decide_True by done.
  rewrite !decide_False by done.
  rewrite format_go_field.
  - change (String.rev "0" +:+ ":0" +:+ decimal (Z.of_nat k))
      with (String "0" (String ":" (String "0" (decimal (Z.of_nat k))))).
    cbn [replacement_field]. rewrite width_digits_decimal by lia.
    rewrite Nat2Z.id. change (format_go Literal post n) with (format post n).
    rewrite format_literal by done. reflexivity.
  - change (":0" +:+ decimal (Z.of_nat k))
      with (String ":" (String "0" (decimal (Z.of_nat k)))).
    cbn [contains]. rewrite !decide_False by done. apply decimal_no_brace; [lia|done].
  - change (":0" +:+ decimal (Z.of_nat k))
      with (String ":" (String "0" (decimal (Z.of_nat k)))).
    cbn [contains]. rewrite !decide_False by done. apply decimal_no_brace; [lia|done].
Qed.

(** X21.  For a name template with a single run of [k >= 1] wildcards
    and no braces, that does not end in [.h5], the image name of
    [parseOutput] is the template with the run replaced by the image
    number, padded with zeros to [k] digits (and longer when the number
    needs more). *)
Theorem image_name_single_run (pre post : string) (k : nat) (n : Z) :
  (1 <= k)%nat -> Z.of_nat k <= max_width ->
  Template.fixed pre = true -> Template.fixed post = true ->
  endswith (pre +:+ times "?" k +:+ post) ".h5" = false ->
  Template.image (pre +:+ times "?" k +:+ post) n
    = Value (pre +:+ format_0d k n +:+ post).
Proof.
  intros Hk Hmax Hpre Hpost Hh5. unfold Template.image, Template.template.
  rewrite Hh5. by apply format_run.
Qed.

Lemma image_name_single_run_witness :
  Template.image "/data/ref_????.cbf" 12 = Value "/data/ref_0012.cbf".
Proof.
  apply (image_name_single_run "/data/ref_" ".cbf" 4 12);
    [lia|unfold max_width; lia|reflexivity..].
Defined.

Lemma no_early_match c pre :
  Template.fixed (String c pre) = true ->
  String.prefix "1_??????" (String c pre +:+ "1_??????.h5") = false.
Proof.
  intros H. rewrite app_cons.
  destruct (decide ("1"%char = c)) as [<-|]; [|by apply prefix_cons_ne].
  rewrite prefix_cons_eq. destruct pre as [|c1 pre]; [reflexivity|]. rewrite app_cons.
  destruct (decide ("_"%char = c1)) as [<-|]; [|by apply prefix_cons_ne].
  rewrite prefix_cons_eq. destruct pre as [|c2 pre]; [reflexivity|]. rewrite app_cons.
  apply prefix_cons_ne. intros <-. done.
Qed.

Lemma h5_replace pre :
  Template.fixed pre = true ->
  replace_all "1_??????" "??????" (pre +:+ "1_??????.h5") = pre +:+ "??????.h5".
Proof.
  unfold replace_all. induction pre as [|c pre IH]; [reflexivity|]. intros H.
  pose proof (no_early_match c pre H) as Hno. rewrite app_cons in Hno |- *.
  cbn [replace_go]. rewrite Hno. rewrite app_cons. f_equal. apply IH.
  cbn [Template.fixed] in H. by apply andb_true_iff in H as [_ H].
Qed.

(** X22.  The HDF5 workaround: in a name template that ends in
    [1_??????.h5], with no wildcard or brace before that, the [1_] in front
    of the six wildcards is dropped, and the image name is the rest of the
    template with the image number padded to six digits. *)
Theorem image_name_h5 (pre : string) (n : Z) :
  Template.fixed pre = true ->
  Template.image (pre +:+ "1_??????.h5") n = Value (pre +:+ format_0d 6 n +:+ ".h5").
Proof.
  intros Hpre. unfold Template.image, Template.template.
  assert (endswith (pre +:+ "1_??????.h5") ".h5" = true) as ->.
  { change "1_??????.h5" with ("1_??????" +:+ ".h5").
    rewrite <- app_assoc_string. apply endswith_app. }
  rewrite h5_replace by done.
  apply (format_run pre ".h5" 6 n); [lia|unfold max_width; lia|done|reflexivity].
Qed.

Lemma image_name_h5_witness :
  Template.image "/data/mesh_1_??????.h5" 12 = Value "/data/mesh_000012.h5".
Proof. apply (image_name_h5 "/data/mesh_" 12). reflexivity. Defined.

(** X23.  When the wildcards of a name template are not all in one run
    (and the template has no brace and does not end in [.h5]), nothing is
    replaced: every image of the log gets the template itself as its name,
    question marks included. *)
Theorem image_name_scattered (nameTemplateImage : string) (n : Z) :
  endswith nameTemplateImage ".h5" = false ->
  contains "{" nameTemplateImage = false -> contains "}" nameTemplateImage = false ->
  occurs (times "?" (Samples.count "?" nameTemplateImage)) nameTemplateImage = false ->
  Template.image nameTemplateImage n = Value nameTemplateImage.
Proof.
  intros Hh5 Hopen Hclose Hocc. unfold Template.image, Template.template. rewrite Hh5.
  destruct (Samples.count "?" nameTemplateImage) as [|k].
  - exfalso. cbn [times] in Hocc. destruct nameTemplateImage; cbn in Hocc; done.
  - cbn [times] in Hocc |- *. unfold replace_all.
    rewrite replace_go_no_occurrence by done. by apply format_literal.
Qed.

Lemma image_name_scattered_witness :
  Template.image "/data/a?b?.cbf" 12 = Value "/data/a?b?.cbf".
Proof. apply (image_name_scattered "/data/a?b?.cbf" 12); reflexivity. Defined.

(** *** [percent] *)

Lemma percent_go_plain pre rest arg n :
  contains "%" pre = false ->
  percent_go Plain (pre +:+ rest) arg n = prepend pre (percent_go Plain rest arg n).
Proof.
  induction pre as [|c pre IH].
  { intros _. rewrite app_empty_l. destruct (percent_go Plain rest arg n); reflexivity. }
  cbn [contains]. destruct (decide (c = "%"%char)); [done|]. intros H.
  rewrite app_cons. cbn [percent_go]. rewrite decide_False by done.
  rewrite IH by done. by rewrite prepend_prepend.
Qed.

Lemma percent_go_width d acc in_width rest n :
  0 <= acc -> (in_width = false -> acc = 0) -> uint_value d acc <= max_width ->
  percent_go (Conversion false true acc in_width)
             (DecimalString.NilEmpty.string_of_uint d +:+ String "d" rest) true n
  = prepend (format_0d (Z.to_nat (uint_value d acc)) n) (percent_go Plain rest false n).
Proof.
  revert acc in_width.
  induction d as [|d IH|d IH|d IH|d IH|d IH|d IH|d IH|d IH|d IH|d IH];
    intros acc in_width Hacc Hflag Hmax;
    cbn [DecimalString.NilEmpty.string_of_uint uint_value] in *.
  - rewrite app_empty_l. reflexivity.
  - rewrite app_cons. cbn [percent_go]. cbn.
    destruct in_width; cbn.
    + pose proof (uint_value_mono d (10 * acc) ltac:(lia)).
      rewrite Z.add_0_r. rewrite (proj2 (Z.ltb_ge max_width (10 * acc))) by lia.
      apply IH; [lia|done|done].
    + rewrite (Hflag eq_refl) in *. apply IH; [lia|done|done].
  - rewrite app_cons. cbn [percent_go]. cbn.
    pose proof (uint_value_mono d (10 * acc + 1) ltac:(lia)).
    rewrite (proj2 (Z.ltb_ge max_width (10 * acc + 1))) by lia.
    apply IH; [lia|done|done].
  - rewrite app_cons. cbn [percent_go]. cbn.
    pose proof (uint_value_mono d (10 * acc + 2) ltac:(lia)).
    rewrite (proj2 (Z.ltb_ge max_width (10 * acc + 2))) by lia.
    apply IH; [lia|done|done].
  - rewrite app_cons. cbn [percent_go]. cbn.
    pose proof (uint_value_mono d (10 * acc + 3) ltac:(lia)).
    rewrite (proj2 (Z.ltb_ge max_width (10 * acc + 3))) by lia.
    apply IH; [lia|done|done].
  - rewrite app_cons. cbn [percent_go]. cbn.
    pose proof (uint_value_mono d (10 * acc + 4) ltac:(lia)).
    rewrite (proj2 (Z.ltb_ge max_width (10 * acc + 4))) by lia.
    apply IH; [lia|done|done].
  - rewrite app_cons. cbn [percent_go]. cbn.
    pose proof (uint_value_mono d (10 * acc + 5) ltac:(lia)).
    rewrite (proj2 (Z.ltb_ge max_width (10 * acc + 5))) by lia.
    apply IH; [lia|done|done].
  - rewrite app_cons. cbn [percent_go]. cbn.
    pose proof (uint_value_mono d (10 * acc + 6) ltac:(lia)).
    rewrite (proj2 (Z.ltb_ge max_width (10 * acc + 6))) by lia.
    apply IH; [lia|done|done].
  - rewrite app_cons. cbn [percent_go]. cbn.
    pose proof (uint_value_mono d (10 * acc + 7) ltac:(lia)).
    rewrite (proj2 (Z.ltb_ge max_width (10 * acc + 7))) by lia.
    apply IH; [lia|done|done].
  - rewrite app_cons. cbn [percent_go]. cbn.
    pose proof (uint_value_mono d (10 * acc + 8) ltac:(lia)).
    rewrite (proj2 (Z.ltb_ge max_width (10 * acc + 8))) by lia.
    apply IH; [lia|done|done].
  - rewrite app_cons. cbn [percent_go]. cbn.
    pose proof (uint_value_mono d (10 * acc + 9) ltac:(lia)).
    rewrite (proj2 (Z.ltb_ge max_width (10 * acc + 9))) by lia.
    apply IH; [lia|done|done].
Qed.

Lemma literal_contains s :
  ImageList.literal s = true -> contains "#" s = false /\ contains "%" s = false.
Proof.
  induction s as [|c s IH]; [done|]. cbn [ImageList.literal contains].
  intros [[H1 H2]%andb_true_iff H3]%andb_true_iff.
  apply negb_true_iff, bool_decide_eq_false in H1, H2.
  rewrite !decide_False by done. by apply IH.
Qed.

Lemma percent_literal s n : contains "%" s = false -> percent s n = Error TypeError.
Proof.
  intros H. unfold percent. rewrite <- (append_empty_r s).
  by rewrite percent_go_plain.
Qed.

(** A template with one conversion [%0<k>d]. *)
Lemma percent_padded pre post (k : nat) (n : Z) :
  (1 <= k)%nat -> Z.of_nat k <= max_width ->
  contains "%" pre = false -> contains "%" post = false ->
  percent (pre +:+ ("%0" +:+ str (Z.of_nat k) +:+ "d") +:+ post) n
  = Value (pre +:+ format_0d k n +:+ post).
Proof.
  intros Hk Hmax Hp1 Hp2.
  rewrite str_nonneg by lia. unfold percent.
  rewrite percent_go_plain by done.
  destruct (decimal_uint (Z.of_nat k) ltac:(lia)) as (d & Hdec & Hd).
  assert (decimal (Z.of_nat k) = DecimalString.NilEmpty.string_of_uint d) as ->.
  { rewrite Hdec. destruct d; try done. cbn in Hd. lia. }
  assert (("%0" +:+ DecimalString.NilEmpty.string_of_uint d +:+ "d") +:+ post
          = String "%" (String "0" (DecimalString.NilEmpty.string_of_uint d
                                      +:+ String "d" post))) as ->.
  { rewrite !app_assoc_string. reflexivity. }
  cbn [percent_go]. rewrite decide_True by done. cbn.
  rewrite percent_go_width; [|lia|done|by rewrite Hd].
  rewrite Hd, Nat2Z.id.
  rewrite (bool_decide_eq_false_2 ("0"%char = "%"%char)) by done.
  rewrite (bool_decide_eq_true_2 ("0"%char = "0"%char)) by done. cbn [andb].
  rewrite <- (append_empty_r post) at 1. rewrite percent_go_plain by done.
  cbn. by rewrite append_empty_r.
Qed.

(** The template made from a single run of [#], filled in. *)
Lemma percent_run pre post (k : nat) (n : Z) :
  (1 <= k)%nat -> Z.of_nat k <= max_width ->
  ImageList.literal pre = true -> ImageList.literal post = true ->
  percent (ImageList.self_template (pre +:+ times "#" k +:+ post)) n
  = Value (pre +:+ format_0d k n +:+ post).
Proof.
  intros Hk Hmax [Hh1 Hp1]%literal_contains [Hh2 Hp2]%literal_contains.
  unfold ImageList.self_template.
  assert (contains "#" (pre +:+ times "#" k +:+ post) = true) as ->.
  { rewrite !contains_app. destruct k; [lia|]. cbn. by rewrite orb_true_r. }
  rewrite count_run by done. rewrite replace_run by done.
  by apply percent_padded.
Qed.

Lemma image_paths_map directory template (f : Z -> string) acc indices :
  (forall i, percent template i = Value (f i)) ->
  ImageList.image_paths directory template acc indices
  = Value (acc ++ ((fun i => path_join directory (f i)) <$> indices)).
Proof.
  intros Hf. revert acc. induction indices as [|i indices IH]; intros acc.
  - cbn. by rewrite app_nil_r.
  - cbn [ImageList.image_paths]. rewrite Hf, IH. cbn. by rewrite <- app_assoc.
Qed.

(** X24.  When no image is listed, [createImageDict] makes the list from
    the directory, the template and the range: for a template with a
    single run of [k >= 1] wildcards [#] and no percent sign, it is one
    path per index from [startNo] to [endNo] inclusive, in ascending order,
    each the directory joined with the template in which the run is the
    index padded with zeros to [k] digits; it is empty when [endNo] is
    below [startNo]. *)
Theorem hash_template_images (images : option (list string))
    (directory pre post : string) (k : nat) (startNo endNo : Z) :
  default [] images = [] ->
  (1 <= k)%nat -> Z.of_nat k <= max_width ->
  ImageList.literal pre = true -> ImageList.literal post = true ->
  ImageList.listImage
    {| ImageList.image := images;
       ImageList.directory := Some directory;
       ImageList.template := Some (pre +:+ times "#" k +:+ post);
       ImageList.startNo := Some startNo;
       ImageList.endNo := Some endNo |}
  = Value ((fun i => path_join directory (pre +:+ format_0d k i +:+ post))
             <$> seqZ startNo (endNo + 1 - startNo)).
Proof.
  intros Himages Hk Hmax Hpre Hpost. unfold ImageList.listImage. cbn.
  assert (ImageList.image_paths directory
            (ImageList.self_template (pre +:+ times "#" k +:+ post)) []
            (seqZ startNo (endNo + 1 - startNo))
          = Value ((fun i => path_join directory (pre +:+ format_0d k i +:+ post))
                     <$> seqZ startNo (endNo + 1 - startNo))) as E.
  { rewrite (image_paths_map _ _ (fun i => pre +:+ format_0d k i +:+ post)); [done|].
    intros i. by apply percent_run. }
  destruct images as [[|? ?]|]; try done.
Qed.

Lemma hash_template_images_witness :
  ImageList.listImage
    {| ImageList.image := None;
       ImageList.directory := Some "/data";
       ImageList.template := Some "ref_####.cbf";
       ImageList.startNo := Some 9;
       ImageList.endNo := Some 11 |}
  = Value ["/data/ref_0009.cbf"; "/data/ref_0010.cbf"; "/data/ref_0011.cbf"].
Proof.
  apply (hash_template_images None "/data" "ref_" ".cbf" 4 9 11);
    [reflexivity|lia|unfold max_width; lia|reflexivity..].
Defined.

(** X25.  A template without a wildcard [#] and without a percent sign
    cannot take the image index: when no image is listed and the range is
    not empty, [createImageDict] raises TypeError at the first index (the
    index is not converted by the template); with an empty range it gives
    no image. *)
Theorem plain_template_raises (images : option (list string))
    (directory template : string) (startNo endNo : Z) :
  default [] images = [] -> ImageList.literal template = true ->
  ImageList.listImage
    {| ImageList.image := images;
       ImageList.directory := Some directory;
       ImageList.template := Some template;
       ImageList.startNo := Some startNo;
       ImageList.endNo := Some endNo |}
  = if decide (startNo <= endNo) then Error TypeError else Value [].
Proof.
  intros Himages [Hhash Hpercent]%literal_contains. unfold ImageList.listImage. cbn.
  assert (ImageList.image_paths directory (ImageList.self_template template) []
            (seqZ startNo (endNo + 1 - startNo))
          = if decide (startNo <= endNo) then Error TypeError else Value []) as E.
  { unfold ImageList.self_template. rewrite Hhash.
    destruct (decide (startNo <= endNo)).
    - rewrite seqZ_cons by lia. cbn [ImageList.image_paths].
      by rewrite percent_literal.
    - by rewrite seqZ_nil by lia. }
  destruct images as [[|? ?]|]; try done.
Qed.

Lemma plain_template_raises_witness :
  ImageList.listImage
    {| ImageList.image := Some [];
       ImageList.directory := Some "/data";
       ImageList.template := Some "ref.cbf";
       ImageList.startNo := Some 1;
       ImageList.endNo := Some 3 |}
  = Error TypeError.
Proof.
  apply (plain_template_raises (Some []) "/data" "ref.cbf" 1 3); reflexivity.
Defined.

(** X26.  From a data collection of ISPyB whose file template has one
    conversion [%0<k>d] and no other percent sign,
    [createImageDictFromISPyB] lists [numberOfImages] paths, for the
    numbers from [startImageNumber] on in ascending order: each is the
    image directory joined with the template in which the conversion is
    the number padded with zeros to [k] digits.  The list is empty when
    [numberOfImages] is not positive. *)
Theorem ispyb_images (directory pre post : string) (k : nat)
    (startImageNumber numberOfImages : Z) :
  (1 <= k)%nat -> Z.of_nat k <= max_width ->
  contains "%" pre = false -> contains "%" post = false ->
  IspybImages.listImageFromISPyB
    {| IspybImages.imageDirectory := Some directory;
       IspybImages.fileTemplate :=
         Some (pre +:+ "%0" +:+ str (Z.of_nat k) +:+ "d" +:+ post);
       IspybImages.startImageNumber := Some startImageNumber;
       IspybImages.numberOfImages := Some numberOfImages |}
  = Value ((fun i => path_join directory (pre +:+ format_0d k i +:+ post))
             <$> seqZ startImageNumber numberOfImages).
Proof.
  intros Hk Hmax Hpre Hpost. unfold IspybImages.listImageFromISPyB. cbn.
  replace (startImageNumber + numberOfImages - 1 + 1 - startImageNumber)
    with numberOfImages by lia.
  rewrite (image_paths_map _ _ (fun i => pre +:+ format_0d k i +:+ post)); [done|].
  intros i.
  replace (pre +:+ "%0" +:+ str (Z.of_nat k) +:+ "d" +:+ post)
    with (pre +:+ ("%0" +:+ str (Z.of_nat k) +:+ "d") +:+ post)
    by (by rewrite !app_assoc_string).
  by apply percent_padded.
Qed.

Lemma ispyb_images_witness :
  IspybImages.listImageFromISPyB
    {| IspybImages.imageDirectory := Some "/data";
       IspybImages.fileTemplate := Some "ref_%04d.cbf";
       IspybImages.startImageNumber := Some 9;
       IspybImages.numberOfImages := Some 3 |}
  = Value ["/data/ref_0009.cbf"; "/data/ref_0010.cbf"; "/data/ref_0011.cbf"].
Proof.
  apply (ispyb_images "/data" "ref_" ".cbf" 4 9 3);
    [lia|unfold max_width; lia|reflexivity..].
Defined.

End TemplateSpec.

(** ** determineMinMaxParameters *)

Module MinMaxSpec.
Import Py ExecDozor PyString MinMax.

Section pick.
Context {E K : Type} (before : K -> K -> bool) (keep : K -> bool) (key : E -> K).
Hypothesis before_irrefl : forall x, before x x = false.
Hypothesis before_trans :
  forall x y z, before x y = true -> before y z = true -> before x z = true.

(** What [pick] has after a list: the last of the kept records that was
    before none of the later ones; no kept record is after it. *)
Lemma pick_fold (es : list E) :
  match foldl (pick before keep key) None es with
  | None => forall e, e ∈ es -> keep (key e) = false
  | Some m =>
      m ∈ es /\ keep (key m) = true /\
      forall e, e ∈ es -> keep (key e) = true -> before (key m) (key e) = false
  end.
Proof.
  induction es as [|x es IH] using rev_ind.
  { cbn. intros e He. by apply elem_of_nil in He. }
  rewrite foldl_app. cbn [foldl]. unfold pick at 1.
  destruct (foldl (pick before keep key) None es) as [m|]; cbn [unset_or from_option].
  - destruct IH as (Hm & Hkeep & Hall).
    destruct (before (key m) (key x)) eqn:Hb, (keep (key x)) eqn:Hk; cbn [andb].
    + split; [set_solver|]. split; [done|].
      intros e [He| ->%list_elem_of_singleton]%elem_of_app Hke; [|done].
      destruct (before (key x) (key e)) eqn:Hxe; [|done].
      specialize (Hall e He Hke). by rewrite (before_trans _ _ _ Hb Hxe) in Hall.
    + split; [set_solver|]. split; [done|].
      intros e [He| ->%list_elem_of_singleton]%elem_of_app Hke; [by apply Hall|congruence].
    + split; [set_solver|]. split; [done|].
      intros e [He| ->%list_elem_of_singleton]%elem_of_app Hke; [by apply Hall|done].
    + split; [set_solver|]. split; [done|].
      intros e [He| ->%list_elem_of_singleton]%elem_of_app Hke; [by apply Hall|done].
  - destruct (keep (key x)) eqn:Hk; cbn [andb].
    + split; [set_solver|]. split; [done|].
      intros e [He| ->%list_elem_of_singleton]%elem_of_app Hke; [|done].
      by rewrite (IH e He) in Hke.
    + intros e [He| ->%list_elem_of_singleton]%elem_of_app; [by apply IH|done].
Qed.

Lemma pick_fold_nonempty (es : list E) :
  (forall k, keep k = true) -> es <> [] ->
  exists m, foldl (pick before keep key) None es = Some m.
Proof.
  intros Hkeep Hes. pose proof (pick_fold es) as H.
  destruct (foldl (pick before keep key) None es) as [m|]; [by exists m|].
  destruct es as [|e es]; [done|]. specialize (H e ltac:(left)). by rewrite Hkeep in H.
Qed.

End pick.

Section limits.
Context {F : Type} {float : PyFloat F}.
Context (flt : F -> F -> bool).

Implicit Types (r : gmap string (pyval F)) (t : typed_limits F).
Implicit Types (records : list (gmap string (pyval F))) (es : list (Z * F * F * F)).

Lemma typed_entries r :
  typed r = true ->
  exists n a s v,
    entries r = Some (n, a, s, v) /\
    r !! "number" = Some (VInt n) /\ r !! "angle" = Some (VFloat a) /\
    r !! "dozorScore" = Some (VFloat s) /\
    r !! "dozorVisibleResolution" = Some (VFloat v).
Proof.
  unfold typed, entries. intros H.
  destruct (r !! "number") as [[]|]; try done.
  destruct (r !! "angle") as [[]|]; try done.
  destruct (r !! "dozorScore") as [[]|]; try done.
  destruct (r !! "dozorVisibleResolution") as [[]|]; try done.
  by eexists _, _, _, _.
Qed.

(** On a typed record the loop body is [typed_body]. *)
Lemma body_typed t r n a s v :
  r !! "number" = Some (VInt n) -> r !! "angle" = Some (VFloat a) ->
  r !! "dozorScore" = Some (VFloat s) ->
  r !! "dozorVisibleResolution" = Some (VFloat v) ->
  limits_body flt (untyped t) r = Value (untyped (typed_body flt t n a s v)).
Proof.
  intros Hn Ha Hs Hv. unfold limits_body, untyped, typed_body, item, ten.
  rewrite Hn, Ha, Hs, Hv.
  destruct t as [lo hi la ha ls hs lr hr]. cbn [low_number high_number low_angle
    high_angle low_score high_score low_resolution high_resolution].
  destruct lo as [lo|]; cbn; [destruct (bool_decide (n < lo))|]; cbn;
  (destruct hi as [hi|]; cbn; [destruct (bool_decide (hi < n))|]; cbn);
  (destruct ls as [ls|]; cbn; [destruct (flt s ls)|]; cbn);
  (destruct hs as [hs|]; cbn; [destruct (flt hs s)|]; cbn);
  (destruct lr as [lr|]; cbn; [destruct (flt lr v)|]; cbn;
     try destruct (flt v (float_of_int 10)); cbn);
  (destruct hr as [hr|]; cbn; [destruct (flt v hr)|]; cbn);
  reflexivity.
Qed.

Lemma entries_lookups r n a s v :
  entries r = Some (n, a, s, v) ->
  r !! "number" = Some (VInt n) /\ r !! "angle" = Some (VFloat a) /\
  r !! "dozorScore" = Some (VFloat s) /\
  r !! "dozorVisibleResolution" = Some (VFloat v).
Proof.
  unfold entries.
  destruct (r !! "number") as [[]|]; try done.
  destruct (r !! "angle") as [[]|]; try done.
  destruct (r !! "dozorScore") as [[]|]; try done.
  destruct (r !! "dozorVisibleResolution") as [[]|]; try done.
  by intros [= -> -> -> ->].
Qed.

Lemma typed_read records :
  forallb typed records = true -> exists es, read records es.
Proof.
  induction records as [|r records IH]; [intros _; exists []; constructor|]. cbn [forallb].
  intros [Hr [es Hes]%IH]%andb_true_iff.
  destruct (typed_entries r Hr) as (n & a & s & v & He & _).
  exists ((n, a, s, v) :: es). unfold read in *. by constructor.
Qed.

Lemma read_record records es e :
  read records es -> e ∈ es ->
  exists r, r ∈ records /\ entries r = Some e.
Proof.
  intros Hread [i Hi]%list_elem_of_lookup.
  destruct (Forall2_lookup_r _ _ _ _ _ Hread Hi) as (r & Hr & He).
  exists r. split; [|done]. by eapply list_elem_of_lookup_2.
Qed.

Lemma read_entry records es r :
  read records es -> r ∈ records ->
  exists e, e ∈ es /\ entries r = Some e.
Proof.
  intros Hread [i Hi]%list_elem_of_lookup.
  destruct (Forall2_lookup_l _ _ _ _ _ Hread Hi) as (e & He & Hr).
  exists e. split; [|done]. by eapply list_elem_of_lookup_2.
Qed.

(** The loop over typed records, with what follows them. *)
Lemma loop_typed t records es rest :
  read records es ->
  limits_loop flt (untyped t) (records ++ rest)
  = limits_loop flt (untyped (foldl (typed_step flt) t es)) rest.
Proof.
  intros Hread. revert t. induction Hread as [|r [[[n a] s] v] records es He _ IH]; intros t.
  { reflexivity. }
  destruct (entries_lookups _ _ _ _ _ He) as (Hn & Ha & Hs & Hv).
  cbn [app limits_loop foldl]. rewrite (body_typed t r n a s v) by done.
  cbn [mbind evaluation_bind]. apply IH.
Qed.

Lemma determineMinMaxParameters_typed (out : ControlDozor.outData F) es :
  read (ControlDozor.imageQualityIndicators out) es ->
  determineMinMaxParameters flt out
  = Value (plotDict (untyped (foldl (typed_step flt) typed_entry es))).
Proof.
  intros Hread. unfold determineMinMaxParameters.
  rewrite <- (app_nil_r (ControlDozor.imageQualityIndicators out)).
  change limits_entry with (untyped (F:=F) typed_entry).
  by rewrite (loop_typed _ _ es).
Qed.

(** Every variable of the loop is an entry of the record picked for it. *)
Lemma fields_fold es :
  let t := foldl (typed_step flt) typed_entry es in
  low_number t = number_of <$> min_number es /\
  low_angle t = angle_of <$> min_number es /\
  high_number t = number_of <$> max_number es /\
  high_angle t = angle_of <$> max_number es /\
  low_score t = score_of <$> min_score flt es /\
  high_score t = score_of <$> max_score flt es /\
  low_resolution t = resolution_of <$> min_resolution flt es /\
  high_resolution t = resolution_of <$> max_resolution flt es.
Proof.
  induction es as [|[[[n a] s] v] es IH] using rev_ind; [done|].
  cbn zeta in IH |- *. destruct IH as (H1 & H2 & H3 & H4 & H5 & H6 & H7 & H8).
  unfold min_number, max_number, min_score, max_score, min_resolution, max_resolution
    in *.
  rewrite !foldl_app. cbn [foldl typed_step]. unfold typed_body.
  cbn [low_number low_angle high_number high_angle low_score high_score
       low_resolution high_resolution].
  rewrite H1, H2, H3, H4, H5, H6, H7, H8.
  repeat split.
  all: match goal with
       | |- context [foldl ?f None ?l] =>
           destruct (foldl f None l) as [[[[? ?] ?] ?]|]
       end; unfold pick; cbn.
  all: try match goal with |- context [if ?b && _ then _ else _] => destruct b end; cbn.
  all: try match goal with |- context [if ?b then _ else _] => destruct b end; cbn.
  all: reflexivity.
Qed.

Lemma plotDict_lookup (st : limits F) :
  plotDict st !! "minImageNumber" = Some (minImageNumber st) /\
  plotDict st !! "maxImageNumber" = Some (maxImageNumber st) /\
  plotDict st !! "minAngle" = Some (minAngle st) /\
  plotDict st !! "maxAngle" = Some (maxAngle st) /\
  plotDict st !! "minDozorValue" = Some (minDozorValue st) /\
  plotDict st !! "maxDozorValue" = Some (maxDozorValue st) /\
  plotDict st !! "minResolution" = Some (minResolution st) /\
  plotDict st !! "maxResolution" = Some (maxResolution st).
Proof.
  unfold plotDict.
  repeat lazymatch goal with |- _ /\ _ => split end;
    by rewrite ?lookup_insert_ne, lookup_insert_eq by done.
Qed.

Lemma read_nonempty records es : read records es -> records <> [] -> es <> [].
Proof. intros Hread Hne ->. apply Hne. by inversion Hread. Qed.

Lemma min_number_spec es :
  es <> [] ->
  exists m, min_number es = Some m /\ m ∈ es /\
            forall e, e ∈ es -> number_of m <= number_of e.
Proof.
  intros Hne. unfold min_number.
  pose proof (pick_fold (fun m n => bool_decide (n < m)) (fun _ => true)
                (number_of (F:=F))) as Hpick.
  destruct (pick_fold_nonempty (fun m n => bool_decide (n < m)) (fun _ => true)
              (number_of (F:=F))) with (es := es) as [m Hm]; try done.
  { intros x. apply bool_decide_eq_false. lia. }
  { intros x y z ?%bool_decide_eq_true ?%bool_decide_eq_true.
    apply bool_decide_eq_true. lia. }
  exists m. split; [done|]. specialize (Hpick ltac:(intros x; apply bool_decide_eq_false; lia)
    ltac:(intros x y z ?%bool_decide_eq_true ?%bool_decide_eq_true;
          apply bool_decide_eq_true; lia) es).
  rewrite Hm in Hpick. destruct Hpick as (Hin & _ & Hall). split; [done|].
  intros e He. specialize (Hall e He eq_refl). apply bool_decide_eq_false in Hall. lia.
Qed.

Lemma max_number_spec es :
  es <> [] ->
  exists m, max_number es = Some m /\ m ∈ es /\
            forall e, e ∈ es -> number_of e <= number_of m.
Proof.
  intros Hne. unfold max_number.
  pose proof (pick_fold (fun m n => bool_decide (m < n)) (fun _ => true)
                (number_of (F:=F))) as Hpick.
  destruct (pick_fold_nonempty (fun m n => bool_decide (m < n)) (fun _ => true)
              (number_of (F:=F))) with (es := es) as [m Hm]; try done.
  { intros x. apply bool_decide_eq_false. lia. }
  { intros x y z ?%bool_decide_eq_true ?%bool_decide_eq_true.
    apply bool_decide_eq_true. lia. }
  exists m. split; [done|]. specialize (Hpick ltac:(intros x; apply bool_decide_eq_false; lia)
    ltac:(intros x y z ?%bool_decide_eq_true ?%bool_decide_eq_true;
          apply bool_decide_eq_true; lia) es).
  rewrite Hm in Hpick. destruct Hpick as (Hin & _ & Hall). split; [done|].
  intros e He. specialize (Hall e He eq_refl). apply bool_decide_eq_false in Hall. lia.
Qed.

(** X27.  For typed records (an integer number, floats for the angle,
    the score and the visible resolution) and at least one of them,
    [determineMinMaxParameters] returns the lowest and the highest image
    number of the list, and as [minAngle] and [maxAngle] the angles of a
    record with the lowest and of one with the highest number. *)
Theorem image_number_range (out : ControlDozor.outData F) :
  forallb typed (ControlDozor.imageQualityIndicators out) = true ->
  ControlDozor.imageQualityIndicators out <> [] ->
  exists d lo hi lowest highest,
    determineMinMaxParameters flt out = Value d /\
    d !! "minImageNumber" = Some (VInt lo) /\
    d !! "maxImageNumber" = Some (VInt hi) /\
    lowest ∈ ControlDozor.imageQualityIndicators out /\
    lowest !! "number" = Some (VInt lo) /\ lowest !! "angle" = d !! "minAngle" /\
    highest ∈ ControlDozor.imageQualityIndicators out /\
    highest !! "number" = Some (VInt hi) /\ highest !! "angle" = d !! "maxAngle" /\
    forall r n,
      r ∈ ControlDozor.imageQualityIndicators out ->
      r !! "number" = Some (VInt n) -> lo <= n <= hi.
Proof.
  intros Htyped Hne. destruct (typed_read _ Htyped) as [es Hread].
  pose proof (read_nonempty _ _ Hread Hne) as Hes.
  rewrite (determineMinMaxParameters_typed out es Hread).
  destruct (fields_fold es) as (H1 & H2 & H3 & H4 & _).
  destruct (min_number_spec es Hes) as ([[[lo la] ls] lv] & Hmin & Hlo_in & Hlo).
  destruct (max_number_spec es Hes) as ([[[hi ha] hs] hv] & Hmax & Hhi_in & Hhi).
  rewrite Hmin in H1, H2. rewrite Hmax in H3, H4. cbn in H1, H2, H3, H4.
  destruct (read_record _ _ _ Hread Hlo_in) as (lowest & Hlowest & Hel).
  destruct (read_record _ _ _ Hread Hhi_in) as (highest & Hhighest & Heh).
  apply entries_lookups in Hel as (Hln & Hla & _).
  apply entries_lookups in Heh as (Hhn & Hha & _).
  destruct (plotDict_lookup (untyped (foldl (typed_step flt) typed_entry es)))
    as (D1 & D2 & D3 & D4 & _).
  cbn [untyped minImageNumber maxImageNumber minAngle maxAngle] in D1, D2, D3, D4.
  rewrite H1 in D1. rewrite H3 in D2. rewrite H2 in D3. rewrite H4 in D4.
  eexists _, lo, hi, lowest, highest. split; [reflexivity|].
  rewrite D1, D2, D3, D4. do 8 (split; [done|]).
  intros r n Hr Hn.
  destruct (read_entry _ _ _ Hread Hr) as ([[[n' a'] s'] v'] & He & Hre).
  apply entries_lookups in Hre as (Hn' & _).
  assert (n' = n) as -> by congruence.
  split; [apply (Hlo _ He)|apply (Hhi _ He)].
Qed.

Section order.
Hypothesis flt_irrefl : forall x, flt x x = false.
Hypothesis flt_trans :
  forall x y z, flt x y = true -> flt y z = true -> flt x z = true.

(** X28.  [minResolution] disregards the records without visible
    diffraction: for typed records, and a comparison of floats that is
    irreflexive and transitive, it is the visible resolution of a record of
    the list that is below 10.0 and that no other visible resolution below
    10.0 exceeds; it is [None] exactly when no visible resolution is below
    10.0. *)
Theorem worst_resolution_below_ten (out : ControlDozor.outData F) :
  forallb typed (ControlDozor.imageQualityIndicators out) = true ->
  exists d,
    determineMinMaxParameters flt out = Value d /\
    match d !! "minResolution" with
    | Some VNone =>
        forall r v,
          r ∈ ControlDozor.imageQualityIndicators out ->
          r !! "dozorVisibleResolution" = Some (VFloat v) ->
          flt v (float_of_int 10) = false
    | Some (VFloat worst) =>
        flt worst (float_of_int 10) = true /\
        (exists r, r ∈ ControlDozor.imageQualityIndicators out /\
                   r !! "dozorVisibleResolution" = Some (VFloat worst)) /\
        forall r v,
          r ∈ ControlDozor.imageQualityIndicators out ->
          r !! "dozorVisibleResolution" = Some (VFloat v) ->
          flt v (float_of_int 10) = true -> flt worst v = false
    | _ => False
    end.
Proof.
  intros Htyped. destruct (typed_read _ Htyped) as [es Hread].
  rewrite (determineMinMaxParameters_typed out es Hread).
  destruct (fields_fold es) as (_ & _ & _ & _ & _ & _ & H7 & _).
  destruct (plotDict_lookup (untyped (foldl (typed_step flt) typed_entry es)))
    as (_ & _ & _ & _ & _ & _ & D7 & _).
  cbn [untyped minResolution] in D7. rewrite H7 in D7.
  eexists. split; [reflexivity|]. rewrite D7.
  pose proof (pick_fold flt (fun v => flt v (float_of_int 10)) (resolution_of (F:=F))
                flt_irrefl flt_trans es) as Hpick.
  fold (min_resolution flt es) in Hpick.
  destruct (min_resolution flt es) as [[[[wn wa] ws] worst]|]; cbn.
  - destruct Hpick as (Hin & Hkeep & Hall). split; [done|]. split.
    + destruct (read_record _ _ _ Hread Hin) as (r & Hr & Hre).
      apply entries_lookups in Hre as (_ & _ & _ & Hv). by exists r.
    + intros r v Hr Hv Hten.
      destruct (read_entry _ _ _ Hread Hr) as ([[[n' a'] s'] v'] & He & Hre).
      apply entries_lookups in Hre as (_ & _ & _ & Hv').
      assert (v' = v) as -> by congruence.
      apply (Hall _ He Hten).
  - intros r v Hr Hv.
    destruct (read_entry _ _ _ Hread Hr) as ([[[n' a'] s'] v'] & He & Hre).
    apply entries_lookups in Hre as (_ & _ & _ & Hv').
    assert (v' = v) as -> by congruence.
    apply (Hpick _ He).
Qed.

Lemma flip_trans :
  forall x y z, flt y x = true -> flt z y = true -> flt z x = true.
Proof. intros x y z Hyx Hzy. by apply (flt_trans z y x). Qed.

(** X29.  For typed records, at least one of them, and a comparison of
    floats that is irreflexive and transitive: [minDozorValue] and
    [maxDozorValue] are scores of the list, no score is below the first or
    above the second; [maxResolution] is a visible resolution of the list
    and no visible resolution is below it, the cut at 10.0 playing no part
    here. *)
Theorem score_range (out : ControlDozor.outData F) :
  forallb typed (ControlDozor.imageQualityIndicators out) = true ->
  ControlDozor.imageQualityIndicators out <> [] ->
  exists d lo hi best,
    determineMinMaxParameters flt out = Value d /\
    d !! "minDozorValue" = Some (VFloat lo) /\
    d !! "maxDozorValue" = Some (VFloat hi) /\
    d !! "maxResolution" = Some (VFloat best) /\
    (exists r, r ∈ ControlDozor.imageQualityIndicators out /\
               r !! "dozorScore" = Some (VFloat lo)) /\
    (exists r, r ∈ ControlDozor.imageQualityIndicators out /\
               r !! "dozorScore" = Some (VFloat hi)) /\
    (exists r, r ∈ ControlDozor.imageQualityIndicators out /\
               r !! "dozorVisibleResolution" = Some (VFloat best)) /\
    forall r s v,
      r ∈ ControlDozor.imageQualityIndicators out ->
      r !! "dozorScore" = Some (VFloat s) ->
      r !! "dozorVisibleResolution" = Some (VFloat v) ->
      flt s lo = false /\ flt hi s = false /\ flt v best = false.
Proof.
  intros Htyped Hne. destruct (typed_read _ Htyped) as [es Hread].
  pose proof (read_nonempty _ _ Hread Hne) as Hes.
  rewrite (determineMinMaxParameters_typed out es Hread).
  destruct (fields_fold es) as (_ & _ & _ & _ & H5 & H6 & _ & H8).
  destruct (plotDict_lookup (untyped (foldl (typed_step flt) typed_entry es)))
    as (_ & _ & _ & _ & D5 & D6 & _ & D8).
  cbn [untyped minDozorValue maxDozorValue maxResolution] in D5, D6, D8.
  rewrite H5 in D5. rewrite H6 in D6. rewrite H8 in D8.
  pose proof (pick_fold (fun m s => flt s m) (fun _ => true) (score_of (F:=F))
                flt_irrefl flip_trans es) as Plo.
  pose proof (pick_fold flt (fun _ => true) (score_of (F:=F))
                flt_irrefl flt_trans es) as Phi.
  pose proof (pick_fold (fun m v => flt v m) (fun _ => true) (resolution_of (F:=F))
                flt_irrefl flip_trans es) as Pbest.
  destruct (pick_fold_nonempty (fun m s => flt s m) (fun _ => true) (score_of (F:=F))
              flt_irrefl flip_trans es) as [[[[n1 a1] lo] v1] Elo]; [done..|].
  destruct (pick_fold_nonempty flt (fun _ => true) (score_of (F:=F))
              flt_irrefl flt_trans es) as [[[[n2 a2] hi] v2] Ehi]; [done..|].
  destruct (pick_fold_nonempty (fun m v => flt v m) (fun _ => true)
              (resolution_of (F:=F)) flt_irrefl flip_trans es)
    as [[[[n3 a3] s3] best] Ebest]; [done..|].
  rewrite Elo in Plo. rewrite Ehi in Phi. rewrite Ebest in Pbest.
  unfold min_score, max_score, max_resolution in D5, D6, D8.
  rewrite Elo in D5. rewrite Ehi in D6. rewrite Ebest in D8. cbn in D5, D6, D8.
  destruct Plo as (Ilo & _ & Alo). destruct Phi as (Ihi & _ & Ahi).
  destruct Pbest as (Ibest & _ & Abest).
  eexists _, lo, hi, best. split; [reflexivity|].
  rewrite D5, D6, D8. do 3 (split; [done|]).
  split.
  { destruct (read_record _ _ _ Hread Ilo) as (r & Hr & Hre).
    apply entries_lookups in Hre as (_ & _ & Hs & _). by exists r. }
  split.
  { destruct (read_record _ _ _ Hread Ihi) as (r & Hr & Hre).
    apply entries_lookups in Hre as (_ & _ & Hs & _). by exists r. }
  split.
  { destruct (read_record _ _ _ Hread Ibest) as (r & Hr & Hre).
    apply entries_lookups in Hre as (_ & _ & _ & Hv). by exists r. }
  intros r s v Hr Hs Hv.
  destruct (read_entry _ _ _ Hread Hr) as ([[[n' a'] s'] v'] & He & Hre).
  apply entries_lookups in Hre as (_ & _ & Hs' & Hv').
  assert (s' = s) as -> by congruence. assert (v' = v) as -> by congruence.
  split; [apply (Alo _ He eq_refl)|]. split; [apply (Ahi _ He eq_refl)|].
  apply (Abest _ He eq_refl).
Qed.

End order.

(** A record whose visible resolution is [None] stops the loop. *)
Lemma body_unread t r :
  unread_resolution r = true -> limits_body flt (untyped t) r = Error TypeError.
Proof.
  unfold unread_resolution. intros H.
  destruct (r !! "number") as [[| n | | |]|] eqn:Hn; try done.
  destruct (r !! "angle") as [[| | a | |]|] eqn:Ha; try done.
  destruct (r !! "dozorScore") as [[| | s | |]|] eqn:Hs; try done.
  destruct (r !! "dozorVisibleResolution") as [[| | | |]|] eqn:Hv; try done.
  unfold limits_body, untyped, item, ten. rewrite Hn, Ha, Hs, Hv.
  destruct t as [lo hi la ha ls hs lr hr]. cbn [low_number high_number low_angle
    high_angle low_score high_score low_resolution high_resolution].
  destruct lo as [lo|]; cbn; [destruct (bool_decide (n < lo))|]; cbn;
  (destruct hi as [hi|]; cbn; [destruct (bool_decide (hi < n))|]; cbn);
  (destruct ls as [ls|]; cbn; [destruct (flt s ls)|]; cbn);
  (destruct hs as [hs|]; cbn; [destruct (flt hs s)|]; cbn);
  (destruct lr as [lr|]; cbn);
  reflexivity.
Qed.

(** X30.  A record whose visible resolution could not be read (it is
    [None], as [parseDouble] leaves it) makes [determineMinMaxParameters]
    raise TypeError, whatever comes after it, when the records before it
    are typed. *)
Theorem unread_resolution_raises (out : ControlDozor.outData F) before r after :
  ControlDozor.imageQualityIndicators out = before ++ r :: after ->
  forallb typed before = true ->
  unread_resolution r = true ->
  determineMinMaxParameters flt out = Error TypeError.
Proof.
  intros Hout Htyped Hr. destruct (typed_read _ Htyped) as [es Hread].
  unfold determineMinMaxParameters. rewrite Hout.
  change limits_entry with (untyped (F:=F) typed_entry).
  rewrite (loop_typed _ _ es) by done. cbn [limits_loop].
  by rewrite body_unread.
Qed.

End limits.

Lemma Q_lt_irrefl x : Inputs.Q_lt x x = false.
Proof.
  unfold Inputs.Q_lt. apply negb_false_iff, Qle_bool_iff, Qle_refl.
Qed.

Lemma Q_lt_spec x y : Inputs.Q_lt x y = true <-> (x < y)%Q.
Proof.
  unfold Inputs.Q_lt. rewrite negb_true_iff. split.
  - intros H. apply Qnot_le_lt. intros Hle%Qle_bool_iff. congruence.
  - intros H. destruct (Qle_bool y x) eqn:E; [|done].
    apply Qle_bool_iff in E. by apply Qlt_not_le in H.
Qed.

Lemma Q_lt_trans x y z :
  Inputs.Q_lt x y = true -> Inputs.Q_lt y z = true -> Inputs.Q_lt x z = true.
Proof. rewrite !Q_lt_spec. apply Qlt_trans. Qed.

Lemma image_number_range_witness :
  exists d lo hi lowest highest,
    determineMinMaxParameters Inputs.Q_lt Inputs.three_indicators = Value d /\
    d !! "minImageNumber" = Some (VInt lo) /\
    d !! "maxImageNumber" = Some (VInt hi) /\
    lowest ∈ ControlDozor.imageQualityIndicators Inputs.three_indicators /\
    lowest !! "number" = Some (VInt lo) /\ lowest !! "angle" = d !! "minAngle" /\
    highest ∈ ControlDozor.imageQualityIndicators Inputs.three_indicators /\
    highest !! "number" = Some (VInt hi) /\ highest !! "angle" = d !! "maxAngle" /\
    forall r n,
      r ∈ ControlDozor.imageQualityIndicators Inputs.three_indicators ->
      r !! "number" = Some (VInt n) -> lo <= n <= hi.
Proof.
  apply (image_number_range Inputs.Q_lt Inputs.three_indicators).
  - vm_compute. reflexivity.
  - discriminate.
Defined.

Lemma worst_resolution_below_ten_witness :
  exists d,
    determineMinMaxParameters Inputs.Q_lt Inputs.three_indicators = Value d /\
    match d !! "minResolution" with
    | Some VNone =>
        forall r v,
          r ∈ ControlDozor.imageQualityIndicators Inputs.three_indicators ->
          r !! "dozorVisibleResolution" = Some (VFloat v) ->
          Inputs.Q_lt v (float_of_int 10) = false
    | Some (VFloat worst) =>
        Inputs.Q_lt worst (float_of_int 10) = true /\
        (exists r, r ∈ ControlDozor.imageQualityIndicators Inputs.three_indicators /\
                   r !! "dozorVisibleResolution" = Some (VFloat worst)) /\
        forall r v,
          r ∈ ControlDozor.imageQualityIndicators Inputs.three_indicators ->
          r !! "dozorVisibleResolution" = Some (VFloat v) ->
          Inputs.Q_lt v (float_of_int 10) = true -> Inputs.Q_lt worst v = false
    | _ => False
    end.
Proof.
  apply (worst_resolution_below_ten Inputs.Q_lt Q_lt_irrefl Q_lt_trans
           Inputs.three_indicators).
  vm_compute. reflexivity.
Defined.

Lemma score_range_witness :
  exists d lo hi best,
    determineMinMaxParameters Inputs.Q_lt Inputs.three_indicators = Value d /\
    d !! "minDozorValue" = Some (VFloat lo) /\
    d !! "maxDozorValue" = Some (VFloat hi) /\
    d !! "maxResolution" = Some (VFloat best) /\
    (exists r, r ∈ ControlDozor.imageQualityIndicators Inputs.three_indicators /\
               r !! "dozorScore" = Some (VFloat lo)) /\
    (exists r, r ∈ ControlDozor.imageQualityIndicators Inputs.three_indicators /\
               r !! "dozorScore" = Some (VFloat hi)) /\
    (exists r, r ∈ ControlDozor.imageQualityIndicators Inputs.three_indicators /\
               r !! "dozorVisibleResolution" = Some (VFloat best)) /\
    forall r s v,
      r ∈ ControlDozor.imageQualityIndicators Inputs.three_indicators ->
      r !! "dozorScore" = Some (VFloat s) ->
      r !! "dozorVisibleResolution" = Some (VFloat v) ->
      Inputs.Q_lt s lo = false /\ Inputs.Q_lt hi s = false /\
      Inputs.Q_lt v best = false.
Proof.
  apply (score_range Inputs.Q_lt Q_lt_irrefl Q_lt_trans Inputs.three_indicators).
  - vm_compute. reflexivity.
  - discriminate.
Defined.

Lemma unread_resolution_raises_witness :
  determineMinMaxParameters Inputs.Q_lt Inputs.unread_indicators = Error TypeError.
Proof.
  apply (unread_resolution_raises Inputs.Q_lt Inputs.unread_indicators
           [Inputs.indicator 2 (1 # 2) 3 4]
           (<["dozorVisibleResolution" := VNone]> (Inputs.indicator 1 0 0 50))
           [Inputs.indicator 3 1 7 (5 # 2)]).
  - reflexivity.
  - vm_compute. reflexivity.
  - vm_compute. reflexivity.
Defined.

End MinMaxSpec.
